(* ===== verification/_CoqProject ===== *)
-Q . S2P
Prelude.v
PyPath.v
LanguageBasics.v
Argparse.v
FileSystem.v
Config.v
Category.v
UniqueName.v
Organizer.v
Fixtures.v
OrganizerProps.v
BasicOrganizer.v
BasicProps.v
Scenarios.v
RunInvariants.v
Reporting.v
Main.v
MainProps.v
