(* ===== verification/Prelude.v ===== *)
(** * Verification of the downloads organizers

    The repository holds two versions of one script, their configuration
    files, and a language-basics exercise:
    - the AI-native version,
      [src/python-learning-AI-native/real_projects/01_downloads_organizer/]
      ([main.py]: [get_file_category], [get_unique_filename],
      [organize_files], [main]; [config.py]: the category table and
      settings; [main.py] lines 13-25 hold a fallback table);
    - the basic version, [src/python-learning/projects/01_downloads_organizer/main.py]
      ([get_file_category], [organize_files], [main]), whose configuration
      is [src/projects/01_downloads_organizer/config.py];
    - [src/python-learning/exercises/01_basics/variables.py], a script
      printing values built by integer, float and string operations.
    [organize_files] lists a directory, keeps its regular files (and, in
    the AI-native version, the non-hidden ones), classifies each by its
    lower-cased extension with [get_file_category], and moves it into
    [downloads_path / category] under a name [get_unique_filename] makes
    collision free.  It prints a line per file and a summary and returns
    its counters.

    ** Files, in dependency order
    - [Prelude]: this header; [PyM], a state-and-exception monad with
      Python's semantics (the state survives an exception), its
      notations in [py_scope], its laws, [py_foldM] for [for] loops; the
      weakest precondition [wp] with normal and exceptional
      postconditions and its rules, [wp_foldM] the loop rule; tactics,
      hint databases, generic lemmas on lists, sets and strings.
    - [PyPath]: [pathlib.PurePath] on paths as lists of components:
      [name], [parent], [/] ([join]), [suffix], [stem]; [str.lower] and
      [str.upper] on ASCII; [startswith('.')]; the name
      [f"{stem}_{counter}{suffix}"].
    - [LanguageBasics] (Module [VariablesScript]): [variables.py] as one
      program in [PyM] over the console, with Python's [//], [%], [/],
      [**], [str(int)] and [int(str)].
    - [Argparse]: [parser.parse_args()] for the parser both [main()]
      build ([--path], [--dry-run], [--verbose], [-h]/[--help]), as
      CPython 3.11's [argparse] runs it: [classify] (the first pass of
      [_parse_known_args], with [_parse_optional]'s [=] split, unique
      abbreviations, negative numbers and ["--"]), [consume] (the
      second pass: [consume_optional] and the extras), [parse_args].
    - [FileSystem]: the filesystem the code touches, a [gmap] from paths
      to nodes (file with its content, an inode number, or directory),
      with the paths that may not be written or opened and the files
      whose data cannot be read; Python's exceptions as [py_exc];
      [Path.exists/is_file/is_dir], [Path.mkdir(exist_ok=True)],
      [Path.iterdir] and [shutil.move] as CPython 3.11 runs it for a
      regular file: [os.rename], and on any [OSError] the fallback
      [copy2] then [os.unlink], which can fail after the copy is written
      (Module [FS]); the [DirLister] class, which abstracts the order
      [os.listdir] returns; the effects of the operations on
      well-formedness, on directories and on the file contents (Module
      [FSEffects]).
    - [Config]: the three category tables and the settings of both
      [config.py] files and of the fallback, as data.
    - [Category]: [get_file_category] of both versions (first match of
      the dict's insertion order, then the fallback) and its
      specification.
    - [UniqueName]: [get_unique_filename] and its [while] loop.
    - [Organizer]: the AI-native [organize_files] in [PyM] over a world
      of filesystem and console: [process_body] is the [try] body of the
      loop, [handle] the [except] clauses, [process_file] both,
      [print_summary] the summary, [run_files] the part after the files
      are selected, [organize_files] the whole function.
    - [Fixtures]: concrete filesystems for the scenarios and witnesses.
    - [OrganizerProps]: the theorems on [organize_files], proved with
      two small program logics on [PyM]: [preserves R m] (every run of
      [m] relates its initial and final filesystems by [R]) and
      [returns P m] (every run of [m] returns normally with a result in
      [P]), and the per-file contract [file_outcome] that [process_file]
      refines.
    - [BasicOrganizer]: the basic [organize_files] ([process_file],
      [run_files]), and how it relates to the AI-native one.
    - [BasicProps]: the basic organizer over whole runs, by [wp].
    - [Scenarios]: the runs the specification describes, for every
      listing order, for both organizers.
    - [RunInvariants]: the [try] body on every branch ([body_result]),
      one iteration with its [except] clauses, and invariants of whole
      AI-native runs proved with [wp]: relocation of the top-level
      files, idempotence, bounds on the counters; the copy a failed move
      leaves behind.
    - [Reporting]: what a run prints: the per-file lines of a verbose
      run, and the summary as the pure list [summary_lines].
    - [Main]: both [main()] and the module-level code.  [main] is one
      definition in a Section over the organizer it calls; it prints the
      help ([SystemExit 0]) or the usage error ([SystemExit 2]), or the
      title and target, turns [args.path] into a [Path] ([pure_path],
      AI-native [.expanduser()]), lets the operating system resolve it
      against the working directory ([resolve]) and calls
      [organize_files] ([ai_organize] or [basic_organize]).  [ai_main]
      and [basic_main] are the two [main()]; [ai_script] and
      [basic_script] add the [config] import (with the fallback table in
      the AI-native version, without one in the basic version).  The
      console holds [line]s, the organizer's events wrapped in [LOrg];
      [exit_status] is the process's exit status.
    - [MainProps]: what [main()] does with a command line, for any
      organizer, and the dry-run guarantee of both whole programs.

    ** What is proved
    - [get_unique_filename] returns the destination when it is free and
      otherwise the first free [stem_k.suffix], [k >= 1]; its loop stops
      within its fuel (C1, C2).
    - No run loses a file's content: every content held before a run is
      held after it by as many files at least, on every path, errors
      included, for the AI-native organizer (C3) and for the basic one,
      whose first exception ends the run and which keeps the contents
      exactly when it returns (C11); a dry run changes nothing on disk in
      either (C4, C24).
    - [get_file_category] is first-match classification of the
      lower-cased extension (C5, C25).
    - One iteration of the loop never raises, and its counters follow
      the [try] body's outcome and the [except] clause the exception
      selects (C6); the [try] body on every branch (C10); a live run
      accounts for every file once (C7); a dry run reports no move and
      no error (C12); the counters never exceed the number of files, so
      the summary's subtraction is exact (C13); a missing
      [downloads_path] gives zero counters (C16).
    - Relocation and idempotence: a live run only removes files from the
      top level of [downloads_path], exactly [moved] of them (C9); after
      a run that skipped nothing and failed on nothing, a second run
      finds no file (C8).
    - Behaviours that differ from what the specification or the comments
      say: the "already organized" guard tests the downloads directory's
      own name (C14); a [downloads_path] that is a regular file aborts the
      run with [NotADirectoryError] (C15); the spec's first scenario
      yields 3 or 4 moves depending on the listing order (C17), and on
      the basic organizer it completes or aborts with [FileExistsError]
      depending on that order (C19, C23); [IGNORE_FILES] is never read
      (C20); a file of a [downloads_path] the user may not write is
      counted as skipped while [shutil.move] has left a copy of it in its
      category folder (C31).  The collision scenario holds for every
      order (C18).
    - The basic version's inline loop computes [get_unique_filename]
      (C21), and its per-file step makes the same filesystem change as the
      AI-native one wherever the AI-native guards do not fire (C22).
    - The command line: every argument record the parser can produce is
      what it returns for every ordering of its canonical command line
      (C26); [--dry-run] anywhere on the command line keeps either whole
      program from touching the filesystem (C27); a command line holding
      ["--"] ends in the help (exit 0) or a usage error (exit 2) before
      any folder is read (C28).
    - Reporting: a verbose run returns, and prints for each file of
      [enumerate(files, 1)], in order, a non-empty group of lines naming
      that file and its index (C29, liveness); the summary has at most
      ten lines and accounts for every error, listed or counted in
      [... and N more] (C30).
    - [variables.py] is modelled (Module [VariablesScript]) but carries
      no theorem: it has no input, so what could be proved of it is one
      closed evaluation or a fact of Python's arithmetic.

    ** Bounds and fuel
    The only loop without a bound in the source is the [while] of
    [get_unique_filename].  [unique_loop] runs it with fuel
    [size (fs_nodes σ) + 2]: the candidate paths are pairwise distinct
    ([numbered_inj]), so at most [size] of them exist, and the loop stops
    by then (C2).  Counters are Python integers, so [nat] and [N]; the one
    subtraction the code prints is shown never to truncate (C13).  The
    script's integers are [Z]; its floats are binary64 ([PrimFloat]).
    Every other loop is a [for] over a finite list ([py_foldM]);
    [argparse]'s loops are structural recursions on the argument list
    ([consume] takes two strings at once for [--path VALUE], so its
    theorems use well-founded induction on the length).

    ** Not modelled
    - [argparse]'s help and usage texts (kept as the data [arg_error]),
      and the features this parser does not use: positional arguments,
      subparsers, [fromfile_prefix_chars], mutually exclusive groups.
    - [Path.home()] and [os.path.expanduser] themselves: the home
      directory and [os_expanduser] are parameters.
    - [organize_files] is called with the folder the operating system
      resolves [--path] to, while the code keeps the spelled [Path];
      the two agree everywhere except in [file_path.parent.name], the
      already-organized guard, when [--path] is spelled ["."], [""] or
      ends in [".."] (the code then sees [""] or [".."], the model the
      folder's real name).  Symbolic links are not modelled.
    - A traceback's text: an uncaught exception is a [main_exc] and
      exit status 1.
    - The console text: each [print] is an event carrying the data the
      line shows, not its wording or emoji; [str(float)] in
      [variables.py].
    - [shutil.move] of a directory or a symbolic link (its [copytree] and
      [islink] branches): [organize_files] only moves the regular files
      it lists.  [copy2]'s copying of metadata ([copystat]); a copy
      that fails while reading its source is a file at the destination
      with content of its own ([fresh_ino]), not a prefix of the source.
    - Directories are always readable and searchable: [Path.exists],
      [is_file], [is_dir] and [iterdir] never raise [PermissionError] in
      the model (CPython's [exists] raises it when [stat] is refused,
      [iterdir] when the listing is).
    - Unicode case mapping: [str.lower] and [str.upper] are modelled on
      ASCII letters; [int()]'s whitespace and [_] separators.
    - [MAX_FILE_SIZE_MB], [MIN_FILE_AGE_DAYS], [IGNORE_FOLDERS] and
      [IGNORE_FILES] are data only: no code reads them.
*)

From stdpp Require Import base gmap strings list pretty.

(** ** A state-and-exception monad with Python's semantics

    Python code such as [organize_files] threads an implicit state (the
    filesystem, the console) and may raise an exception at any call.  An
    exception does not roll the state back: a directory created by
    [mkdir] before a failing [shutil.move] stays created.  [PyM S E A] is
    therefore [S -> S * (E + A)]: the final state is returned on both the
    normal and the exceptional path. *)

Definition PyM (S E A : Type) : Type := S → S * (E + A).

Section PyM.
Context {S E : Type}.

Definition py_ret {A} (a : A) : PyM S E A := λ s, (s, inr a).

Definition py_bind {A B} (m : PyM S E A) (k : A → PyM S E B) : PyM S E B :=
  λ s, match m s with
       | (s', inl e) => (s', inl e)
       | (s', inr a) => k a s'
       end.

Definition py_raise {A} (e : E) : PyM S E A := λ s, (s, inl e).

(** [try: m except e: h e], the handler running in the state the
    exception left behind. *)
Definition py_try {A} (m : PyM S E A) (h : E → PyM S E A) : PyM S E A :=
  λ s, match m s with
       | (s', inl e) => h e s'
       | (s', inr a) => (s', inr a)
       end.

Definition py_get : PyM S E S := λ s, (s, inr s).
Definition py_modify (f : S → S) : PyM S E unit := λ s, (f s, inr tt).

(** Lift a fallible pure state transformer (a filesystem call). *)
Definition py_lift {A} (f : S → E + (S * A)) : PyM S E A :=
  λ s, match f s with
       | inl e => (s, inl e)
       | inr (s', a) => (s', inr a)
       end.

(** A computed result or exception, raised in the monad. *)
Definition py_of_sum {A} (r : E + A) : PyM S E A := λ s, (s, r).

(** A loop over a list whose body may raise: the first exception
    escapes, as a Python [for] loop without a [try]. *)
Fixpoint py_foldM {A B} (f : A → B → PyM S E A) (a : A) (l : list B)
  : PyM S E A :=
  match l with
  | [] => py_ret a
  | x :: l' => py_bind (f a x) (λ a', py_foldM f a' l')
  end.
End PyM.

Declare Scope py_scope.
Delimit Scope py_scope with py.
Notation "x <- m ;; k" := (py_bind m (λ x, k))
  (at level 100, m at next level, right associativity) : py_scope.
Notation "m ;; k" := (py_bind m (λ _ : unit, k))
  (at level 100, right associativity) : py_scope.
Notation "'try' m 'except' h" := (py_try m h)
  (at level 62, m at next level, h at next level) : py_scope.

Open Scope py_scope.

Create HintDb pyorg discriminated.
Create Rewrite HintDb pyorg_rw.

Section PyM_laws.
Context {S E : Type}.

Lemma py_bind_ret_l {A B} (a : A) (k : A → PyM S E B) s :
  py_bind (py_ret a) k s = k a s.
Proof. done. Qed.

Lemma py_bind_ret_r {A} (m : PyM S E A) s : py_bind m py_ret s = m s.
Proof. unfold py_bind, py_ret. by destruct (m s) as [? []]. Qed.

Lemma py_bind_assoc {A B C} (m : PyM S E A) (k : A → PyM S E B)
      (k' : B → PyM S E C) s :
  py_bind (py_bind m k) k' s = py_bind m (λ a, py_bind (k a) k') s.
Proof. unfold py_bind. by destruct (m s) as [? []]. Qed.

Lemma py_foldM_app {A B} (f : A → B → PyM S E A) a l1 l2 s :
  py_foldM f a (l1 ++ l2) s = py_bind (py_foldM f a l1) (λ a', py_foldM f a' l2) s.
Proof.
  revert a s. induction l1 as [|x l1 IH]; intros a s; simpl; [done|].
  rewrite py_bind_assoc. unfold py_bind. destruct (f a x s) as [? []]; auto.
Qed.
End PyM_laws.

#[export] Hint Rewrite @py_bind_ret_l @py_bind_assoc : pyorg_rw.

(** ** A weakest precondition for [PyM]

    [wp m Q Qe s]: run from [s], [m] either returns [a] in a state [s']
    with [Q a s'], or raises [e] in a state [s'] with [Qe e s'].  [PyM] is
    deterministic and total, so [wp] is evaluation followed by the
    postcondition; its rules are those of a Hoare logic with exceptional
    postconditions, and [wp_foldM] is the rule for [for] loops. *)
Definition wp {S E A} (m : PyM S E A) (Q : A → S → Prop) (Qe : E → S → Prop) (s : S)
    : Prop :=
  match m s with
  | (s', inr a) => Q a s'
  | (s', inl e) => Qe e s'
  end.

(** The postcondition for code that does not raise. *)
Definition no_exc {S E} : E → S → Prop := λ _ _, False.

Section wp.
Context {S E : Type}.
Implicit Types (Qe : E → S → Prop).

Lemma wp_ret {A} (a : A) Q Qe s : Q a s → wp (py_ret a) Q Qe s.
Proof. done. Qed.

Lemma wp_bind {A B} (m : PyM S E A) (k : A → PyM S E B) Q Qe s :
  wp m (λ a s', wp (k a) Q Qe s') Qe s → wp (py_bind m k) Q Qe s.
Proof. unfold wp, py_bind. by destruct (m s) as [? []]. Qed.

Lemma wp_try {A} (m : PyM S E A) (h : E → PyM S E A) Q Qe s :
  wp m Q (λ e s', wp (h e) Q Qe s') s → wp (py_try m h) Q Qe s.
Proof. unfold wp, py_try. by destruct (m s) as [? []]. Qed.

Lemma wp_mono {A} (m : PyM S E A) (Q Q' : A → S → Prop) Qe Qe' s :
  (∀ a s', Q a s' → Q' a s') → (∀ e s', Qe e s' → Qe' e s') →
  wp m Q Qe s → wp m Q' Qe' s.
Proof. unfold wp. destruct (m s) as [? []]; auto. Qed.

(** The loop rule: an invariant [I] kept by every iteration holds at the
    end of the loop. *)
Lemma wp_foldM {A B} (f : A → B → PyM S E A) (I : A → S → Prop) Qe a l s :
  I a s → (∀ a' x s', x ∈ l → I a' s' → wp (f a' x) I Qe s') →
  wp (py_foldM f a l) I Qe s.
Proof.
  revert a s. induction l as [|x l IH]; intros a s HI Hf; simpl; [done|].
  apply wp_bind. eapply wp_mono; [|done|apply Hf; [by left|done]].
  intros a' s' HI'. apply IH; [done|]. intros; apply Hf; [by right|done].
Qed.

(** A property of the final state that holds on both exits. *)
Lemma wp_final {A} (m : PyM S E A) (P : S → Prop) s :
  wp m (λ _, P) (λ _, P) s → P (m s).1.
Proof. unfold wp. by destruct (m s) as [? []]. Qed.

(** A normal return, read back from [wp]. *)
Lemma wp_no_exc {A} (m : PyM S E A) Q s :
  wp m Q no_exc s → ∃ s' a, m s = (s', inr a) ∧ Q a s'.
Proof. unfold wp. destruct (m s) as [? []]; [done|eauto]. Qed.
End wp.

(** Unfold the monad's plumbing in a goal or a hypothesis. *)
Ltac py_unfold :=
  unfold py_bind, py_ret, py_raise, py_try, py_get, py_modify, py_lift in *.

(** Case analysis on the first [if], [match] or [bool_decide] of the goal,
    keeping the equation. *)
Ltac case_step :=
  match goal with
  | |- context [if bool_decide ?P then _ else _] => case_bool_decide
  | |- context [if ?b then _ else _] => destruct b eqn:?
  | |- context [match ?x with _ => _ end] => destruct x eqn:?
  end.

(** Prove a decidable proposition about concrete data by evaluation. *)
Ltac vm_decide := refine (bool_decide_unpack _ _); vm_compute; reflexivity.

(** ** Lists, maps and strings *)

(** A duplicate-free list of keys of a finite map is no longer than the map. *)
Lemma bool_decide_elem_of_cons `{EqDecision A} (x y : A) l :
  bool_decide (x ∈ y :: l) = bool_decide (x = y) || bool_decide (x ∈ l).
Proof. rewrite <-bool_decide_or. apply bool_decide_ext, elem_of_cons. Qed.

Lemma bool_decide_elem_of_nil `{EqDecision A} (x : A) : bool_decide (x ∈ []) = false.
Proof. apply bool_decide_false, not_elem_of_nil. Qed.
#[export] Hint Rewrite @bool_decide_elem_of_cons @bool_decide_elem_of_nil : pyorg_rw.

Lemma NoDup_keys_length {K V} `{Countable K} (l : list K) (m : gmap K V) :
  NoDup l → (∀ x, x ∈ l → is_Some (m !! x)) → length l ≤ size m.
Proof.
  intros Hnd Hin. rewrite <-size_dom, <-(size_list_to_set (C:=gset K) l) by done.
  apply subseteq_size. intros x Hx. apply elem_of_list_to_set in Hx.
  apply elem_of_dom. auto.
Qed.

(** Removing a member of a finite set takes one off its size. *)
Lemma size_difference_singleton `{FinSet A C} (X : C) x :
  x ∈ X → size (X ∖ {[x]}) + 1 = size X.
Proof.
  intros Hx. rewrite size_difference by set_solver. rewrite size_singleton.
  pose proof (subseteq_size {[x]} X ltac:(set_solver)) as Hle.
  rewrite size_singleton in Hle. lia.
Qed.

Lemma string_app_nil_r (s : string) : s +:+ "" = s.
Proof.
  induction s as [|c s IH]; [done|].
  change (String c (s +:+ "") = String c s). by rewrite IH.
Qed.

Lemma string_length_app (s1 s2 : string) :
  String.length (s1 +:+ s2) = String.length s1 + String.length s2.
Proof. induction s1; simpl; auto. Qed.

Lemma string_app_inv_r (s s1 s2 : string) : s1 +:+ s = s2 +:+ s → s1 = s2.
Proof.
  revert s2. induction s1 as [|a s1 IH]; intros [|b s2] Heq; simpl in *.
  - done.
  - apply (f_equal String.length) in Heq. simpl in Heq.
    rewrite !string_length_app in Heq. simpl in Heq. exfalso; lia.
  - apply (f_equal String.length) in Heq. simpl in Heq.
    rewrite !string_length_app in Heq. simpl in Heq. exfalso; lia.
  - injection Heq as -> Heq. f_equal. auto.
Qed.

Lemma string_app_inv_l (s s1 s2 : string) : s +:+ s1 = s +:+ s2 → s1 = s2.
Proof. induction s as [|a s IH]; simpl; [done|]. intros [=]. auto. Qed.

#[export] Hint Resolve string_app_inv_r string_app_inv_l : pyorg.
