(* ===== verification/PyPath.v ===== *)
(** * Python path and string operations used by the organizer

    The organizer manipulates [pathlib.Path] values through [.name],
    [.parent], [.suffix], [.stem] and the [/] operator, and strings
    through [str.lower], [str.startswith] and f-string formatting of an
    [int].  A path is the list of its components from the filesystem
    root ([/home/u/Downloads] is [["home"; "u"; "Downloads"]]); strings
    are Rocq strings of 8-bit characters, on which [str.lower] is the
    ASCII case map ([A]-[Z] to [a]-[z]), which is what CPython's
    [str.lower] does on that range.  [Path.suffix] and [Path.stem]
    follow CPython 3.12's [pathlib] ([name.rfind('.')] and the test
    [0 < i < len(name) - 1]). *)

From Stdlib Require Import Ascii.
From stdpp Require Import base gmap strings list pretty.
From S2P Require Import Prelude.

Abbreviation path := (list string).

Module PyPath.

(** [Path.name]: the last component, [""] for the root. *)
Definition name (p : path) : string := default "" (last p).

(** [Path.parent]: the path without its last component. *)
Definition parent (p : path) : path := removelast p.

(** [p / n]. *)
Definition join (p : path) (n : string) : path := p ++ [n].

(** [str.lower] on one character. *)
Definition ascii_lower (c : Ascii.ascii) : Ascii.ascii :=
  let n := Ascii.nat_of_ascii c in
  if (65 <=? n) && (n <=? 90) then Ascii.ascii_of_nat (n + 32) else c.

Fixpoint lower (s : string) : string :=
  match s with
  | EmptyString => EmptyString
  | String c s' => String (ascii_lower c) (lower s')
  end.

(** [str.upper] on one character. *)
Definition ascii_upper (c : Ascii.ascii) : Ascii.ascii :=
  let n := Ascii.nat_of_ascii c in
  if (97 <=? n) && (n <=? 122) then Ascii.ascii_of_nat (n - 32) else c.

Fixpoint upper (s : string) : string :=
  match s with
  | EmptyString => EmptyString
  | String c s' => String (ascii_upper c) (upper s')
  end.

(** [s.rfind('.')], [None] standing for Python's [-1]. *)
Fixpoint rfind_dot_go (s : string) (i : nat) (acc : option nat) : option nat :=
  match s with
  | EmptyString => acc
  | String c s' =>
      rfind_dot_go s' (S i) (if bool_decide (c = "."%char) then Some i else acc)
  end.

Definition rfind_dot (s : string) : option nat := rfind_dot_go s 0 None.

(** The position of the suffix's dot, when [0 < i < len(name) - 1]. *)
Definition suffix_dot (nm : string) : option nat :=
  match rfind_dot nm with
  | Some i => if bool_decide (0 < i ∧ i < String.length nm - 1) then Some i else None
  | None => None
  end.

(** [Path.suffix] of a file name: [name[i:]] or [""]. *)
Definition suffix (nm : string) : string :=
  match suffix_dot nm with
  | Some i => String.substring i (String.length nm - i) nm
  | None => ""
  end.

(** [Path.stem] of a file name: [name[:i]] or the whole name. *)
Definition stem (nm : string) : string :=
  match suffix_dot nm with
  | Some i => String.substring 0 i nm
  | None => nm
  end.

(** [name.startswith('.')]. *)
Definition startswith_dot (nm : string) : bool :=
  match nm with
  | String c _ => bool_decide (c = "."%char)
  | EmptyString => false
  end.

(** [f"{stem}_{counter}{suffix}"]. *)
Definition numbered (stm sfx : string) (counter : N) : string :=
  stm +:+ "_" +:+ pretty counter +:+ sfx.

(** ** Lemmas *)

Lemma name_join p n : name (join p n) = n.
Proof. unfold name, join. by rewrite last_snoc. Qed.

Lemma parent_join p n : parent (join p n) = p.
Proof. unfold parent, join. by rewrite removelast_last. Qed.

(** A non-root path is its parent joined with its name. *)
Lemma join_parent_name p : p ≠ [] → join (parent p) (name p) = p.
Proof.
  intros Hp. destruct (exists_last Hp) as (l & x & ->).
  unfold join, parent, name. by rewrite removelast_last, last_app.
Qed.

Lemma join_inj p n1 n2 : join p n1 = join p n2 → n1 = n2.
Proof. unfold join. intros H. by apply app_inj_tail in H as [_ [=]]. Qed.

Lemma join_length p n : length (join p n) = S (length p).
Proof. unfold join. rewrite length_app. simpl. lia. Qed.

Lemma join_not_prefix p n : join p n ≠ p.
Proof. intros H. apply (f_equal length) in H. rewrite join_length in H. lia. Qed.

Lemma ascii_lower_idem c : ascii_lower (ascii_lower c) = ascii_lower c.
Proof. destruct c as [[] [] [] [] [] [] [] []]; reflexivity. Qed.

Lemma lower_idem s : lower (lower s) = lower s.
Proof. induction s; simpl; [done|]. by rewrite ascii_lower_idem, IHs. Qed.

Lemma numbered_inj stm sfx c1 c2 :
  numbered stm sfx c1 = numbered stm sfx c2 → c1 = c2.
Proof.
  unfold numbered. intros H.
  apply string_app_inv_l, (string_app_inv_l "_"), string_app_inv_r in H. by apply (inj pretty).
Qed.

End PyPath.

#[export] Hint Rewrite PyPath.name_join PyPath.parent_join PyPath.lower_idem : pyorg_rw.
#[export] Hint Resolve PyPath.join_not_prefix : pyorg.
