(* ===== verification/LanguageBasics.v ===== *)
(** * The language-basics exercise: [src/python-learning/exercises/01_basics/variables.py]

    A straight-line script of four exercises that prints values built by
    Python's integer, float and string operations.  The script is the
    program [script] in [PyM] over the console; a printed line is its
    f-string as a list of literal pieces and formatted values.

    The operations are modelled with Python's semantics:
    - [//] and [%] floor, and the remainder takes the divisor's sign:
      they are [Z.div] and [Z.modulo]; a zero divisor raises
      [ZeroDivisionError];
    - [/] on two integers is IEEE division of their conversions to
      binary64 ([PrimFloat]), which is CPython's result for operands of
      magnitude below [2^53] (the script's are 10 and 3);
    - [**] with a non-negative exponent is [Z.pow];
    - [str(int)] is the decimal numeral without leading zeros and
      [int(s)] reads an optional sign and decimal digits; the
      whitespace and digit separators [int] also accepts are not
      modelled;
    - [str.upper] and [str.lower] act on ASCII letters.
    [str(float)] (the shortest round-trip repr) is not modelled: a float
    is kept as a value in the printed line. *)

From Stdlib Require Import Floats Ascii DecimalN.
From stdpp Require Import base strings list.
From S2P Require Import Prelude PyPath.

(** Python's literal [5.9] denotes the nearest binary64 value, as Rocq's does. *)
Set Warnings "-inexact-float".

Module VariablesScript.

(** ** Values, printed lines, exceptions *)

Inductive pyval :=
  | VStr (s : string)
  | VInt (z : Z)
  | VFloat (f : float)
  | VBool (b : bool)
  | VClass (nm : string).

(** A piece of an f-string: literal text or a formatted value. *)
Inductive piece :=
  | Lit (s : string)
  | Fmt (v : pyval).

Inductive exc :=
  | ZeroDivisionError
  | ValueError.

Abbreviation M := (PyM (list (list piece)) exc).

Definition print (l : list piece) : M unit := py_modify (λ out, out ++ [l]).

(** The newline that starts some of the f-strings (["\n..."]). *)
Definition nl : string := String "010"%char EmptyString.

(** ** Integer operations *)

Definition py_floordiv (a b : Z) : exc + Z :=
  if bool_decide (b = 0%Z) then inl ZeroDivisionError else inr (a / b)%Z.

Definition py_mod (a b : Z) : exc + Z :=
  if bool_decide (b = 0%Z) then inl ZeroDivisionError else inr (a mod b)%Z.

(** [float(z)]: exact for [|z| < 2^53], rounded to nearest beyond. *)
Definition float_of_Z (z : Z) : float :=
  if bool_decide (z < 0)%Z then PrimFloat.opp (PrimFloat.of_uint63 (Uint63.of_Z (- z)))
  else PrimFloat.of_uint63 (Uint63.of_Z z).

Definition py_truediv (a b : Z) : exc + float :=
  if bool_decide (b = 0%Z) then inl ZeroDivisionError
  else inr (PrimFloat.div (float_of_Z a) (float_of_Z b)).

(** [a ** b] for [b >= 0]; a negative exponent gives a float, not
    modelled. *)
Definition py_pow (a b : Z) : option Z :=
  if bool_decide (0 ≤ b)%Z then Some (a ^ b)%Z else None.

(** ** [str(int)] and [int(str)] *)

Fixpoint uint_to_string (u : Decimal.uint) : string :=
  match u with
  | Decimal.Nil => EmptyString
  | Decimal.D0 u => String "0" (uint_to_string u)
  | Decimal.D1 u => String "1" (uint_to_string u)
  | Decimal.D2 u => String "2" (uint_to_string u)
  | Decimal.D3 u => String "3" (uint_to_string u)
  | Decimal.D4 u => String "4" (uint_to_string u)
  | Decimal.D5 u => String "5" (uint_to_string u)
  | Decimal.D6 u => String "6" (uint_to_string u)
  | Decimal.D7 u => String "7" (uint_to_string u)
  | Decimal.D8 u => String "8" (uint_to_string u)
  | Decimal.D9 u => String "9" (uint_to_string u)
  end.

Definition str_int (z : Z) : string :=
  match z with
  | Zneg p => "-" +:+ uint_to_string (N.to_uint (Npos p))
  | _ => uint_to_string (N.to_uint (Z.to_N z))
  end.

Definition digit (c : ascii) : option (Decimal.uint → Decimal.uint) :=
  match c with
  | "0"%char => Some Decimal.D0 | "1"%char => Some Decimal.D1
  | "2"%char => Some Decimal.D2 | "3"%char => Some Decimal.D3
  | "4"%char => Some Decimal.D4 | "5"%char => Some Decimal.D5
  | "6"%char => Some Decimal.D6 | "7"%char => Some Decimal.D7
  | "8"%char => Some Decimal.D8 | "9"%char => Some Decimal.D9
  | _ => None
  end.

Fixpoint string_to_uint (s : string) : option Decimal.uint :=
  match s with
  | EmptyString => Some Decimal.Nil
  | String c s' => d ← digit c; u ← string_to_uint s'; Some (d u)
  end.

(** One digit or more. *)
Definition digits (s : string) : option N :=
  match s with
  | EmptyString => None
  | _ => N.of_uint <$> string_to_uint s
  end.

(** [int(s)]: an optional sign, then one decimal digit or more. *)
Definition py_int (s : string) : exc + Z :=
  let read sign t := match digits t with
                     | Some n => inr (sign (Z.of_N n))
                     | None => inl ValueError
                     end in
  match s with
  | EmptyString => inl ValueError
  | String c t =>
      if bool_decide (c = "-"%char) then read Z.opp t
      else if bool_decide (c = "+"%char) then read id t
      else read id s
  end.

(** [type(v).__name__]. *)
Definition type_name (v : pyval) : string :=
  match v with
  | VStr _ => "str"
  | VInt _ => "int"
  | VFloat _ => "float"
  | VBool _ => "bool"
  | VClass _ => "type"
  end.

(** [str(v)], the text an f-string shows; [None] for a float, whose repr
    is not modelled. *)
Definition py_str (v : pyval) : option string :=
  match v with
  | VStr s => Some s
  | VInt z => Some (str_int z)
  | VFloat _ => None
  | VBool b => Some (if b then "True" else "False")
  | VClass nm => Some ("<class '" +:+ nm +:+ "'>")
  end.

Definition render_piece (p : piece) : option string :=
  match p with Lit s => Some s | Fmt v => py_str v end.

(** The text of a printed line, when it holds no float. *)
Definition render (l : list piece) : option string :=
  foldr (λ p acc, s1 ← render_piece p; s2 ← acc; Some (s1 +:+ s2)) (Some "") l.

(** ** The script *)

Definition script : M unit :=
  (* Exercise 1 *)
  let name := "Your Name" in
  let age := 25%Z in
  let height := 5.9%float in
  let is_student := true in
  print [Lit "Name: "; Fmt (VStr name)] ;;
  print [Lit "Age: "; Fmt (VInt age)] ;;
  print [Lit "Height: "; Fmt (VFloat height); Lit " feet"] ;;
  print [Lit "Student: "; Fmt (VBool is_student)] ;;
  (* Exercise 2 *)
  let num1 := 10%Z in
  let num2 := 3%Z in
  print [Lit (nl +:+ "Arithmetic with "); Fmt (VInt num1); Lit " and "; Fmt (VInt num2);
         Lit ":"] ;;
  print [Lit "Addition: "; Fmt (VInt (num1 + num2))] ;;
  print [Lit "Subtraction: "; Fmt (VInt (num1 - num2))] ;;
  print [Lit "Multiplication: "; Fmt (VInt (num1 * num2))] ;;
  q <- py_of_sum (py_truediv num1 num2) ;;
  print [Lit "Division: "; Fmt (VFloat q)] ;;
  fq <- py_of_sum (py_floordiv num1 num2) ;;
  print [Lit "Floor Division: "; Fmt (VInt fq)] ;;
  r <- py_of_sum (py_mod num1 num2) ;;
  print [Lit "Modulus: "; Fmt (VInt r)] ;;
  (* [num2] is not negative, so [num1 ** num2] is an integer. *)
  (match py_pow num1 num2 with
   | Some e => print [Lit "Exponent: "; Fmt (VInt e)]
   | None => py_ret tt
   end) ;;
  (* Exercise 3 *)
  let first_name := "Python" in
  let last_name := "Learner" in
  let full_name := first_name +:+ " " +:+ last_name in
  print [Lit (nl +:+ "Full name: "); Fmt (VStr full_name)] ;;
  print [Lit "Length: "; Fmt (VInt (Z.of_nat (String.length full_name)))] ;;
  print [Lit "Uppercase: "; Fmt (VStr (PyPath.upper full_name))] ;;
  print [Lit "Lowercase: "; Fmt (VStr (PyPath.lower full_name))] ;;
  (* Exercise 4 *)
  let string_number := "100" in
  number <- py_of_sum (py_int string_number) ;;
  print [Lit (nl +:+ "Converted '"); Fmt (VStr string_number); Lit "' to number: ";
         Fmt (VInt number)] ;;
  print [Lit "Type: "; Fmt (VClass (type_name (VInt number)))].

End VariablesScript.
