(* ===== verification/Argparse.v ===== *)
(** * The command line of both organizers: [argparse.ArgumentParser.parse_args]

    Both [main()] functions build the same parser: [--path] ([type=str],
    one argument), [--dry-run] and [--verbose] ([store_true]), plus the
    [-h]/[--help] option every [ArgumentParser] has.  This file models the
    parse of [sys.argv[1:]] by CPython 3.11's [argparse] for that parser,
    following its two passes over the argument strings:
    - [classify] is the first pass of [_parse_known_args]: every string is
      an option (['O'], [_parse_optional] and [_get_option_tuples], with
      the [=] split and the unique-prefix abbreviations), an argument
      (['A']), or the first ["--"] (['-'], after which every string is an
      argument);
    - [consume] is the second pass: [consume_optional] from left to right
      ([--path] takes its explicit value or the next ['A'] string, a flag
      refuses an explicit value unless it is a single-dash cluster such as
      [-hh]), strings that no option takes go to [extras], and
      [parse_args] fails on non-empty [extras].
    [--help] prints the help and exits with status 0 the moment it is
    consumed; every [error()] exits with status 2.  The messages are kept
    as data ([arg_error]), not as text.

    The one library module the repository's code calls here is [argparse];
    it is not under [src/], so the definitions below are modelled on its
    documented behaviour for this parser. *)

From Stdlib Require Import Ascii.
From stdpp Require Import base strings list sets.
From S2P Require Import Prelude PyPath.

Module Argparse.

(** ** The parser's options *)

Inductive action := AHelp | APath | ADryRun | AVerbose.

#[export] Instance action_eq_dec : EqDecision action.
Proof. solve_decision. Defined.

(** [parser._option_string_actions], in registration order. *)
Definition option_string_actions : list (string * action) :=
  [("-h", AHelp); ("--help", AHelp); ("--path", APath);
   ("--dry-run", ADryRun); ("--verbose", AVerbose)].

Fixpoint lookup_option (tbl : list (string * action)) (s : string) : option action :=
  match tbl with
  | [] => None
  | (o, a) :: tbl' => if bool_decide (o = s) then Some a else lookup_option tbl' s
  end.

(** [args.path]: the default, a string, or the empty list that
    [_get_values] makes of the argument ["--"]. *)
Inductive path_arg :=
  | PathStr (s : string)
  | PathObj (p : path)
  | PathList.

Record cli_args := mkArgs {
  args_path : path_arg;
  args_dry_run : bool;
  args_verbose : bool
}.

Inductive arg_error :=
  | Ambiguous (arg : string) (matches : list string)
  | ExpectedOneArgument (a : action)
  | IgnoredExplicitArgument (a : action) (explicit : string)
  | UnrecognizedArguments (extras : list string).

Inductive parse_result :=
  | ParsedHelp
  | ParseError (e : arg_error)
  | Parsed (a : cli_args).

(** ** String tests of [_parse_optional] *)

Definition is_dash (c : ascii) : bool := bool_decide (c = "-"%char).

(** [arg_string.split('=', 1)], when the string has a ['=']. *)
Fixpoint split_eq (s : string) : option (string * string) :=
  match s with
  | EmptyString => None
  | String c s' =>
      if bool_decide (c = "="%char) then Some (EmptyString, s')
      else (λ p : string * string, (String c p.1, p.2)) <$> split_eq s'
  end.

Fixpoint has_char (c : ascii) (s : string) : bool :=
  match s with
  | EmptyString => false
  | String c' s' => bool_decide (c' = c) || has_char c s'
  end.

Definition is_digit (c : ascii) : bool :=
  let n := nat_of_ascii c in (48 <=? n) && (n <=? 57).

Fixpoint all_digits (s : string) : bool :=
  match s with
  | EmptyString => true
  | String c s' => is_digit c && all_digits s'
  end.

(** [parser._negative_number_matcher]: [^-\d+$|^-\d*\.\d+$]. *)
Definition negative_number (s : string) : bool :=
  match s with
  | String c t =>
      is_dash c &&
      ((negb (bool_decide (t = "")) && all_digits t) ||
       match String.index 0 "." t with
       | Some i => all_digits (String.substring 0 i t) &&
                   negb (bool_decide (i + 1 = String.length t)) &&
                   all_digits (String.substring (i + 1) (String.length t - i - 1) t)
       | None => false
       end)
  | EmptyString => false
  end.

(** ** First pass: [_parse_optional] *)

Inductive token :=
  | TOpt (a : action) (opt : string) (explicit : option string)
  | TUnknown (s : string)
  | TArg (s : string)
  | TSep.

Definition option_tuple : Type := action * string * option string.

(** [_get_option_tuples] (with [allow_abbrev]): the options a string
    that is not an option string may abbreviate. *)
Definition get_option_tuples (s : string) : list option_tuple :=
  match s with
  | String c0 (String c1 rest) =>
      if is_dash c0 && is_dash c1 then
        let '(prefix, explicit) :=
          match split_eq s with
          | Some (p, e) => (p, Some e)
          | None => (s, None)
          end in
        omap (λ oa : string * action,
                if String.prefix prefix oa.1 then Some (oa.2, oa.1, explicit) else None)
             option_string_actions
      else if is_dash c0 then
        omap (λ oa : string * action,
                if bool_decide (oa.1 = String c0 (String c1 EmptyString))
                then Some (oa.2, oa.1, Some rest)
                else if String.prefix s oa.1 then Some (oa.2, oa.1, None) else None)
             option_string_actions
      else []
  | _ => []
  end.

Definition parse_optional (s : string) : arg_error + token :=
  match s with
  | EmptyString => inr (TArg s)
  | String c rest =>
      if negb (is_dash c) then inr (TArg s) else
      match lookup_option option_string_actions s with
      | Some a => inr (TOpt a s None)
      | None =>
          if bool_decide (rest = "") then inr (TArg s) else
          match split_eq s ≫= λ oe, (λ a, (a, oe.1, oe.2)) <$>
                                      lookup_option option_string_actions oe.1 with
          | Some (a, o, e) => inr (TOpt a o (Some e))
          | None =>
              match get_option_tuples s with
              | [(a, o, e)] => inr (TOpt a o e)
              | [] => if negative_number s || has_char " "%char s then inr (TArg s)
                      else inr (TUnknown s)
              | ts => inl (Ambiguous s (map (λ t : option_tuple, t.1.2) ts))
              end
          end
      end
  end.

(** The loop of [_parse_known_args] that builds [arg_strings_pattern];
    [error()] on an ambiguous abbreviation stops it. *)
Fixpoint classify (l : list string) : arg_error + list token :=
  match l with
  | [] => inr []
  | s :: l' =>
      if bool_decide (s = "--") then inr (TSep :: map TArg l')
      else match parse_optional s with
           | inl e => inl e
           | inr t => match classify l' with
                      | inl e => inl e
                      | inr ts => inr (t :: ts)
                      end
           end
  end.

(** ** Second pass: [consume_optional] and the extras *)

(** [_get_values] for [--path]: ['--'] is removed from the strings,
    which leaves the empty list. *)
Definition path_value (v : string) : path_arg :=
  if bool_decide (v = "--") then PathList else PathStr v.

Definition set_path (a : cli_args) (v : string) : cli_args :=
  mkArgs (path_value v) (args_dry_run a) (args_verbose a).

(** The single-dash cluster after [-h] (as in [-hh]): each further
    character must be an option string ["-" + c]; [-h] is the only one. *)
Fixpoint short_cluster (e : string) : parse_result :=
  match e with
  | EmptyString => ParsedHelp
  | String c e' =>
      if bool_decide (c = "h"%char) then short_cluster e'
      else ParseError (IgnoredExplicitArgument AHelp e)
  end.

Definition single_dash (o : string) : bool :=
  match o with
  | String _ (String c _) => negb (is_dash c)
  | _ => false
  end.

Fixpoint consume (ts : list token) (a : cli_args) (extras : list string) : parse_result :=
  match ts with
  | [] => if bool_decide (extras = []) then Parsed a
          else ParseError (UnrecognizedArguments extras)
  | TSep :: ts' => consume ts' a (extras ++ ["--"])
  | TArg s :: ts' => consume ts' a (extras ++ [s])
  | TUnknown s :: ts' => consume ts' a (extras ++ [s])
  | TOpt APath _ (Some v) :: ts' => consume ts' (set_path a v) extras
  | TOpt APath _ None :: TArg v :: ts' => consume ts' (set_path a v) extras
  | TOpt APath _ None :: _ => ParseError (ExpectedOneArgument APath)
  | TOpt act o (Some e) :: ts' =>
      if single_dash o && negb (bool_decide (e = "")) then short_cluster e
      else ParseError (IgnoredExplicitArgument act e)
  | TOpt AHelp _ None :: _ => ParsedHelp
  | TOpt ADryRun _ None :: ts' => consume ts' (mkArgs (args_path a) true (args_verbose a)) extras
  | TOpt AVerbose _ None :: ts' => consume ts' (mkArgs (args_path a) (args_dry_run a) true) extras
  end.

(** [parser.parse_args()], the default of [--path] given. *)
Definition parse_args (default : path_arg) (argv : list string) : parse_result :=
  match classify argv with
  | inl e => ParseError e
  | inr ts => consume ts (mkArgs default false false) []
  end.

(** ** The command lines that produce given arguments *)

#[export] Instance path_arg_eq_dec : EqDecision path_arg.
Proof. solve_decision. Defined.

#[export] Instance cli_args_eq_dec : EqDecision cli_args.
Proof. solve_decision. Defined.

(** A canonical command line for [a]: [--path=VALUE] when the path is
    not the default, then the flags that are set. *)
Definition argv_of (default : path_arg) (a : cli_args) : list string :=
  (if bool_decide (args_path a = default) then []
   else match args_path a with
        | PathStr s => ["--path=" +:+ s]
        | PathList => ["--path=--"]
        | PathObj _ => []
        end) ++
  (if args_dry_run a then ["--dry-run"] else []) ++
  (if args_verbose a then ["--verbose"] else []).

(** The arguments a command line can produce: a [Path] object only as
    the default, and not the string ["--"], which becomes [[]]. *)
Definition representable (default : path_arg) (a : cli_args) : Prop :=
  args_path a = default ∨
  match args_path a with
  | PathStr s => s ≠ "--"
  | PathList => True
  | PathObj _ => False
  end.

Lemma parse_optional_path s :
  parse_optional ("--path=" +:+ s) = inr (TOpt APath "--path" (Some s)).
Proof. cbn. reflexivity. Qed.

Lemma argv_of_shape default a :
  representable default a →
  ∃ s (b : bool),
    argv_of default a = (if b then ["--path=" +:+ s] else []) ++
                        (if args_dry_run a then ["--dry-run"] else []) ++
                        (if args_verbose a then ["--verbose"] else []) ∧
    (if b then path_value s else default) = args_path a.
Proof.
  unfold argv_of, representable. intros Hrep. case_bool_decide as Hd.
  { by exists "", false. }
  destruct Hrep as [?|Hrep]; [done|].
  destruct (args_path a) as [s| |] eqn:Hp; [|done|].
  - exists s, true. split; [done|]. unfold path_value. by case_bool_decide.
  - exists "--", true. done.
Qed.

Section Permutations.
Context (s : string).

(** The three option strings of a canonical command line. *)
Definition flag_strings : list string := ["--path=" +:+ s; "--dry-run"; "--verbose"].

(** What a command line made of [flag_strings] sets, from [a]. *)
Definition set_by (l : list string) (a : cli_args) : cli_args :=
  mkArgs (if bool_decide (("--path=" +:+ s) ∈ l) then path_value s else args_path a)
         (args_dry_run a || bool_decide ("--dry-run" ∈ l))
         (args_verbose a || bool_decide ("--verbose" ∈ l)).

Lemma path_string_ne_flags : "--path=" +:+ s ≠ "--dry-run" ∧ "--path=" +:+ s ≠ "--verbose".
Proof. split; by cbn. Qed.

(** How [_parse_optional] classifies each of [flag_strings]. *)
Definition flag_token (t : string) : token :=
  if bool_decide (t = "--dry-run") then TOpt ADryRun "--dry-run" None
  else if bool_decide (t = "--verbose") then TOpt AVerbose "--verbose" None
  else TOpt APath "--path" (Some s).

Lemma classify_flag_strings l :
  Forall (.∈ flag_strings) l → classify l = inr (flag_token <$> l).
Proof.
  pose proof path_string_ne_flags as [Hnd Hnv].
  induction 1 as [|t l Ht _ IH]; [done|]. cbn [classify fmap list_fmap]. rewrite IH.
  unfold flag_strings, flag_token in *. rewrite !elem_of_cons, elem_of_nil in Ht.
  destruct Ht as [-> | [-> | [-> | []]]]; [|by cbn..].
  rewrite bool_decide_false by (cbn; done). rewrite parse_optional_path.
  by rewrite !bool_decide_false by done.
Qed.

Lemma consume_flag_strings l a :
  Forall (.∈ flag_strings) l → consume (flag_token <$> l) a [] = Parsed (set_by l a).
Proof.
  pose proof path_string_ne_flags as [Hnd Hnv].
  intros Hl. revert a. induction Hl as [|t l Ht _ IH]; intros a.
  { unfold set_by. destruct a; cbn. by rewrite !orb_false_r. }
  unfold flag_strings in Ht. rewrite !elem_of_cons, elem_of_nil in Ht.
  destruct Ht as [-> | [-> | [-> | []]]]; rewrite fmap_cons;
    [unfold flag_token at 1; rewrite !bool_decide_false by done
    |change (flag_token "--dry-run") with (TOpt ADryRun "--dry-run" None)
    |change (flag_token "--verbose") with (TOpt AVerbose "--verbose" None)];
    cbn [consume]; rewrite IH; unfold set_by; f_equal; cbn; rewrite ?bool_decide_elem_of_cons;
    destruct (args_dry_run a), (args_verbose a); repeat case_bool_decide; simpl; congruence.
Qed.
End Permutations.

Lemma parse_args_permuted default a l :
  representable default a → l ≡ₚ argv_of default a → parse_args default l = Parsed a.
Proof.
  intros Hrep Hl. destruct (argv_of_shape default a Hrep) as (s & b & Hargv & Hpath).
  rewrite Hargv in Hl. pose proof (path_string_ne_flags s) as [Hnd Hnv].
  assert (∀ x, bool_decide (x ∈ l) =
     bool_decide (x ∈ (if b then ["--path=" +:+ s] else []) ++
                      (if args_dry_run a then ["--dry-run"] else []) ++
                      (if args_verbose a then ["--verbose"] else []))) as Hm.
  { intros x. apply bool_decide_ext. by rewrite Hl. }
  unfold parse_args. rewrite (classify_flag_strings s), consume_flag_strings.
  2,3: rewrite Hl, Forall_forall; intros x Hx; unfold flag_strings;
       destruct b, (args_dry_run a), (args_verbose a); cbn in Hx;
       repeat (rewrite elem_of_cons in Hx || rewrite elem_of_nil in Hx);
       rewrite !elem_of_cons; intuition auto.
  f_equal. unfold set_by. rewrite !Hm. destruct a as [p dr vb]; cbn in *.
  destruct b, dr, vb; cbn; rewrite ?bool_decide_elem_of_cons, ?bool_decide_elem_of_nil;
    repeat case_bool_decide; cbn; congruence.
Qed.

(** ** What a successful parse implies *)

Lemma short_cluster_not_parsed e a : short_cluster e ≠ Parsed a.
Proof. induction e as [|c e IH]; cbn; [done|]. by case_bool_decide. Qed.

(** [consume] succeeds only with no extras and no ["--"], and every
    [--dry-run] it meets sets the flag for good. *)
Lemma consume_parsed ts a extras a' :
  consume ts a extras = Parsed a' →
  extras = [] ∧ (TSep ∉ ts) ∧
  (args_dry_run a = true ∨ (∃ o, TOpt ADryRun o None ∈ ts) → args_dry_run a' = true).
Proof.
  revert a extras. induction ts as [ts IH] using (induction_ltof1 _ (@length token)).
  intros a extras Hc. destruct ts as [|t ts].
  { cbn in Hc. case_bool_decide; simplify_eq. split_and!; [done|apply not_elem_of_nil|].
    intros [?|[? ?%elem_of_nil]]; done. }
  assert (∀ ts' a1 ex1, length ts' < length (t :: ts) →
            consume ts' a1 ex1 = Parsed a' →
            ex1 = [] ∧ (TSep ∉ ts') ∧
            (args_dry_run a1 = true ∨ (∃ o, TOpt ADryRun o None ∈ ts') → args_dry_run a' = true))
    as IH' by (intros; by apply IH).
  clear IH. destruct t as [[] o [v|]|x|x|]; cbn [consume] in Hc.
  - by destruct (_ && _); [destruct (short_cluster_not_parsed v a')|].
  - done.
  - destruct (IH' ts _ _ ltac:(simpl; lia) Hc) as (-> & Hs & Hd).
    split_and!; [done|repeat (rewrite not_elem_of_cons; split; [discriminate|]); done|]. intros [Ha|[o' Ho]]; apply Hd; [by left|right].
    exists o'. rewrite elem_of_cons in Ho. by destruct Ho as [?|?].
  - destruct ts as [|[] ts]; try done.
    destruct (IH' ts _ _ ltac:(simpl; lia) Hc) as (-> & Hs & Hd).
    split_and!; [done|repeat (rewrite not_elem_of_cons; split; [discriminate|]); done|]. intros [Ha|[o' Ho]]; apply Hd; [by left|right].
    exists o'. rewrite !elem_of_cons in Ho. by destruct Ho as [?|[?|?]].
  - by destruct (_ && _); [destruct (short_cluster_not_parsed v a')|].
  - destruct (IH' ts _ _ ltac:(simpl; lia) Hc) as (-> & Hs & Hd).
    split_and!; [done|repeat (rewrite not_elem_of_cons; split; [discriminate|]); done|]. intros _. apply Hd. by left.
  - by destruct (_ && _); [destruct (short_cluster_not_parsed v a')|].
  - destruct (IH' ts _ _ ltac:(simpl; lia) Hc) as (-> & Hs & Hd).
    split_and!; [done|repeat (rewrite not_elem_of_cons; split; [discriminate|]); done|]. intros [Ha|[o' Ho]]; apply Hd; [by left|right].
    exists o'. rewrite elem_of_cons in Ho. by destruct Ho as [?|?].
  - by destruct (IH' ts _ _ ltac:(simpl; lia) Hc) as ([_ ?]%app_eq_nil & _).
  - by destruct (IH' ts _ _ ltac:(simpl; lia) Hc) as ([_ ?]%app_eq_nil & _).
  - by destruct (IH' ts _ _ ltac:(simpl; lia) Hc) as ([_ ?]%app_eq_nil & _).
Qed.

Lemma classify_marks argv ts :
  classify argv = inr ts →
  ("--" ∈ argv → TSep ∈ ts) ∧
  ("--dry-run" ∈ argv → TOpt ADryRun "--dry-run" None ∈ ts ∨ TSep ∈ ts).
Proof.
  revert ts. induction argv as [|x argv IH]; intros ts Hc.
  { split; intros ?%elem_of_nil; done. }
  cbn [classify] in Hc. case_bool_decide as Hx.
  { injection Hc as <-. split; intros _; [|right]; apply elem_of_cons; by left. }
  destruct (parse_optional x) as [|t] eqn:Hp; [done|].
  destruct (classify argv) as [|ts'] eqn:Hc'; [done|]. simplify_eq.
  destruct (IH ts' eq_refl) as [Hs Hd]. rewrite !elem_of_cons.
  split; intros [Heq|Hin].
  - by subst x.
  - right. by apply Hs.
  - subst x. cbn in Hp. injection Hp as <-. left. by left.
  - destruct (Hd Hin); [left|right]; by right.
Qed.

(** A successful parse of a command line holding [--dry-run] sets
    [dry_run]; one holding ["--"] never succeeds. *)
Lemma parse_args_marks default argv a :
  parse_args default argv = Parsed a →
  ("--" ∉ argv) ∧ ("--dry-run" ∈ argv → args_dry_run a = true).
Proof.
  unfold parse_args. destruct (classify argv) as [|ts] eqn:Hc; [done|].
  intros (_ & Hs & Hd)%consume_parsed. destruct (classify_marks _ _ Hc) as [Hs' Hd'].
  split; [naive_solver|]. intros Hin. apply Hd. right.
  destruct (Hd' Hin) as [?|?]; [by eexists|done].
Qed.

(** C26: the command line is order-independent and round-trips: every
    argument record a command line can produce is what [parse_args]
    returns for any ordering of its canonical command line
    ([--path=VALUE] when the path is not the default, [--dry-run],
    [--verbose]), whatever the value holds (['='], spaces, leading
    dashes). *)
Theorem parse_args_roundtrip default a l :
  representable default a → l ≡ₚ argv_of default a → parse_args default l = Parsed a.
Proof. apply parse_args_permuted. Qed.

Lemma parse_args_roundtrip_witness :
  representable (PathStr "/home/u/Downloads") (mkArgs (PathStr "-a=b c") true true) ∧
  parse_args (PathStr "/home/u/Downloads") ["--verbose"; "--path=-a=b c"; "--dry-run"] =
    Parsed (mkArgs (PathStr "-a=b c") true true).
Proof.
  split; [by right|].
  apply parse_args_roundtrip; [by right|]. vm_compute. solve_Permutation.
Defined.

End Argparse.
