(* ===== verification/FileSystem.v ===== *)
(** * The filesystem as the organizer sees it: [os], [pathlib], [shutil]

    The organizer reads and changes the filesystem through [Path.exists],
    [Path.is_file], [Path.is_dir], [Path.iterdir], [Path.mkdir(exist_ok=True)]
    and [shutil.move].  None of these is code of the repository: they are
    modelled here from the Python library's documented behaviour, so the
    organizer's theorems can speak about their effects.

    - A filesystem [fs] maps absolute paths to nodes: a regular file
      carrying its content (a number: a copy carries the same one), or a
      directory.  The root [[]] is always a directory.  Two sets record
      the environment's refusals: paths in [fs_denied] are directories
      that may not be written and files that may not be opened (locked);
      paths in [fs_faulty] are files whose data cannot be read, so that
      renaming or copying them fails with an I/O error.  Reading a
      directory's entries and looking a path up are always allowed.
    - [shutil.move(src, dst)] is CPython 3.11's for a regular file:
      [dst/name] when [dst] is a directory ([shutil.Error] if that
      exists), then [os.rename]; on any [OSError] from it, [copy2]
      ([open] of the source, [open] of the destination for writing, the
      copy of the data) and [os.unlink] of the source.  Both fallback
      steps can raise after the copy is on disk, so the call returns the
      filesystem it leaves together with the exception, if any.  A file
      that may not be opened is one locked against other processes (as
      Windows does with an open file): neither renamed nor opened.
    - Errors are the Python exception classes the organizer's handlers
      distinguish ([py_exc]).
    - [os.listdir]'s order is not specified by Python; the class
      [DirLister] states what every order satisfies, and the organizer's
      theorems are proved for every instance. *)

From stdpp Require Import base gmap strings list.
From S2P Require Import Prelude PyPath.

Inductive node :=
  | NFile (ino : positive)
  | NDir.

#[export] Instance node_eq_dec : EqDecision node.
Proof. solve_decision. Defined.

(** The built-in exceptions the organizer's code can meet. *)
Inductive py_exc :=
  | PermissionError
  | FileNotFoundError
  | FileExistsError
  | NotADirectoryError
  | IsADirectoryError
  | OSError_EIO
  | ShutilError.

#[export] Instance py_exc_eq_dec : EqDecision py_exc.
Proof. solve_decision. Defined.

Record fs := mkFS {
  fs_nodes : gmap path node;
  fs_denied : gset path;
  fs_faulty : gset path
}.

Module FS.

Definition set_nodes (σ : fs) (m : gmap path node) : fs :=
  {| fs_nodes := m; fs_denied := fs_denied σ; fs_faulty := fs_faulty σ |}.

Definition lookup_node (σ : fs) (p : path) : option node :=
  match p with
  | [] => Some NDir
  | _ => fs_nodes σ !! p
  end.

(** [Path.exists()], [Path.is_file()], [Path.is_dir()]; none of them
    raises (a path under a regular file simply does not exist). *)
Definition path_exists (σ : fs) (p : path) : bool :=
  bool_decide (is_Some (lookup_node σ p)).

Definition is_file (σ : fs) (p : path) : bool :=
  match lookup_node σ p with Some (NFile _) => true | _ => false end.

Definition is_dir (σ : fs) (p : path) : bool :=
  match lookup_node σ p with Some NDir => true | _ => false end.

(** The filesystem with [p] set to the node [n]. *)
Definition fs_place (σ : fs) (p : path) (n : node) : fs :=
  set_nodes σ (<[p := n]> (fs_nodes σ)).

(** The filesystem with the regular file [i] at [src] renamed to [dst]. *)
Definition fs_move (σ : fs) (src dst : path) (i : positive) : fs :=
  set_nodes σ (<[dst := NFile i]> (delete src (fs_nodes σ))).

(** [Path.mkdir(exist_ok=True)]: [os.mkdir], whose [FileExistsError] is
    swallowed when the path is already a directory. *)
Definition mkdir_exist_ok (σ : fs) (p : path) : py_exc + fs :=
  match lookup_node σ p with
  | Some NDir => inr σ
  | Some (NFile _) => inl FileExistsError
  | None =>
      match lookup_node σ (PyPath.parent p) with
      | None => inl FileNotFoundError
      | Some (NFile _) => inl NotADirectoryError
      | Some NDir =>
          if bool_decide (PyPath.parent p ∈ fs_denied σ) then inl PermissionError
          else inr (fs_place σ p NDir)
      end
  end.

(** [os.rename(src, dst)] of a regular file.  On POSIX an existing
    regular file at [dst] is replaced.  Renaming a directory tree is not
    modelled: the organizer only renames entries it listed as files. *)
Definition os_rename (σ : fs) (src dst : path) : py_exc + fs :=
  match lookup_node σ src with
  | None => inl FileNotFoundError
  | Some NDir => inl IsADirectoryError
  | Some (NFile i) =>
      match lookup_node σ (PyPath.parent dst) with
      | None => inl FileNotFoundError
      | Some (NFile _) => inl NotADirectoryError
      | Some NDir =>
          if bool_decide (PyPath.parent src ∈ fs_denied σ ∨ src ∈ fs_denied σ
                          ∨ PyPath.parent dst ∈ fs_denied σ)
          then inl PermissionError
          else if bool_decide (src ∈ fs_faulty σ) then inl OSError_EIO
          else match lookup_node σ dst with
               | Some NDir => inl IsADirectoryError
               | _ => inr (fs_move σ src dst i)
               end
      end
  end.

(** [os.unlink(p)]: removing an entry needs write access to its folder. *)
Definition os_unlink (σ : fs) (p : path) : py_exc + fs :=
  match lookup_node σ p with
  | None => inl FileNotFoundError
  | Some NDir => inl IsADirectoryError
  | Some (NFile _) =>
      if bool_decide (PyPath.parent p ∈ fs_denied σ) then inl PermissionError
      else inr (set_nodes σ (delete p (fs_nodes σ)))
  end.

(** A content no file of [σ] holds: the partial data a failed copy
    leaves behind. *)
Definition fresh_ino (σ : fs) : positive :=
  Pos.succ (foldr Pos.max 1%positive
              (omap (λ n, match n with NFile i => Some i | NDir => None end)
                    (snd <$> map_to_list (fs_nodes σ)))).

(** [shutil.copy2(src, dst)] of a regular file: [copyfile] raises
    [SameFileError] (a [shutil.Error]) when both name one file, opens
    [src] for reading, then [dst] for writing, then copies the data,
    which carries the file's content [i] over.  A locked [src] refuses
    the first [open]; the second is refused by a locked [dst], or, when
    [dst] does not exist, by a missing, non-directory or unwritable
    parent.  The data of a file in [fs_faulty] cannot be read: [dst] is
    then left holding part of it (a new content) and [OSError(EIO)] is
    raised.  The result is the filesystem after the call and the
    exception it raised.  [copy2]'s redirection of a directory [dst] to
    [dst/name] is never reached from [shutil.move], whose [real_dst] is
    not a directory; a directory [dst] is the [IsADirectoryError] its
    [open] would raise. *)
Definition copy2 (σ : fs) (src dst : path) : fs * option py_exc :=
  match lookup_node σ src with
  | None => (σ, Some FileNotFoundError)
  | Some NDir => (σ, Some IsADirectoryError)
  | Some (NFile i) =>
      let write := if bool_decide (src ∈ fs_faulty σ)
                   then (fs_place σ dst (NFile (fresh_ino σ)), Some OSError_EIO)
                   else (fs_place σ dst (NFile i), None) in
      if bool_decide (src = dst) then (σ, Some ShutilError)
      else if bool_decide (src ∈ fs_denied σ) then (σ, Some PermissionError)
      else match lookup_node σ dst with
           | Some NDir => (σ, Some IsADirectoryError)
           | Some (NFile _) =>
               if bool_decide (dst ∈ fs_denied σ) then (σ, Some PermissionError) else write
           | None =>
               match lookup_node σ (PyPath.parent dst) with
               | None => (σ, Some FileNotFoundError)
               | Some (NFile _) => (σ, Some NotADirectoryError)
               | Some NDir =>
                   if bool_decide (PyPath.parent dst ∈ fs_denied σ)
                   then (σ, Some PermissionError) else write
               end
           end
  end.

(** [shutil.move(src, dst)] (CPython 3.11): into [dst] when [dst] is a
    directory (refused when the name is taken there); then [os.rename];
    on any [OSError] of the rename, [copy2] followed by [os.unlink(src)],
    each of which may raise after the filesystem has changed: a failed
    [unlink] leaves the file at both places.  The result is the
    filesystem after the call and the exception it raised.  The
    [copytree] branch for a directory [src] is not modelled: the
    organizer only moves entries it listed as regular files. *)
Definition shutil_move (σ : fs) (src dst : path) : fs * option py_exc :=
  let real_dst := if is_dir σ dst then PyPath.join dst (PyPath.name src) else dst in
  if is_dir σ dst && path_exists σ real_dst then (σ, Some ShutilError) else
  match os_rename σ src real_dst with
  | inr σ' => (σ', None)
  | inl _ =>
      if is_dir σ src then (σ, Some IsADirectoryError) else
      match copy2 σ src real_dst with
      | (σ1, Some e) => (σ1, Some e)
      | (σ1, None) =>
          match os_unlink σ1 src with
          | inl e => (σ1, Some e)
          | inr σ2 => (σ2, None)
          end
      end
  end.

(** The name of [k] inside directory [d], when [k] is a direct child. *)
Definition child_name (d k : path) : option string :=
  match drop (length d) k with
  | [n] => if bool_decide (take (length d) k = d) then Some n else None
  | _ => None
  end.

(** Well-formedness: every entry lies in an existing directory. *)
Definition wf (σ : fs) : Prop :=
  ∀ p n, fs_nodes σ !! p = Some n → p ≠ [] ∧ lookup_node σ (PyPath.parent p) = Some NDir.

(** The inode numbers of the regular files, with multiplicity. *)
Definition file_inodes (σ : fs) : list positive :=
  omap (λ kn : path * node, match kn.2 with NFile i => Some i | NDir => None end)
       (map_to_list (fs_nodes σ)).

End FS.

(** ** The order of [os.listdir]

    Python does not fix the order in which [iterdir] yields entries.  A
    [DirLister] is any listing function that yields each direct child of
    the directory exactly once. *)
Class DirLister := {
  list_dir : fs → path → list string;
  list_dir_NoDup σ d : NoDup (list_dir σ d);
  elem_of_list_dir σ d n :
    n ∈ list_dir σ d ↔ is_Some (fs_nodes σ !! PyPath.join d n)
}.

(** [Path.iterdir()], eagerly: the children as full paths. *)
Definition iterdir `{DirLister} (σ : fs) (d : path) : py_exc + list path :=
  match FS.lookup_node σ d with
  | None => inl FileNotFoundError
  | Some (NFile _) => inl NotADirectoryError
  | Some NDir => inr (map (PyPath.join d) (list_dir σ d))
  end.

(** ** Lemmas on the model *)

Module FSFacts.
Import FS.

Lemma child_name_spec d k n : child_name d k = Some n ↔ k = PyPath.join d n.
Proof.
  unfold child_name, PyPath.join. split.
  - destruct (drop (length d) k) as [|n' [|]] eqn:Hd; try done.
    case_bool_decide as Ht; [|done]. intros [= ->].
    rewrite <-(take_drop (length d) k), Ht, Hd. done.
  - intros ->. rewrite drop_app_length, take_app_length.
    by rewrite bool_decide_true.
Qed.

Lemma lookup_node_join σ d n : lookup_node σ (PyPath.join d n) = fs_nodes σ !! PyPath.join d n.
Proof. unfold PyPath.join. by destruct d. Qed.

Lemma lookup_node_set_nodes σ m p :
  lookup_node (set_nodes σ m) p = match p with [] => Some NDir | _ => m !! p end.
Proof. done. Qed.

Lemma lookup_node_nonroot σ p : p ≠ [] → lookup_node σ p = fs_nodes σ !! p.
Proof. by destruct p. Qed.

Lemma lookup_node_None_nonroot σ p : lookup_node σ p = None → p ≠ [].
Proof. by destruct p. Qed.

Lemma parent_ne p : p ≠ [] → PyPath.parent p ≠ p.
Proof.
  intros Hp Heq. apply (f_equal length) in Heq. unfold PyPath.parent in Heq.
  destruct (exists_last Hp) as (l & x & ->).
  rewrite removelast_last, length_app in Heq. simpl in Heq. lia.
Qed.

(** A change that keeps every directory keeps every directory lookup. *)
Lemma lookup_node_dir_preserved σ m' q :
  (∀ q', fs_nodes σ !! q' = Some NDir → m' !! q' = Some NDir) →
  lookup_node σ q = Some NDir → lookup_node (set_nodes σ m') q = Some NDir.
Proof. destruct q; simpl; auto. Qed.

Lemma path_exists_true σ p : path_exists σ p = true ↔ is_Some (lookup_node σ p).
Proof. unfold path_exists. by rewrite bool_decide_eq_true. Qed.

Lemma path_exists_false σ p : path_exists σ p = false ↔ lookup_node σ p = None.
Proof.
  unfold path_exists. rewrite bool_decide_eq_false.
  by rewrite <-eq_None_not_Some.
Qed.

End FSFacts.

#[export] Hint Rewrite FSFacts.lookup_node_join FSFacts.lookup_node_set_nodes : pyorg_rw.

(** The listing that yields the children in the order of their keys. *)
Definition sorted_list_dir (σ : fs) (d : path) : list string :=
  elements (list_to_set (C:=gset string)
              (omap (FS.child_name d) (fst <$> map_to_list (fs_nodes σ)))).

Lemma elem_of_sorted_list_dir σ d n :
  n ∈ sorted_list_dir σ d ↔ is_Some (fs_nodes σ !! PyPath.join d n).
Proof.
  unfold sorted_list_dir. rewrite elem_of_elements, elem_of_list_to_set, list_elem_of_omap.
  split.
  - intros (k & Hk & Hc). apply FSFacts.child_name_spec in Hc as ->.
    apply list_elem_of_fmap in Hk as ([k' v] & Hk' & Hin). simpl in Hk'. subst.
    apply elem_of_map_to_list in Hin. eauto.
  - intros [v Hv]. exists (PyPath.join d n). split; [|by apply FSFacts.child_name_spec].
    apply list_elem_of_fmap. exists (PyPath.join d n, v). split; [done|].
    by apply elem_of_map_to_list.
Qed.

#[export] Instance sorted_lister : DirLister := {|
  list_dir := sorted_list_dir;
  list_dir_NoDup σ d := NoDup_elements _;
  elem_of_list_dir := elem_of_sorted_list_dir
|}.

(** The same entries in the opposite order. *)
Definition reversed_lister : DirLister.
Proof.
  refine {| list_dir σ d := reverse (sorted_list_dir σ d) |}.
  - intros σ d. rewrite reverse_Permutation. apply NoDup_elements.
  - intros σ d n. by rewrite elem_of_reverse, elem_of_sorted_list_dir.
Defined.

(** ** Effects of the operations: well-formedness and file preservation *)

Module FSEffects.
Import FS FSFacts.

(** An update that keeps every directory and only adds entries inside
    existing directories keeps the filesystem well formed. *)
Lemma wf_update σ m' :
  wf σ →
  (∀ q, fs_nodes σ !! q = Some NDir → m' !! q = Some NDir) →
  (∀ q n, m' !! q = Some n →
     fs_nodes σ !! q = Some n ∨ (q ≠ [] ∧ lookup_node σ (PyPath.parent q) = Some NDir)) →
  wf (set_nodes σ m').
Proof.
  intros Hwf Hdirs Hnew q n Hq.
  destruct (Hnew q n Hq) as [Hold|[Hq0 Hp]].
  - destruct (Hwf _ _ Hold). split; auto using lookup_node_dir_preserved.
  - split; auto using lookup_node_dir_preserved.
Qed.

Lemma lookup_node_not_dir_nonroot σ p : lookup_node σ p ≠ Some NDir → p ≠ [].
Proof. by destruct p. Qed.

(** ** The two elementary updates *)

(** Setting a path that is not a directory keeps every directory and,
    inside a directory, well-formedness. *)
Lemma fs_place_dir_preserved σ p n q :
  lookup_node σ p ≠ Some NDir → is_dir σ q = true → is_dir (fs_place σ p n) q = true.
Proof.
  intros Hp. unfold is_dir, fs_place. destruct (lookup_node σ q) as [[]|] eqn:Hq; try done.
  intros _. erewrite lookup_node_dir_preserved; [done| |exact Hq].
  intros q' Hq'. rewrite lookup_insert_ne; [done|]. intros ->.
  apply Hp. by rewrite lookup_node_nonroot by (by destruct q').
Qed.

Lemma fs_place_wf σ p n :
  wf σ → lookup_node σ p ≠ Some NDir → lookup_node σ (PyPath.parent p) = Some NDir →
  wf (fs_place σ p n).
Proof.
  intros Hwf Hp Hpp. pose proof (lookup_node_not_dir_nonroot _ _ Hp) as Hp0.
  apply wf_update; [done| |].
  - intros q Hq. rewrite lookup_insert_ne; [done|]. intros ->.
    apply Hp. by rewrite lookup_node_nonroot.
  - intros q n' [[<- <-]|[_ ?]]%lookup_insert_Some; auto.
Qed.

Lemma is_file_fs_place σ p n q :
  p ≠ [] →
  is_file (fs_place σ p n) q =
    if decide (q = p) then (match n with NFile _ => true | NDir => false end) else is_file σ q.
Proof.
  intros Hp. unfold is_file, fs_place. destruct q as [|x q].
  - rewrite decide_False by (intros <-; done). done.
  - rewrite lookup_node_set_nodes, lookup_insert. simpl.
    case_decide as E; [rewrite decide_True by done; by destruct n|].
    by rewrite decide_False by done.
Qed.

Lemma is_file_fs_move σ src dst i p :
  dst ≠ [] →
  is_file (fs_move σ src dst i) p =
    if decide (p = dst) then true else if decide (p = src) then false else is_file σ p.
Proof.
  intros Hd. unfold is_file, fs_move. destruct p as [|x p].
  - rewrite decide_False by (intros <-; done). by case_decide.
  - rewrite lookup_node_set_nodes, lookup_insert, lookup_delete. simpl.
    repeat case_decide; subst; try done.
Qed.

(** Moving a file onto a free path, or adding a directory or a file at a
    free path, changes the multiset of file contents accordingly. *)
Lemma file_inodes_place σ p n :
  fs_nodes σ !! p = None →
  FS.file_inodes (fs_place σ p n) ≡ₚ
    (match n with NFile j => [j] | NDir => [] end) ++ FS.file_inodes σ.
Proof.
  intros Hp. unfold FS.file_inodes, fs_place. simpl.
  rewrite map_to_list_insert by done. by destruct n.
Qed.

Lemma file_inodes_move σ src dst i :
  fs_nodes σ !! src = Some (NFile i) → fs_nodes σ !! dst = None →
  FS.file_inodes (fs_move σ src dst i) ≡ₚ FS.file_inodes σ.
Proof.
  intros Hs Hd. unfold FS.file_inodes, fs_move. simpl.
  rewrite map_to_list_insert by (rewrite lookup_delete_ne; congruence).
  by rewrite <-(map_to_list_delete (fs_nodes σ) src (NFile i) Hs).
Qed.

(** ** [mkdir] *)

Lemma mkdir_exist_ok_Some σ p σ' :
  mkdir_exist_ok σ p = inr σ' →
  (lookup_node σ p = Some NDir ∧ σ' = σ) ∨
  (lookup_node σ p = None ∧ lookup_node σ (PyPath.parent p) = Some NDir ∧
   (PyPath.parent p ∉ fs_denied σ) ∧ σ' = fs_place σ p NDir).
Proof.
  unfold mkdir_exist_ok.
  destruct (lookup_node σ p) as [[]|] eqn:Hp; intros H; simplify_eq; [by left|].
  destruct (lookup_node σ (PyPath.parent p)) as [[]|] eqn:Hpp; try done.
  case_bool_decide; simplify_eq. right. auto.
Qed.

(** [mkdir] changes no regular file. *)
Lemma mkdir_exist_ok_is_file σ c σ' p :
  mkdir_exist_ok σ c = inr σ' → is_file σ' p = is_file σ p.
Proof.
  intros [[_ ->]|(Hc & _ & _ & ->)]%mkdir_exist_ok_Some; [done|].
  rewrite is_file_fs_place by eauto using lookup_node_None_nonroot.
  case_decide; subst; [|done]. unfold is_file. by rewrite Hc.
Qed.

(** [mkdir] keeps every directory a directory. *)
Lemma mkdir_exist_ok_dir_preserved σ c σ' q :
  mkdir_exist_ok σ c = inr σ' → is_dir σ q = true → is_dir σ' q = true.
Proof.
  intros [[_ ->]|(Hc & _ & _ & ->)]%mkdir_exist_ok_Some; [done|].
  apply fs_place_dir_preserved. by rewrite Hc.
Qed.

(** A path free before [mkdir] of its parent is free after it. *)
Lemma mkdir_exist_ok_child_free σ c σ' dst :
  mkdir_exist_ok σ c = inr σ' → lookup_node σ dst = None → PyPath.parent dst = c →
  lookup_node σ' dst = None.
Proof.
  intros [[_ ->]|(_ & _ & _ & ->)]%mkdir_exist_ok_Some Hfree Hpar; [done|].
  pose proof (lookup_node_None_nonroot _ _ Hfree) as Hdst.
  rewrite lookup_node_nonroot in * by done. unfold fs_place. simpl.
  rewrite lookup_insert_ne; [done|]. intros Heq. apply (parent_ne dst Hdst). congruence.
Qed.

Lemma mkdir_exist_ok_keeps_wf σ p σ' : wf σ → mkdir_exist_ok σ p = inr σ' → wf σ'.
Proof.
  intros Hwf [[_ ->]|(Hp & Hpp & _ & ->)]%mkdir_exist_ok_Some; [done|].
  apply fs_place_wf; [done| |done]. by rewrite Hp.
Qed.

Lemma mkdir_exist_ok_file_inodes σ p σ' :
  mkdir_exist_ok σ p = inr σ' → FS.file_inodes σ' ≡ₚ FS.file_inodes σ.
Proof.
  intros [[_ ->]|(Hp & _ & _ & ->)]%mkdir_exist_ok_Some; [done|].
  rewrite file_inodes_place; [done|].
  by rewrite <-lookup_node_nonroot by eauto using lookup_node_None_nonroot.
Qed.

(** ** [os.rename], [os.unlink] and [shutil.copy2] *)

Lemma os_rename_Some σ src dst σ' :
  os_rename σ src dst = inr σ' →
  ∃ i, lookup_node σ src = Some (NFile i) ∧
       lookup_node σ (PyPath.parent dst) = Some NDir ∧
       lookup_node σ dst ≠ Some NDir ∧
       σ' = fs_move σ src dst i.
Proof.
  unfold os_rename.
  destruct (lookup_node σ src) as [[i|]|] eqn:Hs; try done.
  destruct (lookup_node σ (PyPath.parent dst)) as [[]|] eqn:Hd; try done.
  repeat case_bool_decide; try done.
  destruct (lookup_node σ dst) as [[]|] eqn:Ht; intros; simplify_eq; eauto.
Qed.

(** After [os.rename(src, dst)], [dst] is a file, [src] is gone, and no
    other path changes kind. *)
Lemma os_rename_is_file σ src dst σ' p :
  os_rename σ src dst = inr σ' →
  is_file σ' p = if decide (p = dst) then true else if decide (p = src) then false
                 else is_file σ p.
Proof.
  intros (i & Hs & _ & Ht & ->)%os_rename_Some.
  apply is_file_fs_move. eauto using lookup_node_not_dir_nonroot.
Qed.

(** [os.rename] keeps every directory a directory. *)
Lemma os_rename_dir_preserved σ src dst σ' q :
  os_rename σ src dst = inr σ' → is_dir σ q = true → is_dir σ' q = true.
Proof.
  intros (i & Hs & _ & Ht & ->)%os_rename_Some. unfold is_dir, fs_move.
  destruct (lookup_node σ q) as [[]|] eqn:Hq; try done. intros _.
  erewrite lookup_node_dir_preserved; [done| |exact Hq].
  intros q' Hq'. rewrite lookup_insert, lookup_delete.
  destruct (decide (dst = q')) as [<-|]; [destruct dst; simpl in *; congruence|].
  destruct (decide (src = q')) as [<-|]; [|done].
  destruct src; simpl in *; congruence.
Qed.

(** [os.rename] of a file keeps the filesystem well formed. *)
Lemma os_rename_wf σ src dst σ' : wf σ → os_rename σ src dst = inr σ' → wf σ'.
Proof.
  intros Hwf (i & Hs & Hd & Ht & ->)%os_rename_Some.
  assert (src ≠ []) by (by intros ->). assert (dst ≠ []) by (by intros ->).
  rewrite lookup_node_nonroot in Hs, Ht by done.
  apply wf_update; [done| |].
  - intros q Hq. rewrite lookup_insert_ne by congruence.
    rewrite lookup_delete_ne by congruence. done.
  - intros q n [[<- <-]|[_ [_ ?]%lookup_delete_Some]]%lookup_insert_Some; auto.
Qed.

Lemma os_unlink_Some σ p σ' :
  os_unlink σ p = inr σ' →
  (∃ i, lookup_node σ p = Some (NFile i)) ∧ σ' = set_nodes σ (delete p (fs_nodes σ)).
Proof.
  unfold os_unlink. destruct (lookup_node σ p) as [[i|]|] eqn:Hp; try done.
  case_bool_decide; intros; simplify_eq; eauto.
Qed.

Lemma os_unlink_dir_preserved σ p σ' q :
  os_unlink σ p = inr σ' → is_dir σ q = true → is_dir σ' q = true.
Proof.
  intros [[i Hp] ->]%os_unlink_Some. unfold is_dir.
  destruct (lookup_node σ q) as [[]|] eqn:Hq; try done. intros _.
  erewrite lookup_node_dir_preserved; [done| |exact Hq].
  intros q' Hq'. rewrite lookup_delete_ne; [done|]. intros ->.
  rewrite lookup_node_nonroot in Hp by (by destruct q'). congruence.
Qed.

Lemma os_unlink_wf σ p σ' : wf σ → os_unlink σ p = inr σ' → wf σ'.
Proof.
  intros Hwf [[i Hp] ->]%os_unlink_Some. apply wf_update; [done| |].
  - intros q Hq. rewrite lookup_delete_ne; [done|]. intros ->.
    rewrite lookup_node_nonroot in Hp by (by destruct q). congruence.
  - intros q n [_ ?]%lookup_delete_Some. by left.
Qed.

(** [copy2] raises and changes nothing, or writes a file at [dst], a path
    that is not a directory inside a directory; with no exception that
    file carries [src]'s content. *)
Lemma copy2_cases σ src dst :
  (∃ e, copy2 σ src dst = (σ, Some e)) ∨
  ∃ i j r, lookup_node σ src = Some (NFile i) ∧ src ≠ dst ∧ lookup_node σ dst ≠ Some NDir ∧
           (lookup_node σ dst = None → lookup_node σ (PyPath.parent dst) = Some NDir) ∧
           copy2 σ src dst = (fs_place σ dst (NFile j), r) ∧ (r = None → j = i).
Proof.
  unfold copy2. destruct (lookup_node σ src) as [[i|]|] eqn:Hs; try by left; eexists.
  case_bool_decide; [by left; eexists|]. case_bool_decide; [by left; eexists|].
  destruct (lookup_node σ dst) as [[k|]|] eqn:Hd; [case_bool_decide| by left; eexists |].
  - by left; eexists.
  - case_bool_decide; right; eexists _, _, _; split_and!; try done; by intros [=].
  - destruct (lookup_node σ (PyPath.parent dst)) as [[]|] eqn:Hp; try by left; eexists.
    case_bool_decide; [by left; eexists|].
    case_bool_decide; right; eexists _, _, _; split_and!; try done; by intros [=].
Qed.

(** ** [shutil.move] *)

Lemma shutil_move_steps σ src dst (P : fs → Prop) :
  P σ →
  (∀ real σ', os_rename σ src real = inr σ' → P σ') →
  (∀ real i j, lookup_node σ src = Some (NFile i) → src ≠ real →
     lookup_node σ real ≠ Some NDir →
     (lookup_node σ real = None → lookup_node σ (PyPath.parent real) = Some NDir) →
     P (fs_place σ real (NFile j)) ∧
     ∀ σ', os_unlink (fs_place σ real (NFile j)) src = inr σ' → P σ') →
  P (shutil_move σ src dst).1.
Proof.
  intros H0 Hr Hc. unfold shutil_move. destruct (_ && _); [done|].
  destruct (os_rename _ _ _) as [e|σ'] eqn:Hre; [|by eapply Hr].
  destruct (is_dir σ src); [done|].
  destruct (copy2_cases σ src (if is_dir σ dst then PyPath.join dst (PyPath.name src) else dst))
    as [[e' ->]|(i & j & r & Hs & Hne & Hd & Hp & -> & _)]; [done|].
  destruct (Hc _ i j Hs Hne Hd Hp) as [Hc1 Hc2].
  destruct r; [done|]. destruct (os_unlink _ _) eqn:Hu; [done|]. by apply Hc2.
Qed.

(** [shutil.move] keeps every directory a directory, and the filesystem
    well formed, on every path, errors included. *)
Lemma shutil_move_dir_preserved σ src dst q :
  is_dir σ q = true → is_dir (shutil_move σ src dst).1 q = true.
Proof.
  intros Hq. apply (shutil_move_steps σ src dst (λ σ', is_dir σ' q = true)); [done| |].
  - eauto using os_rename_dir_preserved.
  - intros real i j _ _ Hd _. pose proof (fs_place_dir_preserved σ real (NFile j) q Hd Hq).
    split; eauto using os_unlink_dir_preserved.
Qed.

Lemma shutil_move_keeps_wf σ src dst : wf σ → wf (shutil_move σ src dst).1.
Proof.
  intros Hwf. apply (shutil_move_steps σ src dst wf); [done| |].
  - eauto using os_rename_wf.
  - intros real i j _ _ Hd Hp.
    assert (lookup_node σ (PyPath.parent real) = Some NDir) as Hp'.
    { destruct (lookup_node σ real) as [n|] eqn:Hr; [|by apply Hp].
      assert (real ≠ []) by (by intros ->).
      rewrite lookup_node_nonroot in Hr by done. by destruct (Hwf _ _ Hr). }
    pose proof (fs_place_wf σ real (NFile j) Hwf Hd Hp').
    split; eauto using os_unlink_wf.
Qed.

(** On a free destination, [shutil.move] raises with nothing changed,
    moves the file (by [os.rename], or by a copy and an [unlink] that
    both succeed), or raises after writing a file at [dst] while [src]
    stays in place (the [unlink] or the copy's read failed). *)
Lemma shutil_move_free σ src dst :
  lookup_node σ dst = None →
  (∃ e, shutil_move σ src dst = (σ, Some e)) ∨
  (∃ i, lookup_node σ src = Some (NFile i) ∧ shutil_move σ src dst = (fs_move σ src dst i, None)) ∨
  (∃ i j e, lookup_node σ src = Some (NFile i) ∧ src ≠ dst ∧
            shutil_move σ src dst = (fs_place σ dst (NFile j), Some e)).
Proof.
  intros Hfree. unfold shutil_move.
  assert (is_dir σ dst = false) as -> by (unfold is_dir; by rewrite Hfree). cbn [andb].
  destruct (os_rename σ src dst) as [e|σ'] eqn:Hr.
  2:{ destruct (os_rename_Some _ _ _ _ Hr) as (i & Hs & _ & _ & ->). right; left; eauto. }
  destruct (is_dir σ src); [left; eauto|].
  destruct (copy2_cases σ src dst) as [[e' ->]|(i & j & r & Hs & Hne & Hp & Hd & -> & Hj)];
    [left; eauto|].
  destruct r as [e'|]; [right; right; eauto 10|].
  rewrite (Hj eq_refl). unfold os_unlink.
  assert (lookup_node (fs_place σ dst (NFile i)) src = Some (NFile i)) as ->.
  { unfold fs_place. rewrite lookup_node_set_nodes.
    destruct src as [|x src]; [done|]. rewrite lookup_insert_ne by done.
    by rewrite <-lookup_node_nonroot. }
  case_bool_decide; [right; right; eauto 10|]. right; left. exists i. split; [done|].
  do 2 f_equal. unfold fs_move, fs_place, set_nodes. simpl. f_equal.
  by rewrite delete_insert_ne.
Qed.

(** [shutil.move] of a file out of a directory it may not write, to a
    free path of a writable directory: [os.rename] fails, [copy2] writes
    the copy, then [os.unlink] fails, and the exception escapes with both
    the file and its copy on disk. *)
Lemma shutil_move_copy_left σ src dst i :
  lookup_node σ dst = None → lookup_node σ src = Some (NFile i) →
  PyPath.parent src ∈ fs_denied σ → src ∉ fs_denied σ → src ∉ fs_faulty σ →
  lookup_node σ (PyPath.parent dst) = Some NDir → PyPath.parent dst ∉ fs_denied σ →
  shutil_move σ src dst = (fs_place σ dst (NFile i), Some PermissionError).
Proof.
  intros Hfree Hs Hpd Hsd Hsf Hp Hpnd. assert (src ≠ dst) by congruence.
  assert (dst ≠ []) by (by intros ->). assert (src ≠ []) by (by intros ->).
  unfold shutil_move, os_rename, copy2, os_unlink, is_dir.
  rewrite Hfree, Hs, Hp. cbn [andb]. rewrite bool_decide_true by tauto.
  cbv zeta. rewrite Hfree, !bool_decide_false by done.
  unfold fs_place. rewrite lookup_node_set_nodes. destruct src as [|x src]; [done|].
  rewrite lookup_insert_ne by done. rewrite <-lookup_node_nonroot, Hs by done. cbn.
  by rewrite bool_decide_true.
Qed.

(** No content is lost by [shutil.move] to a free destination: every
    file content before is still held by some file after (a failed move
    may leave one more), and a move that succeeds keeps the multiset. *)
Lemma shutil_move_file_inodes σ src dst :
  lookup_node σ dst = None →
  FS.file_inodes σ ⊆+ FS.file_inodes (shutil_move σ src dst).1 ∧
  ((shutil_move σ src dst).2 = None →
   FS.file_inodes (shutil_move σ src dst).1 ≡ₚ FS.file_inodes σ).
Proof.
  intros Hfree. pose proof (lookup_node_None_nonroot _ _ Hfree) as Hd0.
  destruct (shutil_move_free σ src dst) as [[e ->]|[(i & Hs & ->)|(i & j & e & Hs & _ & ->)]];
    [done | done | | ]; cbn [fst snd]; rewrite lookup_node_nonroot in Hfree by done.
  - assert (src ≠ []) by (by intros ->). rewrite lookup_node_nonroot in Hs by done.
    rewrite file_inodes_move by done. done.
  - rewrite file_inodes_place by done. split; [|done]. by apply submseteq_cons.
Qed.

(** Creating a folder, then moving a file onto a path of that folder that
    was free, loses no file content, and keeps the multiset when the
    move succeeds. *)
Lemma mkdir_move_file_inodes σ c σ1 src dst :
  mkdir_exist_ok σ c = inr σ1 → lookup_node σ dst = None → PyPath.parent dst = c →
  FS.file_inodes σ ⊆+ FS.file_inodes (shutil_move σ1 src dst).1 ∧
  ((shutil_move σ1 src dst).2 = None →
   FS.file_inodes (shutil_move σ1 src dst).1 ≡ₚ FS.file_inodes σ).
Proof.
  intros Hm Hfree Hpar.
  destruct (shutil_move_file_inodes σ1 src dst) as [Hsub Heq];
    [eauto using mkdir_exist_ok_child_free|].
  rewrite <-(mkdir_exist_ok_file_inodes σ c σ1 Hm). split; [done|].
  intros Hn. by rewrite Heq.
Qed.

Lemma wf_map_Forall σ :
  wf σ ↔ map_Forall (λ p _, p ≠ [] ∧ lookup_node σ (PyPath.parent p) = Some NDir) (fs_nodes σ).
Proof. unfold wf. rewrite map_Forall_lookup. naive_solver. Qed.

#[export] Instance wf_dec σ : Decision (wf σ).
Proof.
  destruct (decide (map_Forall (λ p _, p ≠ [] ∧ lookup_node σ (PyPath.parent p) = Some NDir)
                      (fs_nodes σ))) as [H|H];
    [left | right]; by rewrite wf_map_Forall.
Defined.

End FSEffects.
