(* ===== verification/Config.v ===== *)
(** * The configuration modules of the organizers

    Each organizer reads its category table from a [config.py]:
    - [AINativeConfig]: [python-learning-AI-native/real_projects/
      01_downloads_organizer/config.py], read by that directory's
      [main.py];
    - [MainFallbackConfig]: the table [main.py] of the same project
      defines itself when [from config import ...] raises [ImportError];
    - [BasicConfig]: [projects/01_downloads_organizer/config.py], the
      configuration of [python-learning/projects/01_downloads_organizer/
      main.py].
    A Python dict keeps insertion order, so [FILE_CATEGORIES] is an
    association list in source order.  [DOWNLOADS_PATH] depends on the
    user's home directory, which is a parameter here.  The record
    [organizer_config] is the interface between a configuration and an
    organizer: the table and the default path are all [main.py] reads. *)

From stdpp Require Import base gmap strings list.
From S2P Require Import Prelude PyPath.

Abbreviation category_table := (list (string * list string)).

Record organizer_config := {
  cfg_categories : category_table;
  cfg_downloads_path : path → path
}.

Module AINativeConfig.

Definition DOWNLOADS_PATH (home : path) : path := PyPath.join home "Downloads".

Definition FILE_CATEGORIES : category_table := [
  ("Images", [".jpg"; ".jpeg"; ".png"; ".gif"; ".bmp";
              ".svg"; ".webp"; ".ico"; ".tiff"; ".psd";
              ".heic"; ".raw"]);
  ("Documents", [".pdf"; ".doc"; ".docx"; ".txt"; ".rtf";
                 ".odt"; ".xls"; ".xlsx"; ".ppt"; ".pptx";
                 ".csv"; ".md"; ".pages"; ".numbers"; ".key"]);
  ("Videos", [".mp4"; ".avi"; ".mkv"; ".mov"; ".wmv";
              ".flv"; ".webm"; ".m4v"; ".mpg"; ".mpeg";
              ".3gp"; ".ogv"]);
  ("Music", [".mp3"; ".wav"; ".flac"; ".aac"; ".ogg";
             ".wma"; ".m4a"; ".opus"; ".alac"]);
  ("Archives", [".zip"; ".rar"; ".7z"; ".tar"; ".gz";
                ".bz2"; ".xz"; ".iso"; ".dmg"]);
  ("Code", [".py"; ".js"; ".html"; ".css"; ".java";
            ".cpp"; ".c"; ".h"; ".sh"; ".json";
            ".xml"; ".yaml"; ".yml"; ".sql"; ".go";
            ".rs"; ".ts"; ".jsx"; ".tsx"; ".php"]);
  ("Executables", [".exe"; ".msi"; ".dmg"; ".pkg"; ".deb";
                   ".rpm"; ".apk"; ".app"]);
  ("Fonts", [".ttf"; ".otf"; ".woff"; ".woff2"; ".eot"]);
  ("Books", [".epub"; ".mobi"; ".azw"; ".azw3"])
]%string.

Definition IGNORE_FOLDERS : list string := [
  "Images"; "Documents"; "Videos"; "Music";
  "Archives"; "Code"; "Executables"; "Fonts";
  "Books"; "Other"
]%string.

Definition IGNORE_FILES : list string := [
  ".DS_Store"; "desktop.ini"; "Thumbs.db";
  ".localized"
]%string.

Definition MAX_FILE_SIZE_MB : N := 0.
Definition MIN_FILE_AGE_DAYS : N := 0.

Definition config : organizer_config :=
  {| cfg_categories := FILE_CATEGORIES; cfg_downloads_path := DOWNLOADS_PATH |}.

End AINativeConfig.

Module MainFallbackConfig.

Definition DOWNLOADS_PATH (home : path) : path := PyPath.join home "Downloads".

Definition FILE_CATEGORIES : category_table := [
  ("Images", [".jpg"; ".jpeg"; ".png"; ".gif"; ".bmp"; ".svg"; ".webp"]);
  ("Documents", [".pdf"; ".doc"; ".docx"; ".txt"; ".xlsx"; ".pptx"; ".csv"]);
  ("Videos", [".mp4"; ".avi"; ".mkv"; ".mov"; ".wmv"]);
  ("Music", [".mp3"; ".wav"; ".flac"; ".aac"; ".ogg"]);
  ("Archives", [".zip"; ".rar"; ".7z"; ".tar"; ".gz"]);
  ("Code", [".py"; ".js"; ".html"; ".css"; ".java"; ".cpp"])
]%string.

Definition config : organizer_config :=
  {| cfg_categories := FILE_CATEGORIES; cfg_downloads_path := DOWNLOADS_PATH |}.

End MainFallbackConfig.

Module BasicConfig.

Definition DOWNLOADS_PATH (home : path) : path := PyPath.join home "Downloads".

Definition FILE_CATEGORIES : category_table := [
  ("Images", [".jpg"; ".jpeg"; ".png"; ".gif"; ".bmp";
              ".svg"; ".webp"; ".ico"; ".tiff"; ".psd"]);
  ("Documents", [".pdf"; ".doc"; ".docx"; ".txt"; ".rtf";
                 ".odt"; ".xls"; ".xlsx"; ".ppt"; ".pptx";
                 ".csv"; ".md"]);
  ("Videos", [".mp4"; ".avi"; ".mkv"; ".mov"; ".wmv";
              ".flv"; ".webm"; ".m4v"; ".mpg"; ".mpeg"]);
  ("Music", [".mp3"; ".wav"; ".flac"; ".aac"; ".ogg";
             ".wma"; ".m4a"; ".opus"]);
  ("Archives", [".zip"; ".rar"; ".7z"; ".tar"; ".gz";
                ".bz2"; ".xz"; ".iso"]);
  ("Code", [".py"; ".js"; ".html"; ".css"; ".java";
            ".cpp"; ".c"; ".h"; ".sh"; ".json";
            ".xml"; ".yaml"; ".yml"; ".sql"]);
  ("Executables", [".exe"; ".msi"; ".dmg"; ".pkg"; ".deb";
                   ".rpm"; ".apk"]);
  ("Fonts", [".ttf"; ".otf"; ".woff"; ".woff2"])
]%string.

Definition IGNORE_FOLDERS : list string := [
  "Images"; "Documents"; "Videos"; "Music";
  "Archives"; "Code"; "Executables"; "Fonts";
  "Miscellaneous"
]%string.

Definition IGNORE_FILES : list string := [
  ".DS_Store"; "desktop.ini"; "Thumbs.db"
]%string.

Definition config : organizer_config :=
  {| cfg_categories := FILE_CATEGORIES; cfg_downloads_path := DOWNLOADS_PATH |}.

End BasicConfig.

(** ** Checks on a table *)

(** The category names, in order ([FILE_CATEGORIES.keys()]). *)
Definition table_keys (tbl : category_table) : list string := fst <$> tbl.
