(* ===== verification/Category.v ===== *)
(** * Classification of a file by its extension: [get_file_category]

    Both organizers define [get_file_category(file_extension)]: lower
    the extension, scan [FILE_CATEGORIES.items()] in order and return the
    first category whose extension list contains it, else a fallback.
    The AI-native [main.py] falls back to ["Other"], the basic one to
    ["Miscellaneous"].  The loop with its early [return] is
    [category_of]; the table, a module-level global in the source, is a
    parameter. *)

From stdpp Require Import base gmap strings list.
From S2P Require Import Prelude PyPath Config.

Module Category.

(** [for category, extensions in items: if ext in extensions: return
    category] followed by [return fallback]. *)
Fixpoint category_of (file_extension : string) (items : category_table)
    (fallback : string) : string :=
  match items with
  | [] => fallback
  | (category, extensions) :: rest =>
      if bool_decide (file_extension ∈ extensions) then category
      else category_of file_extension rest fallback
  end.

(** [get_file_category] of the AI-native [main.py]. *)
Definition get_file_category (FILE_CATEGORIES : category_table)
    (file_extension : string) : string :=
  category_of (PyPath.lower file_extension) FILE_CATEGORIES "Other".

(** [get_file_category] of the basic [main.py]. *)
Definition get_file_category_basic (FILE_CATEGORIES : category_table)
    (file_extension : string) : string :=
  category_of (PyPath.lower file_extension) FILE_CATEGORIES "Miscellaneous".

(** The abstract contract: the category an extension belongs to is the
    first entry of the table that lists it, or the fallback when none
    does. *)
Definition first_match (tbl : category_table) (e c : string) : Prop :=
  ∃ pre exts post, tbl = pre ++ (c, exts) :: post ∧ e ∈ exts ∧
                   Forall (λ ce, e ∉ ce.2) pre.

Definition classified_as (tbl : category_table) (fallback e c : string) : Prop :=
  first_match tbl e c ∨ (c = fallback ∧ Forall (λ ce, e ∉ ce.2) tbl).

Section Spec.
Context (tbl : category_table) (fallback : string).

Lemma category_of_first_match e c :
  first_match tbl e c → category_of e tbl fallback = c.
Proof.
  intros (pre & exts & post & -> & Hin & Hpre).
  induction Hpre as [|[c' exts'] pre Hnot Hpre IH]; simpl.
  - by rewrite bool_decide_true.
  - rewrite bool_decide_false by done. done.
Qed.

Lemma category_of_none e :
  Forall (λ ce, e ∉ ce.2) tbl → category_of e tbl fallback = fallback.
Proof.
  induction 1 as [|[c exts] rest Hnot _ IH]; simpl; [done|].
  by rewrite bool_decide_false.
Qed.

Lemma category_of_cases e :
  first_match tbl e (category_of e tbl fallback) ∨
  Forall (λ ce, e ∉ ce.2) tbl.
Proof.
  induction tbl as [|[c exts] rest IH]; simpl; [by right|].
  case_bool_decide as Hin.
  - left. exists [], exts, rest. split_and!; [done | done | constructor].
  - destruct IH as [(pre & exts' & post & Heq & ? & ?)|?].
    + left. exists ((c, exts) :: pre), exts', post.
      split_and!; [simpl; by f_equal | done | by constructor].
    + right. by constructor.
Qed.

Lemma category_of_spec e c :
  category_of e tbl fallback = c ↔ classified_as tbl fallback e c.
Proof.
  unfold classified_as. split.
  - intros <-. destruct (category_of_cases e) as [?|Hnone]; [by left|].
    right. split; [|done]. by apply category_of_none.
  - intros [?|[-> ?]]; [by apply category_of_first_match|by apply category_of_none].
Qed.
End Spec.

Lemma first_match_elem_of (tbl : category_table) (e c : string) :
  first_match tbl e c → ∃ exts, (c, exts) ∈ tbl ∧ e ∈ exts.
Proof.
  intros (pre & exts & post & -> & Hin & _). exists exts.
  split; [apply elem_of_app; right; by left | done].
Qed.

Lemma Forall_not_listed (tbl : category_table) (e c : string) (exts : list string) :
  Forall (λ ce, e ∉ ce.2) tbl → (c, exts) ∈ tbl → e ∉ exts.
Proof. intros Hall Hin. by apply (Forall_forall _ _) with (x := (c, exts)) in Hall. Qed.

(** C5: [get_file_category] returns the first category of the table whose
    list contains the lower-cased extension, and ["Other"] when no
    category lists it. *)
Theorem get_file_category_spec tbl ext c :
  get_file_category tbl ext = c ↔ classified_as tbl "Other" (PyPath.lower ext) c.
Proof. apply category_of_spec. Qed.

(** C25: an extension (in any letter case) listed by exactly one category
    is classified into that category. *)
Theorem get_file_category_unique tbl ext c exts :
  (c, exts) ∈ tbl → PyPath.lower ext ∈ exts →
  Forall (λ ce, PyPath.lower ext ∈ ce.2 → ce.1 = c) tbl →
  get_file_category tbl ext = c.
Proof.
  intros Hin He Huniq. unfold get_file_category.
  destruct (category_of_cases tbl "Other" (PyPath.lower ext)) as [Hfm|Hnone].
  - destruct (first_match_elem_of _ _ _ Hfm) as (exts' & Hin' & He').
    rewrite Forall_forall in Huniq. exact (Huniq _ Hin' He').
  - by destruct (Forall_not_listed _ _ _ _ Hnone Hin).
Qed.

Definition Documents_exts : list string :=
  [".pdf"; ".doc"; ".docx"; ".txt"; ".rtf"; ".odt"; ".xls"; ".xlsx"; ".ppt";
   ".pptx"; ".csv"; ".md"; ".pages"; ".numbers"; ".key"]%string.

Lemma get_file_category_unique_witness :
  get_file_category AINativeConfig.FILE_CATEGORIES ".PDF" = "Documents".
Proof.
  apply (get_file_category_unique _ _ _ Documents_exts); vm_decide.
Defined.

End Category.
