(* ===== verification/UniqueName.v ===== *)
(** * Collision-free destination names: [get_unique_filename]

    [get_unique_filename(destination)] of the AI-native [main.py] returns
    [destination] when it is free, and otherwise tries
    [parent / f"{stem}_{counter}{suffix}"] for [counter = 1, 2, ...] until
    [exists()] is false.  The [while] loop is [unique_loop], run with
    fuel.  The fuel [size + 2] is enough: the candidates are pairwise
    distinct paths, so at most [size] of them can exist in a filesystem
    of [size] entries ([unique_loop_terminates]); the default branch of
    [get_unique_filename] is therefore never taken. *)

From stdpp Require Import base gmap strings list pretty.
From S2P Require Import Prelude PyPath FileSystem.

Module UniqueName.
Import FS FSFacts.

Section Loop.
Context (σ : fs) (par : path) (stm sfx : string).

(** The [counter]-th candidate. *)
Definition candidate (counter : N) : path :=
  PyPath.join par (PyPath.numbered stm sfx counter).

(** [while destination.exists(): destination = ...; counter += 1]. *)
Fixpoint unique_loop (fuel : nat) (destination : path) (counter : N)
    : option path :=
  match fuel with
  | O => None
  | S fuel' =>
      if path_exists σ destination
      then unique_loop fuel' (candidate counter) (counter + 1)
      else Some destination
  end.

Lemma candidate_inj c1 c2 : candidate c1 = candidate c2 → c1 = c2.
Proof. intros H. by apply PyPath.join_inj, PyPath.numbered_inj in H. Qed.

Lemma candidate_nonroot c : candidate c ≠ [].
Proof. unfold candidate, PyPath.join. by destruct par. Qed.

(** Running out of fuel means every path tried exists. *)
Lemma unique_loop_None f d c :
  unique_loop (S f) d c = None →
  path_exists σ d = true ∧ ∀ j, j < f → path_exists σ (candidate (c + N.of_nat j)) = true.
Proof.
  revert d c. induction f as [|f IH]; intros d c; simpl.
  - destruct (path_exists σ d); [|done]. intros _. split; [done|lia].
  - destruct (path_exists σ d); [|done]. intros Hn.
    destruct (IH _ _ Hn) as [Hc Hrest]. split; [done|].
    intros [|j] Hj.
    + by rewrite N.add_0_r.
    + replace (c + N.of_nat (S j))%N with (c + 1 + N.of_nat j)%N by lia.
      apply Hrest. lia.
Qed.

(** A result is free, and is either [d] itself or the first free
    candidate from [c] on. *)
Lemma unique_loop_Some f d c r :
  unique_loop f d c = Some r →
  path_exists σ r = false ∧
  (r = d ∨ (path_exists σ d = true ∧ ∃ k, (c ≤ k)%N ∧ r = candidate k ∧
            ∀ j, (c ≤ j < k)%N → path_exists σ (candidate j) = true)).
Proof.
  revert d c. induction f as [|f IH]; intros d c; simpl; [done|].
  destruct (path_exists σ d) eqn:Hd; [|intros [= <-]; auto].
  intros (Hr & Hcases)%IH. split; [done|]. right. split; [done|].
  destruct Hcases as [->|(Hcd & k & Hk & -> & Hbelow)].
  - exists c. split_and!; [lia|done|lia].
  - exists k. split_and!; [lia|done|].
    intros j Hj. destruct (decide (j = c)) as [->|]; [done|]. apply Hbelow. lia.
Qed.

(** Enough fuel: the loop stops within [size + 2] rounds. *)
Lemma unique_loop_terminates d c :
  is_Some (unique_loop (S (S (size (fs_nodes σ)))) d c).
Proof.
  destruct (unique_loop _ d c) eqn:Hl; [done|exfalso].
  apply unique_loop_None in Hl as [_ Hall].
  set (l := (λ j, candidate (c + N.of_nat j)) <$> seq 0 (S (size (fs_nodes σ)))).
  assert (length l ≤ size (fs_nodes σ)) as Hlen.
  { apply NoDup_keys_length.
    - apply NoDup_fmap_2; [|apply NoDup_seq].
      intros j1 j2 Heq%candidate_inj. lia.
    - intros x (j & -> & Hj%elem_of_seq)%list_elem_of_fmap.
      rewrite <-lookup_node_nonroot by apply candidate_nonroot.
      apply path_exists_true, Hall. lia. }
  subst l. rewrite length_fmap, length_seq in Hlen. lia.
Qed.
End Loop.

(** The fuel that [unique_loop_terminates] shows sufficient. *)
Definition unique_fuel (σ : fs) : nat := S (S (size (fs_nodes σ))).

(** [get_unique_filename(destination)]. *)
Definition get_unique_filename (σ : fs) (destination : path) : path :=
  if negb (path_exists σ destination) then destination
  else
    let stm := PyPath.stem (PyPath.name destination) in
    let sfx := PyPath.suffix (PyPath.name destination) in
    let par := PyPath.parent destination in
    default destination (unique_loop σ par stm sfx (unique_fuel σ) destination 1).

(** The candidates [get_unique_filename] tries for [destination]. *)
Definition candidate_for (destination : path) : N → path :=
  candidate (PyPath.parent destination) (PyPath.stem (PyPath.name destination))
            (PyPath.suffix (PyPath.name destination)).

(** The two cases of [get_unique_filename]. *)
Lemma get_unique_filename_cases σ d :
  (path_exists σ d = false ∧ get_unique_filename σ d = d) ∨
  (path_exists σ d = true ∧
   ∃ k, (1 ≤ k)%N ∧ get_unique_filename σ d = candidate_for d k ∧
        path_exists σ (candidate_for d k) = false ∧
        ∀ j, (1 ≤ j < k)%N → path_exists σ (candidate_for d j) = true).
Proof.
  unfold get_unique_filename, unique_fuel.
  destruct (path_exists σ d) eqn:Hd; [right|by left].
  split; [done|].
  destruct (unique_loop_terminates σ (PyPath.parent d) (PyPath.stem (PyPath.name d))
              (PyPath.suffix (PyPath.name d)) d 1) as [r Hr].
  rewrite Hr. simpl.
  apply unique_loop_Some in Hr as [Hfree [->|(_ & k & Hk & -> & Hbelow)]]; [congruence|].
  exists k. auto.
Qed.

(** C1: [get_unique_filename] returns [destination] when it is free, and
    otherwise [parent / f"{stem}_{k}{suffix}"] for the smallest [k >= 1]
    whose path does not exist: every smaller candidate exists. *)
Theorem get_unique_filename_spec σ d :
  (path_exists σ d = false ∧ get_unique_filename σ d = d) ∨
  (path_exists σ d = true ∧
   ∃ k, (1 ≤ k)%N ∧ get_unique_filename σ d = candidate_for d k ∧
        path_exists σ (candidate_for d k) = false ∧
        ∀ j, (1 ≤ j < k)%N → path_exists σ (candidate_for d j) = true).
Proof. exact (get_unique_filename_cases σ d). Qed.

(** C2: the [while destination.exists()] loop of [get_unique_filename],
    started at [counter = 1], stops within the fuel [unique_fuel]: the
    [default] branch, which has no counterpart in the source, is never
    taken. *)
Theorem get_unique_filename_terminates σ d :
  is_Some (unique_loop σ (PyPath.parent d) (PyPath.stem (PyPath.name d))
             (PyPath.suffix (PyPath.name d)) (unique_fuel σ) d 1).
Proof. apply unique_loop_terminates. Qed.

(** The path [get_unique_filename] returns never exists at the time of
    the call. *)
Lemma get_unique_filename_fresh σ d : path_exists σ (get_unique_filename σ d) = false.
Proof.
  destruct (get_unique_filename_cases σ d) as [[? ->]|(_ & k & _ & -> & ? & _)]; done.
Qed.

(** The result stays in the directory of [destination]. *)
Lemma get_unique_filename_parent σ d :
  PyPath.parent (get_unique_filename σ d) = PyPath.parent d.
Proof.
  destruct (get_unique_filename_cases σ d) as [[? ->]|(_ & k & _ & -> & _)]; [done|].
  apply PyPath.parent_join.
Qed.

Lemma get_unique_filename_nonroot σ d : d ≠ [] → get_unique_filename σ d ≠ [].
Proof.
  destruct (get_unique_filename_cases σ d) as [[? ->]|(_ & k & _ & -> & _)]; [done|].
  intros _. apply candidate_nonroot.
Qed.

End UniqueName.
