(* ===== verification/Organizer.v ===== *)
(** * The AI-native organizer: [organize_files]

    [python-learning-AI-native/real_projects/01_downloads_organizer/main.py]
    lines 72-200.  The function runs in [M], the state-and-exception monad
    of the prelude over a [world]: the filesystem and the console.  Each
    [print] is an [event] appended to the console, one constructor per
    print statement of the source (the emoji and wording are not kept,
    the data each line shows is).

    The per-file [try] body is [process_body]; its three [except]
    clauses are [handle]; [process_file] is the [try]/[except]; the [for]
    loop over [enumerate(files, 1)] is [py_foldM process_file]; the
    summary printed at the end is [print_summary]. *)

From stdpp Require Import base gmap strings list pretty.
From S2P Require Import Prelude PyPath FileSystem Config Category UniqueName.

Module Organizer.
Import FS.

(** ** Data *)

Inductive event :=
  | EDirNotFound (p : path)
  | ENoFiles
  | EFound (n : nat)
  | EDryRunBanner
  | EBlank
  | ESkippedConflict (index total : nat) (nm category : string)
  | ESkippedOrganized (index total : nat) (nm : string)
  | EMoving (dry : bool) (index total : nat) (nm category : string)
  | ESkippedPermission (index total : nat) (nm : string)
  | ESkippedVanished (index total : nat) (nm : string)
  | EError (index total : nat) (nm : string) (e : py_exc)
  | ESummaryHeader
  | EMovedCount (n : nat)
  | EWouldMoveCount (n : nat)
  | ESkippedCount (n : nat)
  | ESkippedList (names : list string) (more : bool)
  | EErrorsCount (n : nat)
  | EErrorItem (nm : string) (e : py_exc)
  | EMoreErrors (n : nat)
  | ESuccess (n : nat)
  | EDryRunHint.

Record world := mkWorld { w_fs : fs; w_out : list event }.

Abbreviation M := (PyM world py_exc).

(** The dict [stats = {"moved": 0, "skipped": 0, "errors": 0}]. *)
Record stats := mkStats { moved : nat; skipped : nat; errors : nat }.

#[export] Instance stats_eq_dec : EqDecision stats.
Proof. solve_decision. Defined.

Definition zero_stats : stats := mkStats 0 0 0.

(** The loop's local state: [stats], [skipped_files], [error_files]. *)
Record loop_state := mkLoop {
  ls_stats : stats;
  ls_skipped_files : list string;
  ls_error_files : list (string * py_exc)
}.

Definition init_loop : loop_state := mkLoop zero_stats [] [].

(** [stats["skipped"] += 1; skipped_files.append(name)]. *)
Definition add_skipped (acc : loop_state) (nm : string) : loop_state :=
  let s := ls_stats acc in
  mkLoop (mkStats (moved s) (S (skipped s)) (errors s))
         (ls_skipped_files acc ++ [nm]) (ls_error_files acc).

(** [stats["moved"] += 1]. *)
Definition add_moved (acc : loop_state) : loop_state :=
  let s := ls_stats acc in
  mkLoop (mkStats (S (moved s)) (skipped s) (errors s))
         (ls_skipped_files acc) (ls_error_files acc).

(** [stats["errors"] += 1; error_files.append((name, str(e)))]. *)
Definition add_error (acc : loop_state) (nm : string) (e : py_exc) : loop_state :=
  let s := ls_stats acc in
  mkLoop (mkStats (moved s) (skipped s) (S (errors s)))
         (ls_skipped_files acc) (ls_error_files acc ++ [(nm, e)]).

(** ** Primitive actions in [M] *)

Definition print (e : event) : M unit :=
  py_modify (λ w, mkWorld (w_fs w) (w_out w ++ [e])).

Definition when (b : bool) (m : M unit) : M unit := if b then m else py_ret tt.

(** A query of the filesystem ([exists], [is_dir], ...). *)
Definition read_fs {A} (f : fs → A) : M A := λ w, (w, inr (f (w_fs w))).

(** A filesystem call that may raise and otherwise changes the filesystem. *)
Definition fs_call (f : fs → py_exc + fs) : M unit :=
  py_lift (λ w, match f (w_fs w) with
                | inl e => inl e
                | inr σ' => inr (mkWorld σ' (w_out w), tt)
                end).

(** A filesystem call that may change the filesystem and then raise. *)
Definition fs_do (f : fs → fs * option py_exc) : M unit :=
  λ w, let r := f (w_fs w) in
       (mkWorld r.1 (w_out w), match r.2 with Some e => inl e | None => inr tt end).

(** ** One file: lines 113-169 *)

Section Loop.
Context (FILE_CATEGORIES : category_table) (downloads_path : path)
        (dry_run verbose : bool) (total : nat).

(** The body of the [try] (lines 115-152). *)
Definition process_body (index : nat) (file_path : path) (acc : loop_state)
    : M loop_state :=
  let nm := PyPath.name file_path in
  let file_extension := PyPath.suffix nm in
  let category := Category.get_file_category FILE_CATEGORIES file_extension in
  let category_folder := PyPath.join downloads_path category in
  σ <- read_fs id ;;
  if path_exists σ category_folder && negb (is_dir σ category_folder) then
    when (verbose || dry_run) (print (ESkippedConflict index total nm category)) ;;
    py_ret (add_skipped acc nm)
  else if bool_decide (PyPath.name (PyPath.parent file_path) ∈ table_keys FILE_CATEGORIES)
  then
    when verbose (print (ESkippedOrganized index total nm)) ;;
    py_ret (add_skipped acc nm)
  else
    let destination := UniqueName.get_unique_filename σ (PyPath.join category_folder nm) in
    when (verbose || dry_run) (print (EMoving dry_run index total nm category)) ;;
    if negb dry_run then
      fs_call (λ σ, mkdir_exist_ok σ category_folder) ;;
      fs_do (λ σ, shutil_move σ file_path destination) ;;
      py_ret (add_moved acc)
    else py_ret acc.

(** The [except] clauses (lines 154-169): [PermissionError] and
    [FileNotFoundError] skip the file, any other exception counts as an
    error. *)
Definition handle (index : nat) (file_path : path) (acc : loop_state) (e : py_exc)
    : M loop_state :=
  let nm := PyPath.name file_path in
  match e with
  | PermissionError =>
      print (ESkippedPermission index total nm) ;; py_ret (add_skipped acc nm)
  | FileNotFoundError =>
      print (ESkippedVanished index total nm) ;; py_ret (add_skipped acc nm)
  | _ =>
      print (EError index total nm e) ;; py_ret (add_error acc nm e)
  end.

Definition process_file (acc : loop_state) (ifp : nat * path) : M loop_state :=
  let '(index, file_path) := ifp in
  try (process_body index file_path acc) except (handle index file_path acc).
End Loop.

(** [enumerate(files, 1)]. *)
Definition enumerate1 {A} (l : list A) : list (nat * A) := zip (seq 1 (length l)) l.

(** ** The summary: lines 171-198 *)

Definition print_summary (dry_run verbose : bool) (files : list path)
    (ls : loop_state) : M unit :=
  let s := ls_stats ls in
  print ESummaryHeader ;;
  (if negb dry_run then print (EMovedCount (moved s))
   else print (EWouldMoveCount (length files - skipped s - errors s))) ;;
  when (0 <? skipped s)
    (print (ESkippedCount (skipped s)) ;;
     when (verbose && negb (bool_decide (ls_skipped_files ls = [])))
       (print (ESkippedList (take 5 (ls_skipped_files ls))
                            (5 <? length (ls_skipped_files ls))))) ;;
  when (0 <? errors s)
    (print (EErrorsCount (errors s)) ;;
     when (negb (bool_decide (ls_error_files ls = [])))
       (py_foldM (λ _ fe, print (EErrorItem fe.1 fe.2)) tt (take 3 (ls_error_files ls)) ;;
        when (3 <? length (ls_error_files ls))
          (print (EMoreErrors (length (ls_error_files ls) - 3))))) ;;
  (if negb dry_run && (0 <? moved s) then print (ESuccess (moved s))
   else when dry_run (print EDryRunHint)).

(** ** [organize_files]: lines 72-200 *)

(** Lines 94-98: the regular files of the listing, then the non-hidden ones. *)
Definition select_files (σ : fs) (entries : list path) : list path :=
  filter (λ f, PyPath.startswith_dot (PyPath.name f) = false)
         (filter (λ f, is_file σ f = true) entries).

(** Lines 100-200, once [files] is computed: the empty case, the banner,
    the loop and the summary. *)
Definition run_files (FILE_CATEGORIES : category_table) (downloads_path : path)
    (dry_run verbose : bool) (files : list path) : M stats :=
  if bool_decide (files = []) then print ENoFiles ;; py_ret zero_stats
  else
    print (EFound (length files)) ;;
    when dry_run (print EDryRunBanner) ;;
    print EBlank ;;
    ls <- py_foldM (process_file FILE_CATEGORIES downloads_path dry_run verbose
                      (length files))
                   init_loop (enumerate1 files) ;;
    print_summary dry_run verbose files ls ;;
    py_ret (ls_stats ls).

(** Lines 88-102: the existence check, the listing, the selection. *)
Definition organize_files `{DirLister} (FILE_CATEGORIES : category_table)
    (downloads_path : path) (dry_run verbose : bool) : M stats :=
  σ <- read_fs id ;;
  if negb (path_exists σ downloads_path) then
    print (EDirNotFound downloads_path) ;; py_ret zero_stats
  else
    entries <- py_lift (λ w, match iterdir (w_fs w) downloads_path with
                             | inl e => inl e
                             | inr l => inr (w, l)
                             end) ;;
    files <- read_fs (λ σ, select_files σ entries) ;;
    run_files FILE_CATEGORIES downloads_path dry_run verbose files.

(** A run from a world with an empty console. *)
Definition run `{DirLister} (FILE_CATEGORIES : category_table) (downloads_path : path)
    (dry_run verbose : bool) (σ : fs) : world * (py_exc + stats) :=
  organize_files FILE_CATEGORIES downloads_path dry_run verbose (mkWorld σ []).

(** ** Computation rules of the primitive actions *)

Lemma read_bind {A B} (f : fs → A) (k : A → M B) w :
  py_bind (read_fs f) k w = k (f (w_fs w)) w.
Proof. done. Qed.

Lemma print_bind {B} e (k : unit → M B) w :
  py_bind (print e) k w = k tt (mkWorld (w_fs w) (w_out w ++ [e])).
Proof. done. Qed.

Lemma when_false_bind {B} m (k : unit → M B) w : py_bind (when false m) k w = k tt w.
Proof. done. Qed.

Lemma fs_call_bind {B} f (k : unit → M B) w :
  py_bind (fs_call f) k w =
  match f (w_fs w) with
  | inl e => (w, inl e)
  | inr σ' => k tt (mkWorld σ' (w_out w))
  end.
Proof. unfold py_bind, fs_call, py_lift. by destruct (f (w_fs w)). Qed.

Lemma fs_do_bind {B} f (k : unit → M B) w :
  py_bind (fs_do f) k w =
  match f (w_fs w) with
  | (σ', Some e) => (mkWorld σ' (w_out w), inl e)
  | (σ', None) => k tt (mkWorld σ' (w_out w))
  end.
Proof. unfold py_bind, fs_do. by destruct (f (w_fs w)) as [? []]. Qed.

End Organizer.
