(* ===== verification/Fixtures.v ===== *)
(** * Sample filesystems

    Concrete directories used to run the organizers on the scenarios of
    the specification and to instantiate the theorems' hypotheses: a
    home directory [/home/u] with a [Downloads] folder holding the files
    each scenario describes.  Inode numbers tell the files apart. *)

From stdpp Require Import base gmap strings list.
From S2P Require Import Prelude PyPath FileSystem.

Module Fixtures.

Definition home : path := ["home"; "u"]%string.
Definition downloads : path := PyPath.join home "Downloads".

Definition in_downloads (n : string) : path := PyPath.join downloads n.

(** A filesystem with [/home], [/home/u], [/home/u/Downloads] and [extra]. *)
Definition with_downloads (extra : list (path * node)) : fs :=
  mkFS (list_to_map ([(["home"]%string, NDir); (home, NDir); (downloads, NDir)] ++ extra))
       ∅ ∅.

(** Spec scenario 1: [photo.jpg], [report.pdf], [weird.xyz] and a plain
    file named [Images]. *)
Definition scenario_images_file : fs :=
  with_downloads [(in_downloads "photo.jpg", NFile 1); (in_downloads "report.pdf", NFile 2);
                  (in_downloads "weird.xyz", NFile 3); (in_downloads "Images", NFile 4)].

(** Spec scenario 2: a loose [a.txt] and an existing [Documents/a.txt]. *)
Definition scenario_collision : fs :=
  with_downloads [(in_downloads "a.txt", NFile 1); (in_downloads "Documents", NDir);
                  (PyPath.join (in_downloads "Documents") "a.txt", NFile 2)].

(** A folder named like a category: [/home/u/Documents] with a report. *)
Definition documents_dir : path := PyPath.join home "Documents".
Definition scenario_documents_dir : fs :=
  mkFS (list_to_map [(["home"]%string, NDir); (home, NDir); (documents_dir, NDir);
                     (PyPath.join documents_dir "report.pdf", NFile 1)]) ∅ ∅.

(** Files that [IGNORE_FILES] of both [config.py] lists. *)
Definition scenario_ignored : fs :=
  with_downloads [(in_downloads "desktop.ini", NFile 1); (in_downloads "Thumbs.db", NFile 2);
                  (in_downloads ".DS_Store", NFile 3)].

(** A [Downloads] folder the user may not write, holding [report.pdf]
    and a writable [Documents] folder. *)
Definition scenario_readonly : fs :=
  mkFS (list_to_map [(["home"]%string, NDir); (home, NDir); (downloads, NDir);
                     (in_downloads "report.pdf", NFile 1); (in_downloads "Documents", NDir)])
       {[downloads]} ∅.

End Fixtures.
