(* ===== verification/OrganizerProps.v ===== *)
(** * Properties of the AI-native organizer

    - frame lemmas: which computations of [M] keep the filesystem, or a
      relation on it ([preserves]);
    - [dry_run] performs no filesystem change;
    - every file of the run ends in exactly one outcome (moved, skipped,
      errored; in a dry run: would move or skipped), the abstract
      per-file contract [file_outcome] that [process_file] refines;
    - conservation of the counters, never losing a file, the error
      paths of [organize_files]. *)

From stdpp Require Import base gmap strings list pretty.
From S2P Require Import Prelude PyPath FileSystem Config Category UniqueName Organizer Fixtures.

Module OrganizerProps.
Import FS Organizer.

(** ** Frame lemmas *)

Definition preserves {A} (R : relation fs) (m : M A) : Prop :=
  ∀ w, R (w_fs w) (w_fs (m w).1).

Section Preserves.
Context (R : relation fs) `{!PreOrder R}.

Lemma preserves_ret {A} (a : A) : preserves R (py_ret a).
Proof. intros w. simpl. reflexivity. Qed.

Lemma preserves_bind {A B} (m : M A) (k : A → M B) :
  preserves R m → (∀ a, preserves R (k a)) → preserves R (py_bind m k).
Proof.
  intros Hm Hk w. unfold py_bind. specialize (Hm w).
  destruct (m w) as [w' [e|a]]; simpl in *; [done|]. by etrans; [|apply Hk].
Qed.

Lemma preserves_try {A} (m : M A) (h : py_exc → M A) :
  preserves R m → (∀ e, preserves R (h e)) → preserves R (py_try m h).
Proof.
  intros Hm Hh w. unfold py_try. specialize (Hm w).
  destruct (m w) as [w' [e|a]]; simpl in *; [|done]. by etrans; [|apply Hh].
Qed.

Lemma preserves_print e : preserves R (print e).
Proof. intros w. simpl. reflexivity. Qed.

Lemma preserves_read {A} (f : fs → A) : preserves R (read_fs f).
Proof. intros w. simpl. reflexivity. Qed.

Lemma preserves_when b m : preserves R m → preserves R (when b m).
Proof. destruct b; [done|apply preserves_ret]. Qed.

Lemma preserves_foldM {A B} (f : A → B → M A) a l :
  (∀ a0 x, preserves R (f a0 x)) → preserves R (py_foldM f a l).
Proof.
  intros Hf. revert a. induction l as [|x l IH]; intros a'; simpl;
    [apply preserves_ret | apply preserves_bind; auto].
Qed.

Lemma preserves_lift_pure {A} (f : world → py_exc + (world * A)) :
  (∀ w w' a, f w = inr (w', a) → w_fs w' = w_fs w) → preserves R (py_lift f).
Proof.
  intros Hf w. unfold py_lift. destruct (f w) as [e|[w' a]] eqn:E; simpl; [reflexivity|].
  rewrite (Hf _ _ _ E). reflexivity.
Qed.
End Preserves.

#[export] Hint Resolve preserves_ret preserves_print preserves_read preserves_when
  preserves_foldM : pyorg.

(** Decompose a computation into its steps; the goals left are the
    filesystem calls. *)
Ltac solve_preserves :=
  repeat match goal with
  | |- PreOrder _ => first [assumption | typeclasses eauto]
  | |- preserves _ (let _ := _ in _) => cbv zeta
  | |- preserves _ (py_bind _ _) => apply preserves_bind; last intros ?
  | |- preserves _ (py_try _ _) => apply preserves_try; last intros ?
  | |- preserves _ (when _ _) => apply preserves_when
  | |- preserves _ (py_foldM _ _ _) => apply preserves_foldM; last intros ? ?
  | |- preserves _ (if negb true then _ else _) => cbn [negb]
  | |- preserves _ (if ?b then _ else _) => destruct b
  | |- preserves _ (match ?x with _ => _ end) => destruct x
  | |- preserves _ (py_ret _) => apply preserves_ret
  | |- preserves _ (print _) => apply preserves_print
  | |- preserves _ (read_fs _) => apply preserves_read
  end.

(** Turn a goal [∀ w, R (w_fs w) (w_fs (m w).1)] about the current world
    back into [preserves R m] and decompose it. *)
Ltac as_preserves :=
  match goal with
  | w : world |- ?R (w_fs ?w) (w_fs (?m ?w).1) => revert w; change (preserves R m)
  end; solve_preserves.

Section Frames.
Context (R : relation fs) `{!PreOrder R}.
Context (tbl : category_table) (d : path) (dry verbose : bool).

Lemma handle_preserves n i fp acc e : preserves R (handle n i fp acc e).
Proof. unfold handle. solve_preserves. Qed.

Lemma print_summary_preserves files ls : preserves R (print_summary dry verbose files ls).
Proof. unfold print_summary. solve_preserves. Qed.

Lemma organize_files_preserves `{DirLister} :
  (∀ n i fp acc, preserves R (process_body tbl d dry verbose n i fp acc)) →
  preserves R (organize_files tbl d dry verbose).
Proof.
  intros Hb. unfold organize_files, run_files. solve_preserves.
  all: try apply print_summary_preserves.
  all: try (apply preserves_lift_pure; [done|]; intros w0 w1 x;
            by destruct (iterdir _ _); intros [= <- _]).
  all: match goal with
       | |- preserves _ (process_file _ _ _ _ _ _ ?ifp) =>
           destruct ifp; unfold process_file; solve_preserves;
           [apply Hb | apply handle_preserves]
       end.
Qed.
End Frames.

(** ** A dry run changes nothing on disk *)

Lemma process_body_dry_preserves tbl d verbose total i fp acc :
  preserves eq (process_body tbl d true verbose total i fp acc).
Proof. unfold process_body. solve_preserves. Qed.

(** C4: with [dry_run=True], [organize_files] performs no filesystem
    change: no directory is created and no file is moved, whatever the
    directory holds and whatever exceptions occur. *)
Theorem organize_files_dry_run_no_mutation `{DirLister} tbl d verbose w :
  w_fs (organize_files tbl d true verbose w).1 = w_fs w.
Proof.
  symmetry. revert w. apply (organize_files_preserves eq tbl d true verbose).
  intros; apply process_body_dry_preserves.
Qed.

(** ** No file content is lost *)

(** Every file content held before is still held after, by as many
    files at least (inode numbers, with multiplicity, wherever they are). *)
Definition kept_files : relation fs := λ σ σ', FS.file_inodes σ ⊆+ FS.file_inodes σ'.

#[export] Instance kept_files_preorder : PreOrder kept_files.
Proof. unfold kept_files. split; [intros σ; done | intros σ1 σ2 σ3 H12 H23; by etrans]. Qed.

Lemma preserves_read_bind {A B} (R : relation fs) (f : fs → A) (k : A → M B) :
  (∀ w, R (w_fs w) (w_fs (k (f (w_fs w)) w).1)) → preserves R (py_bind (read_fs f) k).
Proof. done. Qed.

(** Creating the category folder, then moving the file onto a free path
    of that folder, loses no file content, whether the move succeeds,
    fails before writing, or fails after its copy. *)
Lemma mkdir_move_kept c fp dst (x : loop_state) σ w :
  w_fs w = σ → lookup_node σ dst = None → PyPath.parent dst = c →
  kept_files σ
    (w_fs ((fs_call (λ σ, mkdir_exist_ok σ c) ;; fs_do (λ σ, shutil_move σ fp dst) ;;
            py_ret x : M loop_state) w).1).
Proof.
  intros <- Hfree Hpar. rewrite fs_call_bind.
  destruct (mkdir_exist_ok (w_fs w) c) as [e|σ1] eqn:Hm; [reflexivity|].
  rewrite fs_do_bind.
  destruct (FSEffects.mkdir_move_file_inodes _ _ _ fp dst Hm Hfree Hpar) as [Hsub _].
  revert Hsub. cbn [w_fs]. by destruct (shutil_move σ1 fp dst) as [σ2 []].
Qed.

Lemma print_then {A} e (m : M A) w :
  (print e ;; m) w = m (mkWorld (w_fs w) (w_out w ++ [e])).
Proof. done. Qed.

Lemma process_body_kept tbl d dry verbose n i fp acc :
  preserves kept_files (process_body tbl d dry verbose n i fp acc).
Proof.
  unfold process_body. cbv zeta. apply preserves_read_bind. intros w. simpl.
  destruct (_ && _); [as_preserves|].
  case_bool_decide; [as_preserves|].
  destruct dry; [cbn [negb]; destruct (verbose || true); as_preserves|cbn [negb]].
  destruct verbose; simpl; rewrite ?print_then;
    (apply mkdir_move_kept; simpl;
     [ done
     | apply FSFacts.path_exists_false, UniqueName.get_unique_filename_fresh
     | by rewrite UniqueName.get_unique_filename_parent, PyPath.parent_join ]).
Qed.

(** C3: [organize_files] never deletes or overwrites a file's content:
    every regular file's content before the run is held after it by as
    many files at least, in live mode as in a dry run and whatever
    exceptions occur, including a [shutil.move] that fails after its
    copy (which leaves one more). *)
Theorem organize_files_keeps_files `{DirLister} tbl d dry verbose w :
  FS.file_inodes (w_fs w) ⊆+ FS.file_inodes (w_fs (organize_files tbl d dry verbose w).1).
Proof.
  revert w. apply (organize_files_preserves kept_files tbl d dry verbose).
  intros; apply process_body_kept.
Qed.

(** ** Normal termination *)

(** [m] returns normally from every world, with a result satisfying [P]. *)
Definition returns {A} (P : A → Prop) (m : M A) : Prop :=
  ∀ w, ∃ w' a, m w = (w', inr a) ∧ P a.

Lemma returns_ret {A} (P : A → Prop) a : P a → returns P (py_ret a).
Proof. intros HP w. eauto. Qed.

Lemma returns_bind {A B} (Q : A → Prop) (P : B → Prop) (m : M A) (k : A → M B) :
  returns Q m → (∀ a, Q a → returns P (k a)) → returns P (py_bind m k).
Proof.
  intros Hm Hk w. destruct (Hm w) as (w' & a & Heq & HQ).
  unfold py_bind. rewrite Heq. by apply Hk.
Qed.

Lemma returns_print e : returns (λ _, True) (print e).
Proof. intros w. eauto. Qed.

Lemma returns_read {A} (f : fs → A) : returns (λ _, True) (read_fs f).
Proof. intros w. eauto. Qed.

Lemma returns_when b m : returns (λ _, True) m → returns (λ _, True) (when b m).
Proof. intros Hm. unfold when. destruct b; [done|by apply returns_ret]. Qed.

Lemma returns_foldM {A B} (I : A → Prop) (f : A → B → M A) a l :
  I a → (∀ a' x, I a' → returns I (f a' x)) → returns I (py_foldM f a l).
Proof.
  intros Ha Hf. revert a Ha. induction l as [|x l IH]; intros a Ha; simpl.
  - by apply returns_ret.
  - eapply returns_bind; [by apply Hf | auto].
Qed.

Ltac solve_returns :=
  repeat match goal with
  | |- returns _ (let _ := _ in _) => cbv zeta
  | |- returns _ (py_bind _ _) => eapply returns_bind; last intros ? ?
  | |- returns _ (when _ _) => apply returns_when
  | |- returns _ (py_foldM _ _ _) =>
      apply (returns_foldM (λ _, True)); [done|intros ? ? ?]
  | |- returns _ (if ?b then _ else _) => destruct b
  | |- returns _ (print _) => apply returns_print
  | |- returns _ (read_fs _) => apply returns_read
  | |- returns _ (py_ret _) => apply returns_ret
  end.

Lemma print_summary_returns dry verbose files ls :
  returns (λ _, True) (print_summary dry verbose files ls).
Proof. unfold print_summary. solve_returns; done. Qed.

(** ** The per-file contract *)

(** What one file can become (the spec's [MoveResult]): skipped, errored
    with an exception other than the two that mean "skip", moved in a live
    run, or reported as "would move" in a dry run. *)
Inductive file_outcome (dry : bool) (nm : string) (acc : loop_state) : loop_state → Prop :=
  | fo_skipped : file_outcome dry nm acc (add_skipped acc nm)
  | fo_errored e : e ≠ PermissionError → e ≠ FileNotFoundError →
      file_outcome dry nm acc (add_error acc nm e)
  | fo_moved : dry = false → file_outcome dry nm acc (add_moved acc)
  | fo_would_move : dry = true → file_outcome dry nm acc acc.

Lemma fs_call_inv f w w' (r : py_exc + unit) :
  fs_call f w = (w', r) → w_out w' = w_out w.
Proof. unfold fs_call, py_lift. destruct (f (w_fs w)); intros [= <- _]; done. Qed.

Lemma bind_inr {A B} (m : M A) (k : A → M B) w w' b :
  py_bind m k w = (w', inr b) → ∃ a w1, k a w1 = (w', inr b).
Proof. unfold py_bind. destruct (m w) as [w1 [e|a]]; [done|eauto]. Qed.

Lemma ret_inr {A} (x a : A) (w w' : world) : (py_ret x : M A) w = (w', inr a) → a = x.
Proof. by intros [= _ <-]. Qed.

Lemma process_body_inr tbl d dry verbose n i fp acc w w' acc' :
  process_body tbl d dry verbose n i fp acc w = (w', inr acc') →
  acc' = add_skipped acc (PyPath.name fp) ∨
  (dry = false ∧ acc' = add_moved acc) ∨ (dry = true ∧ acc' = acc).
Proof.
  unfold process_body. cbv zeta. intros H. apply bind_inr in H as (σ & w1 & H).
  destruct (_ && _).
  { apply bind_inr in H as (? & ? & ->%ret_inr). by left. }
  case_bool_decide.
  { apply bind_inr in H as (? & ? & ->%ret_inr). by left. }
  apply bind_inr in H as (? & w2 & H). destruct dry; simpl in H.
  - apply ret_inr in H as ->. naive_solver.
  - apply bind_inr in H as (? & ? & H). apply bind_inr in H as (? & ? & ->%ret_inr).
    naive_solver.
Qed.

Lemma handle_returns n i fp acc e :
  returns (λ acc', (e = PermissionError ∨ e = FileNotFoundError) ∧ acc' = add_skipped acc (PyPath.name fp) ∨
                   (e ≠ PermissionError ∧ e ≠ FileNotFoundError ∧
                    acc' = add_error acc (PyPath.name fp) e))
          (handle n i fp acc e).
Proof.
  unfold handle. destruct e; solve_returns; naive_solver.
Qed.

Lemma process_file_contract tbl d dry verbose n acc i fp :
  returns (file_outcome dry (PyPath.name fp) acc)
          (process_file tbl d dry verbose n acc (i, fp)).
Proof.
  intros w. unfold process_file, py_try.
  destruct (process_body tbl d dry verbose n i fp acc w) as [w1 [e|acc1]] eqn:Hb.
  - destruct (handle_returns n i fp acc e w1) as (w2 & acc2 & Heq & Hc).
    exists w2, acc2. split; [done|].
    destruct Hc as [[_ ->]|(? & ? & ->)]; by constructor.
  - exists w1, acc1. split; [done|].
    apply process_body_inr in Hb as [->|[[? ->]|[? ->]]]; by constructor.
Qed.

Lemma returns_mono {A} (P Q : A → Prop) (m : M A) :
  (∀ a, P a → Q a) → returns P m → returns Q m.
Proof. intros HPQ Hm w. destruct (Hm w) as (w' & a & ? & ?). eauto. Qed.

(** ** The loop: one outcome per file, in order *)

Inductive outcomes (dry : bool) : loop_state → list string → loop_state → Prop :=
  | outs_nil acc : outcomes dry acc [] acc
  | outs_cons acc acc' acc'' nm names :
      file_outcome dry nm acc acc' → outcomes dry acc' names acc'' →
      outcomes dry acc (nm :: names) acc''.

Lemma loop_outcomes tbl d dry verbose n acc (ifps : list (nat * path)) :
  returns (outcomes dry acc ((λ ifp, PyPath.name ifp.2) <$> ifps))
          (py_foldM (process_file tbl d dry verbose n) acc ifps).
Proof.
  revert acc. induction ifps as [|[i fp] ifps IH]; intros acc; simpl.
  - apply returns_ret. constructor.
  - eapply returns_bind; [apply process_file_contract|]. intros acc' Ho.
    eapply returns_mono; [|apply IH]. intros acc''. by econstructor.
Qed.

Lemma enumerate1_names (files : list path) :
  (λ ifp : nat * path, PyPath.name ifp.2) <$> enumerate1 files = PyPath.name <$> files.
Proof.
  unfold enumerate1.
  change ((PyPath.name ∘ snd) <$> zip (seq 1 (length files)) files = PyPath.name <$> files).
  rewrite list_fmap_compose, snd_zip; [done|rewrite length_seq; lia].
Qed.

Definition total_count (s : stats) : nat := moved s + skipped s + errors s.

(** In a live run every file adds exactly one to one counter. *)
Lemma outcomes_live_count acc names acc' :
  outcomes false acc names acc' →
  total_count (ls_stats acc') = total_count (ls_stats acc) + length names.
Proof.
  induction 1 as [|acc acc' acc'' nm names Ho _ IH]; simpl; [lia|].
  rewrite IH. inversion Ho; subst; unfold total_count; simpl; lia || done.
Qed.

(** The lists of skipped and failed files have as many entries as their
    counters: the loop's local invariant. *)
Definition loop_inv (acc : loop_state) : Prop :=
  length (ls_skipped_files acc) = skipped (ls_stats acc) ∧
  length (ls_error_files acc) = errors (ls_stats acc).

Lemma outcomes_inv dry acc names acc' :
  outcomes dry acc names acc' → loop_inv acc → loop_inv acc'.
Proof.
  induction 1 as [|acc acc' acc'' nm names Ho _ IH]; [done|].
  intros [Hs He]. apply IH. unfold loop_inv.
  inversion Ho; subst; simpl; rewrite ?length_app; simpl; lia.
Qed.

(** The loop over [enumerate(files, 1)] never raises, gives each file
    exactly one outcome in order, and keeps [len(skipped_files) ==
    stats["skipped"]] and [len(error_files) == stats["errors"]]. *)
Lemma loop_outcomes_inv tbl d dry verbose (files : list path) :
  returns (λ acc, outcomes dry init_loop (PyPath.name <$> files) acc ∧ loop_inv acc)
          (py_foldM (process_file tbl d dry verbose (length files)) init_loop
                    (enumerate1 files)).
Proof.
  eapply returns_mono; [|apply loop_outcomes]. rewrite enumerate1_names.
  intros acc Ho. split; [done|]. by eapply outcomes_inv.
Qed.

(** ** [organize_files] *)

(** The files [organize_files] processes: the regular, non-hidden entries
    of [downloads_path], in listing order. *)
Definition files_of `{DirLister} (σ : fs) (d : path) : list path :=
  select_files σ (map (PyPath.join d) (list_dir σ d)).

Lemma organize_files_dir `{DirLister} tbl d dry verbose w :
  is_dir (w_fs w) d = true →
  organize_files tbl d dry verbose w = run_files tbl d dry verbose (files_of (w_fs w) d) w.
Proof.
  intros Hd. unfold organize_files, is_dir in *. unfold py_bind at 1. simpl.
  unfold path_exists, iterdir.
  destruct (lookup_node (w_fs w) d) as [[]|] eqn:Hl; try done. simpl.
  unfold py_bind, py_lift. rewrite Hl. done.
Qed.

(** A run over [files] returns the counters of a sequence of per-file
    outcomes, one per file in order (or zero counters when [files] is
    empty). *)
Lemma run_files_outcomes tbl d dry verbose files :
  returns (λ s, ∃ acc, outcomes dry init_loop (PyPath.name <$> files) acc ∧ ls_stats acc = s)
          (run_files tbl d dry verbose files).
Proof.
  unfold run_files. case_bool_decide as Hnil.
  - subst. solve_returns. exists init_loop. split; [constructor|done].
  - eapply returns_bind; [apply returns_print|intros ? _].
    eapply returns_bind; [apply returns_when, returns_print|intros ? _].
    eapply returns_bind; [apply returns_print|intros ? _].
    eapply returns_bind; [apply loop_outcomes_inv|intros acc [Ho _]].
    eapply returns_bind; [apply print_summary_returns|intros ? _].
    apply returns_ret. eauto.
Qed.

Lemma run_files_live_count tbl d verbose files :
  returns (λ s, total_count s = length files) (run_files tbl d false verbose files).
Proof.
  eapply returns_mono; [|apply run_files_outcomes]. intros s (acc & Ho%outcomes_live_count & <-).
  rewrite Ho, length_fmap. done.
Qed.

(** C7: a live run on a directory never raises, and [moved + skipped +
    errors] equals the number of regular, non-hidden files it found:
    every file is accounted for exactly once. *)
Theorem organize_files_conservation `{DirLister} tbl d verbose σ out :
  is_dir σ d = true →
  ∃ w' s, organize_files tbl d false verbose (mkWorld σ out) = (w', inr s) ∧
          moved s + skipped s + errors s = length (files_of σ d).
Proof.
  intros Hd. rewrite organize_files_dir by done.
  apply run_files_live_count.
Qed.

Lemma returns_try_ok {A} (P : A → Prop) (m : M A) h :
  returns P m → returns P (py_try m h).
Proof. intros Hm w. destruct (Hm w) as (w' & a & Heq & ?). unfold py_try. rewrite Heq. eauto. Qed.

(** A loop whose bodies all return normally and keep [I] keeps [I]. *)
Lemma loop_keeps tbl d dry verbose n (I : loop_state → Prop) acc ifps :
  I acc →
  (∀ i fp acc', (i, fp) ∈ ifps → I acc' →
     returns I (process_body tbl d dry verbose n i fp acc')) →
  returns I (py_foldM (process_file tbl d dry verbose n) acc ifps).
Proof.
  revert acc. induction ifps as [|[i fp] ifps IH]; intros acc HI Hb; simpl.
  - by apply returns_ret.
  - eapply returns_bind; [apply returns_try_ok, Hb; [by left|done]|].
    intros acc' HI'. apply IH; [done|]. intros; apply Hb; [by right|done].
Qed.

Definition nothing_moved_or_failed (acc : loop_state) : Prop :=
  moved (ls_stats acc) = 0 ∧ errors (ls_stats acc) = 0.

Lemma process_body_dry_returns tbl d verbose n i fp acc :
  nothing_moved_or_failed acc →
  returns nothing_moved_or_failed (process_body tbl d true verbose n i fp acc).
Proof.
  intros Hacc. unfold process_body. cbv zeta.
  eapply returns_bind; [apply returns_read|intros σ _].
  destruct (_ && _); [|case_bool_decide]; cbn [negb];
    solve_returns; done.
Qed.

Lemma run_files_keeps tbl d dry verbose files (I : loop_state → Prop) (P : stats → Prop) :
  I init_loop →
  (∀ i fp acc, fp ∈ files → I acc →
     returns I (process_body tbl d dry verbose (length files) i fp acc)) →
  P zero_stats → (∀ acc, I acc → P (ls_stats acc)) →
  returns P (run_files tbl d dry verbose files).
Proof.
  intros Hinit Hb Hz HP. unfold run_files. case_bool_decide.
  { solve_returns. done. }
  do 3 (eapply returns_bind; [solve_returns; done|intros ? _]).
  eapply returns_bind; [apply loop_keeps; [done|]|intros acc HI].
  - intros i fp acc Hin. apply Hb. unfold enumerate1 in Hin.
    apply elem_of_zip_r in Hin. done.
  - eapply returns_bind; [apply print_summary_returns|intros ? _].
    apply returns_ret. auto.
Qed.

(** C12: a dry run on a directory never raises and reports [moved == 0]
    and [errors == 0]: nothing is moved and, since no filesystem call is
    made, nothing can fail. *)
Theorem organize_files_dry_run_counts `{DirLister} tbl d verbose σ out :
  is_dir σ d = true →
  ∃ w' s, organize_files tbl d true verbose (mkWorld σ out) = (w', inr s) ∧
          moved s = 0 ∧ errors s = 0.
Proof.
  intros Hd. rewrite organize_files_dir by done.
  apply (run_files_keeps _ _ _ _ _ nothing_moved_or_failed); [done| |done|done].
  intros; by apply process_body_dry_returns.
Qed.

Lemma files_of_parent `{DirLister} σ d fp : fp ∈ files_of σ d → PyPath.parent fp = d.
Proof.
  unfold files_of, select_files. rewrite !list_elem_of_filter, list_elem_of_In, in_map_iff.
  intros (_ & _ & n & <- & _). apply PyPath.parent_join.
Qed.

Lemma process_body_skips_in_category tbl d dry verbose n i fp acc :
  PyPath.name (PyPath.parent fp) ∈ table_keys tbl →
  returns (λ acc', acc' = add_skipped acc (PyPath.name fp))
          (process_body tbl d dry verbose n i fp acc).
Proof.
  intros Hin. unfold process_body. cbv zeta.
  eapply returns_bind; [apply returns_read|intros σ _].
  destruct (_ && _); [|rewrite bool_decide_true by done]; solve_returns; done.
Qed.

(** C14: the guard "already in a category folder" tests the name of the
    downloads directory itself, since every listed file lies directly in
    it.  A live run on a directory whose name is a category (for example
    [~/Documents]) therefore moves nothing: every file is skipped. *)
Theorem organize_files_category_named_dir `{DirLister} tbl d verbose σ out :
  is_dir σ d = true → PyPath.name d ∈ table_keys tbl →
  ∃ w' s, organize_files tbl d false verbose (mkWorld σ out) = (w', inr s) ∧
          moved s = 0 ∧ errors s = 0 ∧ skipped s = length (files_of σ d).
Proof.
  intros Hd Hname. rewrite organize_files_dir by done. cbn [w_fs].
  destruct (run_files_live_count tbl d verbose (files_of σ d) (mkWorld σ out))
    as (w' & s & Hrun & Hcount).
  assert (moved s = 0 ∧ errors s = 0) as [Hm He].
  { destruct (run_files_keeps tbl d false verbose (files_of σ d) nothing_moved_or_failed
                (λ s, moved s = 0 ∧ errors s = 0) ltac:(done)
                ltac:(intros i fp acc Hin [Hm He];
                      eapply returns_mono; [|apply process_body_skips_in_category;
                                             by rewrite (files_of_parent _ _ _ Hin)];
                      intros ? ->; split; done)
                ltac:(done) ltac:(done) (mkWorld σ out)) as (w'' & s' & Hrun' & ?).
    rewrite Hrun in Hrun'. by simplify_eq. }
  exists w', s. unfold total_count in Hcount. split_and!; [done|done|done|lia].
Qed.

(** ** The error paths of [organize_files] *)

(** C16: when [downloads_path] does not exist, [organize_files] prints the
    "does not exist" line, returns zero counters and touches nothing. *)
Theorem organize_files_missing_dir `{DirLister} tbl d dry verbose σ out :
  path_exists σ d = false →
  organize_files tbl d dry verbose (mkWorld σ out) =
    (mkWorld σ (out ++ [EDirNotFound d]), inr zero_stats).
Proof. intros Hd. unfold organize_files, py_bind. simpl. by rewrite Hd. Qed.

(** C15: when [downloads_path] exists but is a regular file, the
    [exists()] check passes and [iterdir()] raises [NotADirectoryError],
    which nothing catches: the run aborts instead of reporting a missing
    directory. *)
Theorem organize_files_file_as_dir `{DirLister} tbl d dry verbose σ out :
  is_file σ d = true →
  organize_files tbl d dry verbose (mkWorld σ out) =
    (mkWorld σ out, inl NotADirectoryError).
Proof.
  intros Hf. unfold organize_files, py_bind, py_lift, read_fs. simpl.
  unfold path_exists, iterdir, is_file in *.
  destruct (lookup_node σ d) as [[]|] eqn:E; simpl in *; try done. by rewrite E.
Qed.

(** ** Witnesses *)

Lemma organize_files_missing_dir_witness :
  organize_files AINativeConfig.FILE_CATEGORIES ["nowhere"]%string false true
    (mkWorld Fixtures.scenario_collision []) =
  (mkWorld Fixtures.scenario_collision [EDirNotFound ["nowhere"]%string], inr zero_stats).
Proof. apply organize_files_missing_dir. vm_compute. reflexivity. Defined.

Lemma organize_files_file_as_dir_witness :
  organize_files AINativeConfig.FILE_CATEGORIES (Fixtures.in_downloads "a.txt") false false
    (mkWorld Fixtures.scenario_collision []) =
  (mkWorld Fixtures.scenario_collision [], inl NotADirectoryError).
Proof. apply organize_files_file_as_dir. vm_compute. reflexivity. Defined.

Lemma organize_files_conservation_witness :
  ∃ w' s, organize_files AINativeConfig.FILE_CATEGORIES Fixtures.downloads false false
            (mkWorld Fixtures.scenario_images_file []) = (w', inr s) ∧
          moved s + skipped s + errors s =
            length (files_of Fixtures.scenario_images_file Fixtures.downloads).
Proof. apply organize_files_conservation. vm_compute. reflexivity. Defined.

Lemma organize_files_dry_run_counts_witness :
  ∃ w' s, organize_files AINativeConfig.FILE_CATEGORIES Fixtures.downloads true false
            (mkWorld Fixtures.scenario_images_file []) = (w', inr s) ∧
          moved s = 0 ∧ errors s = 0.
Proof. apply organize_files_dry_run_counts. vm_compute. reflexivity. Defined.

Lemma organize_files_category_named_dir_witness :
  ∃ w' s, organize_files AINativeConfig.FILE_CATEGORIES Fixtures.documents_dir false false
            (mkWorld Fixtures.scenario_documents_dir []) = (w', inr s) ∧
          moved s = 0 ∧ errors s = 0 ∧
          skipped s = length (files_of Fixtures.scenario_documents_dir Fixtures.documents_dir).
Proof.
  apply organize_files_category_named_dir; [vm_compute; reflexivity | vm_decide].
Defined.

End OrganizerProps.
