(* ===== verification/BasicOrganizer.v ===== *)
(** * The basic organizer: [python-learning/projects/01_downloads_organizer/main.py]

    The first version of the organizer (lines 35-95): no [try], no
    hidden-file filter, no check that a category folder is a plain file,
    no counters but [moved_count].  Its duplicate-name loop (lines 76-81)
    is the loop of [get_unique_filename] written inline; [unique_destination]
    shows it computes the same path.  An exception raised by [mkdir] or
    [shutil.move] propagates out of [organize_files] and ends the run. *)

From stdpp Require Import base gmap strings list.
From S2P Require Import Prelude PyPath FileSystem Config Category UniqueName Organizer Fixtures.

Module BasicOrganizer.
Import FS.

Inductive event :=
  | BDirNotFound (p : path)
  | BNoFiles
  | BFound (n : nat)
  | BDryRunBanner
  | BMoving (dry : bool) (nm category : string)
  | BSuccess (n : nat)
  | BWouldOrganize (n : nat).

Record world := mkWorld { bw_fs : fs; bw_out : list event }.

Abbreviation M := (PyM world py_exc).

Definition print (e : event) : M unit :=
  py_modify (λ w, mkWorld (bw_fs w) (bw_out w ++ [e])).

Definition when (b : bool) (m : M unit) : M unit := if b then m else py_ret tt.

Definition read_fs {A} (f : fs → A) : M A := λ w, (w, inr (f (bw_fs w))).

Definition fs_call (f : fs → py_exc + fs) : M unit :=
  py_lift (λ w, match f (bw_fs w) with
                | inl e => inl e
                | inr σ' => inr (mkWorld σ' (bw_out w), tt)
                end).

Definition fs_do (f : fs → fs * option py_exc) : M unit :=
  λ w, let r := f (bw_fs w) in
       (mkWorld r.1 (bw_out w), match r.2 with Some e => inl e | None => inr tt end).

(** Lines 74-81: [destination = category_folder / file_path.name], then
    [counter = 1; while destination.exists(): destination =
    category_folder / f"{stem}_{counter}{file_extension}"; counter += 1]. *)
Definition unique_destination (σ : fs) (category_folder file_path : path) : path :=
  let nm := PyPath.name file_path in
  let destination := PyPath.join category_folder nm in
  default destination
    (UniqueName.unique_loop σ category_folder (PyPath.stem nm) (PyPath.suffix nm)
       (UniqueName.unique_fuel σ) destination 1).

Section Loop.
Context (FILE_CATEGORIES : category_table) (downloads_path : path)
        (dry_run verbose : bool).

(** The body of [for file_path in files] (lines 64-90). *)
Definition process_file (moved_count : nat) (file_path : path) : M nat :=
  let file_extension := PyPath.suffix (PyPath.name file_path) in
  let category := Category.get_file_category_basic FILE_CATEGORIES file_extension in
  let category_folder := PyPath.join downloads_path category in
  σ <- read_fs id ;;
  let destination := unique_destination σ category_folder file_path in
  when (verbose || dry_run) (print (BMoving dry_run (PyPath.name file_path) category)) ;;
  if negb dry_run then
    fs_call (λ σ, mkdir_exist_ok σ category_folder) ;;
    fs_do (λ σ, shutil_move σ file_path destination) ;;
    py_ret (S moved_count)
  else py_ret moved_count.
End Loop.

(** Lines 53-95, once [files] is computed: the empty case, the banner,
    the loop and the closing line. *)
Definition run_files (FILE_CATEGORIES : category_table) (downloads_path : path)
    (dry_run verbose : bool) (files : list path) : M unit :=
  if bool_decide (files = []) then print BNoFiles
  else
    print (BFound (length files)) ;;
    when dry_run (print BDryRunBanner) ;;
    moved_count <- py_foldM (process_file FILE_CATEGORIES downloads_path dry_run verbose)
                            0 files ;;
    if negb dry_run then print (BSuccess moved_count)
    else print (BWouldOrganize (length files)).

(** [organize_files] (lines 35-95); it returns [None]. *)
Definition organize_files `{DirLister} (FILE_CATEGORIES : category_table)
    (downloads_path : path) (dry_run verbose : bool) : M unit :=
  σ <- read_fs id ;;
  if negb (path_exists σ downloads_path) then print (BDirNotFound downloads_path)
  else
    entries <- py_lift (λ w, match iterdir (bw_fs w) downloads_path with
                             | inl e => inl e
                             | inr l => inr (w, l)
                             end) ;;
    files <- read_fs (λ σ, filter (λ f, is_file σ f = true) entries) ;;
    run_files FILE_CATEGORIES downloads_path dry_run verbose files.

(** ** The inline duplicate loop is [get_unique_filename] *)

Lemma unique_destination_eq σ folder fp :
  unique_destination σ folder fp =
  UniqueName.get_unique_filename σ (PyPath.join folder (PyPath.name fp)).
Proof.
  unfold unique_destination, UniqueName.get_unique_filename, UniqueName.unique_fuel.
  rewrite PyPath.name_join, PyPath.parent_join.
  destruct (path_exists σ (PyPath.join folder (PyPath.name fp))) eqn:He; [done|].
  simpl. by rewrite He.
Qed.

(** C21: the basic organizer's inline [while destination.exists()] loop
    computes the same destination as the AI-native
    [get_unique_filename(category_folder / file_path.name)]: the early
    [return] of the latter changes nothing. *)
Theorem unique_destination_equiv σ folder fp :
  unique_destination σ folder fp =
  UniqueName.get_unique_filename σ (PyPath.join folder (PyPath.name fp)).
Proof. apply unique_destination_eq. Qed.

(** ** The two organizers on one file *)

Lemma basic_read_bind {A B} (f : fs → A) (k : A → M B) w :
  py_bind (read_fs f) k w = k (f (bw_fs w)) w.
Proof. done. Qed.

Lemma basic_print_bind {B} e (k : unit → M B) w :
  py_bind (print e) k w = k tt (mkWorld (bw_fs w) (bw_out w ++ [e])).
Proof. done. Qed.

Lemma basic_when_false_bind {B} m (k : unit → M B) w : py_bind (when false m) k w = k tt w.
Proof. done. Qed.

Lemma basic_fs_call_bind {B} f (k : unit → M B) w :
  py_bind (fs_call f) k w =
  match f (bw_fs w) with
  | inl e => (w, inl e)
  | inr σ' => k tt (mkWorld σ' (bw_out w))
  end.
Proof. unfold py_bind, fs_call, py_lift. by destruct (f (bw_fs w)). Qed.

Lemma basic_fs_do_bind {B} f (k : unit → M B) w :
  py_bind (fs_do f) k w =
  match f (bw_fs w) with
  | (σ', Some e) => (mkWorld σ' (bw_out w), inl e)
  | (σ', None) => k tt (mkWorld σ' (bw_out w))
  end.
Proof. unfold py_bind, fs_do. by destruct (f (bw_fs w)) as [? []]. Qed.

(** Rewrite both organizers' steps with their computation rules. *)
Ltac step_both :=
  repeat first
    [ rewrite basic_read_bind | rewrite Organizer.read_bind
    | rewrite basic_print_bind | rewrite Organizer.print_bind
    | rewrite basic_when_false_bind | rewrite Organizer.when_false_bind
    | rewrite basic_fs_call_bind | rewrite Organizer.fs_call_bind
    | rewrite basic_fs_do_bind | rewrite Organizer.fs_do_bind
    | rewrite py_bind_ret_l ].

(** What a live per-file step does to the filesystem, and whether it raised. *)
Definition fs_effect {A S} (get_fs : S → fs) (r : S * (py_exc + A)) : fs * option py_exc :=
  (get_fs r.1, match r.2 with inl e => Some e | inr _ => None end).

(** C22: on a file whose extension both tables classify alike, whose
    category folder is not a plain file, and which does not sit in a
    folder named like a category, the basic organizer's step and the
    AI-native [try] body make the same filesystem change and raise the
    same exception, if any. *)
Theorem basic_refines_ai_step tbl d verbose n i fp acc mc σ out bout :
  let ext := PyPath.suffix (PyPath.name fp) in
  let folder := PyPath.join d (Category.get_file_category tbl ext) in
  Category.get_file_category_basic tbl ext = Category.get_file_category tbl ext →
  (path_exists σ folder && negb (is_dir σ folder)) = false →
  PyPath.name (PyPath.parent fp) ∉ table_keys tbl →
  fs_effect bw_fs (process_file tbl d false verbose mc fp (mkWorld σ bout)) =
  fs_effect Organizer.w_fs
    (Organizer.process_body tbl d false verbose n i fp acc (Organizer.mkWorld σ out)).
Proof.
  intros ext folder Hcat Hconf Hkey.
  unfold process_file, Organizer.process_body. cbv zeta. fold ext. rewrite Hcat.
  fold folder. step_both. cbn [id bw_fs Organizer.w_fs].
  rewrite Hconf, bool_decide_false by done. rewrite unique_destination_eq.
  destruct verbose; cbn [orb negb when Organizer.when]; step_both;
    cbn [negb bw_fs Organizer.w_fs]; step_both; cbn [bw_fs Organizer.w_fs].
  all: destruct (mkdir_exist_ok σ folder) as [e|σ1]; [reflexivity|step_both];
    cbn [bw_fs Organizer.w_fs]; destruct (shutil_move σ1 _ _) as [? []]; reflexivity.
Qed.

Lemma basic_refines_ai_step_witness :
  fs_effect bw_fs (process_file AINativeConfig.FILE_CATEGORIES ["home"; "u"; "Downloads"]%string
                     false false 0 ["home"; "u"; "Downloads"; "report.pdf"]%string
                     (mkWorld (mkFS ∅ ∅ ∅) [])) =
  fs_effect Organizer.w_fs
    (Organizer.process_body AINativeConfig.FILE_CATEGORIES ["home"; "u"; "Downloads"]%string
       false false 1 1 ["home"; "u"; "Downloads"; "report.pdf"]%string Organizer.init_loop
       (Organizer.mkWorld (mkFS ∅ ∅ ∅) [])).
Proof.
  apply basic_refines_ai_step; [vm_compute; reflexivity | vm_compute; reflexivity | vm_decide].
Defined.

(** C23: where the AI-native organizer skips a file whose category
    folder exists as a plain file, the basic organizer's [mkdir] raises
    [FileExistsError], which nothing catches: the step leaves the
    filesystem as it was and the exception ends the whole run. *)
Theorem basic_conflict_raises tbl d verbose mc fp σ out :
  is_file σ (PyPath.join d (Category.get_file_category_basic tbl
                             (PyPath.suffix (PyPath.name fp)))) = true →
  ∃ w', process_file tbl d false verbose mc fp (mkWorld σ out) = (w', inl FileExistsError) ∧
        bw_fs w' = σ.
Proof.
  intros Hf. unfold process_file. cbv zeta. step_both. cbn [id bw_fs].
  destruct verbose; cbn [orb negb when]; step_both; cbn [negb bw_fs]; step_both;
    cbn [bw_fs]; unfold is_file, mkdir_exist_ok in *;
    destruct (lookup_node σ _) as [[]|]; try done; by eexists.
Qed.

Lemma basic_conflict_raises_witness :
  ∃ w', process_file BasicConfig.FILE_CATEGORIES Fixtures.downloads false false 0
          (Fixtures.in_downloads "photo.jpg") (mkWorld Fixtures.scenario_images_file []) =
        (w', inl FileExistsError) ∧ bw_fs w' = Fixtures.scenario_images_file.
Proof. apply basic_conflict_raises. vm_compute. reflexivity. Defined.

End BasicOrganizer.
