(* ===== verification/BasicProps.v ===== *)
(** * Properties of the basic organizer over whole runs

    The basic [organize_files] has no [try]: the first exception of
    [mkdir] or [shutil.move] ends the run.  Still, no run loses a file's
    content, a run that returns keeps the contents exactly, and a dry
    run changes nothing: the frame is proved once for a relation kept
    by the per-file step when it returns and one kept when it raises
    ([basic_run_wp]).  For the specification's first scenario the
    basic organizer either organizes everything or aborts with
    [FileExistsError], depending on the listing order. *)

From stdpp Require Import base gmap strings list.
From S2P Require Import Prelude PyPath FileSystem Config Category UniqueName Organizer Fixtures OrganizerProps BasicOrganizer.

Module BasicProps.
Import FS FSFacts FSEffects BasicOrganizer.

(** ** [wp] rules of the basic organizer's primitive actions *)

Section Rules.
Context {A : Type} (Q : A → world → Prop) (Qe : py_exc → world → Prop).

Lemma basic_wp_read {B} (f : fs → B) (k : B → M A) w :
  wp (k (f (bw_fs w))) Q Qe w → wp (py_bind (read_fs f) k) Q Qe w.
Proof. done. Qed.

Lemma basic_wp_print e (k : unit → M A) w :
  wp (k tt) Q Qe (mkWorld (bw_fs w) (bw_out w ++ [e])) → wp (py_bind (print e) k) Q Qe w.
Proof. done. Qed.

Lemma basic_wp_when (b : bool) (m : M unit) (k : unit → M A) w :
  (if b then wp (py_bind m k) Q Qe w else wp (k tt) Q Qe w) →
  wp (py_bind (when b m) k) Q Qe w.
Proof. by destruct b. Qed.

Lemma basic_wp_fs_call f (k : unit → M A) w :
  match f (bw_fs w) with
  | inl e => Qe e w
  | inr σ' => wp (k tt) Q Qe (mkWorld σ' (bw_out w))
  end → wp (py_bind (fs_call f) k) Q Qe w.
Proof. unfold wp, py_bind, fs_call, py_lift. by destruct (f (bw_fs w)). Qed.

Lemma basic_wp_fs_do f (k : unit → M A) w :
  match f (bw_fs w) with
  | (σ', Some e) => Qe e (mkWorld σ' (bw_out w))
  | (σ', None) => wp (k tt) Q Qe (mkWorld σ' (bw_out w))
  end → wp (py_bind (fs_do f) k) Q Qe w.
Proof. unfold wp. rewrite basic_fs_do_bind. by destruct (f (bw_fs w)) as [? []]. Qed.
End Rules.

(** ** The frame of a run *)

Section Frame.
(** [R] relates the filesystem before a computation to the one it leaves
    when it returns, [Re] to the one it leaves when it raises. *)
Context (R Re : relation fs) `{!PreOrder R} `{!Reflexive Re}.
Context (HRe : ∀ σ1 σ2 σ3, R σ1 σ2 → Re σ2 σ3 → Re σ1 σ3).

Definition keeps_from {A} (m : M A) (w : world) : Prop :=
  wp m (λ _ w', R (bw_fs w) (bw_fs w')) (λ _ w', Re (bw_fs w) (bw_fs w')) w.

Lemma keeps_from_print e w : keeps_from (print e) w.
Proof. unfold keeps_from, wp. simpl. reflexivity. Qed.

(** Relations kept by every per-file step are kept by a whole run. *)
Lemma basic_run_wp `{DirLister} tbl d dry verbose w :
  (∀ mc fp w', keeps_from (process_file tbl d dry verbose mc fp) w') →
  keeps_from (organize_files tbl d dry verbose) w.
Proof.
  intros Hstep. unfold keeps_from, organize_files. apply basic_wp_read. cbn [id].
  destruct (negb _); [apply keeps_from_print|].
  apply wp_bind. unfold wp at 1, py_lift.
  destruct (iterdir (bw_fs w) d) as [e|l]; [simpl; reflexivity|]. simpl.
  apply basic_wp_read. unfold run_files. case_bool_decide; [apply keeps_from_print|].
  apply basic_wp_print, basic_wp_when.
  destruct dry; [apply basic_wp_print|]; apply wp_bind;
    (eapply wp_mono; [| |apply (wp_foldM _ (λ _ w', R (bw_fs w) (bw_fs w'))
                                            (λ _ w', Re (bw_fs w) (bw_fs w')))]);
    [intros mc w' HR; unfold wp; simpl; done|by intros|simpl; reflexivity
    |intros mc fp w' _ HR; eapply wp_mono; [..|apply Hstep]; simpl; intros; first [by etrans | by eapply HRe]
    |intros mc w' HR; unfold wp; simpl; done|by intros|simpl; reflexivity
    |intros mc fp w' _ HR; eapply wp_mono; [..|apply Hstep]; simpl; intros; first [by etrans | by eapply HRe]].
Qed.
End Frame.

(** A relation kept by every per-file step, on every path, is kept by a
    whole run. *)
Lemma basic_run_keeps `{DirLister} (R : relation fs) `{!PreOrder R} tbl d dry verbose w :
  (∀ mc fp w', keeps_from R R (process_file tbl d dry verbose mc fp) w') →
  R (bw_fs w) (bw_fs (organize_files tbl d dry verbose w).1).
Proof.
  intros Hstep. apply (wp_final _ (λ w', R (bw_fs w) (bw_fs w'))).
  apply (basic_run_wp R R); [|done]. intros σ1 σ2 σ3 H12 H23. by etrans.
Qed.

(** ** No file content is lost, a dry run changes nothing *)

Import OrganizerProps.

(** Two filesystems hold the same file contents, with multiplicity. *)
Definition same_files : relation fs := λ σ σ', FS.file_inodes σ ≡ₚ FS.file_inodes σ'.

#[export] Instance same_files_preorder : PreOrder same_files.
Proof.
  unfold same_files. split; [intros σ; apply Permutation_refl | intros σ1 σ2 σ3 H12 H23; by etrans].
Qed.

Lemma same_kept σ1 σ2 σ3 : same_files σ1 σ2 → kept_files σ2 σ3 → kept_files σ1 σ3.
Proof. unfold same_files, kept_files. intros ->. done. Qed.

(** [mkdir] of the category folder, then [shutil.move] to a free path
    in it: the file contents are kept when the move returns, and none is
    lost when it raises. *)
Lemma mkdir_move_step σ c σ1 src dst :
  mkdir_exist_ok σ c = inr σ1 → lookup_node σ dst = None → PyPath.parent dst = c →
  match shutil_move σ1 src dst with
  | (σ', Some _) => kept_files σ σ'
  | (σ', None) => same_files σ σ'
  end.
Proof.
  intros Hm Hfree Hpar. destruct (mkdir_move_file_inodes σ c σ1 src dst Hm Hfree Hpar) as [Hs He].
  revert Hs He. unfold kept_files, same_files.
  destruct (shutil_move σ1 src dst) as [σ' []]; cbn; [done|]. intros _ He. by rewrite He.
Qed.

(** One file's step keeps the file contents when it returns and loses
    none when it raises: the destination is free and lies in the
    category folder. *)
Lemma process_file_same_files tbl d dry verbose mc fp w :
  keeps_from same_files kept_files (process_file tbl d dry verbose mc fp) w.
Proof.
  unfold keeps_from, process_file. cbv zeta. apply basic_wp_read. cbn [id].
  apply basic_wp_when. destruct (_ || _); [apply basic_wp_print|]; cbn [bw_fs];
    (destruct dry; cbn [negb]; [unfold wp; simpl; reflexivity|]);
    apply basic_wp_fs_call; cbn [bw_fs];
    (destruct (mkdir_exist_ok _ _) as [e|σ1] eqn:Hm; [reflexivity|]);
    apply basic_wp_fs_do; cbn [bw_fs];
    (match goal with
     | |- context [shutil_move σ1 fp ?dst] =>
         pose proof (mkdir_move_step (bw_fs w) _ σ1 fp dst Hm) as Hstep
     end;
     destruct (shutil_move σ1 _ _) as [σ2 []]; [apply Hstep|unfold wp; apply Hstep]).
  all: rewrite unique_destination_eq;
    first [ apply path_exists_false, UniqueName.get_unique_filename_fresh
          | by rewrite UniqueName.get_unique_filename_parent, PyPath.parent_join ].
Qed.

Lemma process_file_dry tbl d verbose mc fp w :
  keeps_from eq eq (process_file tbl d true verbose mc fp) w.
Proof.
  unfold keeps_from, process_file. cbv zeta. apply basic_wp_read.
  apply basic_wp_when. destruct (_ || _); [apply basic_wp_print|]; done.
Qed.

(** C11: no run of the basic organizer loses a file's content: every
    content before the run is held after it by as many files at least,
    also when [mkdir] or [shutil.move] raises and the exception ends the
    run (a [shutil.move] that fails after its copy leaves one more); and
    a run that returns normally holds exactly the contents it started
    with. *)
Theorem basic_organize_files_keeps_files `{DirLister} tbl d dry verbose w :
  file_inodes (bw_fs w) ⊆+ file_inodes (bw_fs (organize_files tbl d dry verbose w).1) ∧
  ∀ n, (organize_files tbl d dry verbose w).2 = inr n →
       file_inodes (bw_fs (organize_files tbl d dry verbose w).1) ≡ₚ file_inodes (bw_fs w).
Proof.
  pose proof (basic_run_wp same_files kept_files same_kept tbl d dry verbose w
                (process_file_same_files tbl d dry verbose)) as Hrun.
  unfold keeps_from, wp, same_files, kept_files in Hrun.
  destruct (organize_files tbl d dry verbose w) as [w' [e|n]]; cbn [fst snd]; [done|].
  split; [by rewrite Hrun|]. intros _ [= <-]. by symmetry.
Qed.

(** C24: a dry run of the basic organizer changes nothing on disk. *)
Theorem basic_organize_files_dry_run_no_mutation `{DirLister} tbl d verbose w :
  bw_fs (organize_files tbl d true verbose w).1 = bw_fs w.
Proof.
  symmetry. apply (basic_run_keeps eq). intros. apply process_file_dry.
Qed.

(** ** Runs on a directory *)

(** The files the basic organizer processes: the regular entries of
    [downloads_path], hidden ones included, in listing order. *)
Definition listed_files `{DirLister} (σ : fs) (d : path) : list path :=
  filter (λ f, is_file σ f = true) (map (PyPath.join d) (list_dir σ d)).

Lemma basic_organize_files_dir `{DirLister} tbl d dry verbose w :
  is_dir (bw_fs w) d = true →
  organize_files tbl d dry verbose w = run_files tbl d dry verbose (listed_files (bw_fs w) d) w.
Proof.
  intros Hd. unfold organize_files, is_dir in *. unfold py_bind at 1. simpl.
  unfold path_exists, iterdir.
  destruct (lookup_node (bw_fs w) d) as [[]|] eqn:Hl; try done. simpl.
  unfold py_bind, py_lift. rewrite Hl. done.
Qed.

End BasicProps.
