(* ===== verification/Scenarios.v ===== *)
(** * The scenarios of the specification, for every listing order

    The specification describes two concrete runs.  [os.listdir]'s order
    is not fixed, so each scenario is checked for every [DirLister]: any
    lister yields a permutation of the sorted listing ([list_dir_perm]),
    and the run is evaluated on each permutation. *)

From stdpp Require Import base gmap strings list.
From S2P Require Import Prelude PyPath FileSystem Config Category UniqueName Organizer Fixtures OrganizerProps BasicOrganizer BasicProps.

Module Scenarios.
Import FS Organizer OrganizerProps.

(** Every listing order is a permutation of the sorted one. *)
Lemma list_dir_perm `{DirLister} σ d : list_dir σ d ∈ permutations (sorted_list_dir σ d).
Proof.
  apply permutations_Permutation, NoDup_Permutation;
    [apply NoDup_elements | apply list_dir_NoDup |].
  intros n. by rewrite elem_of_sorted_list_dir, elem_of_list_dir.
Qed.

(** Run on every order at once: if [P] holds of the run on every
    permutation of the sorted listing, it holds of the run under any
    lister. *)
Lemma for_every_order `{DirLister} tbl d dry verbose σ out
    (P : world * (py_exc + stats) → Prop) :
  is_dir σ d = true →
  Forall (λ l, P (run_files tbl d dry verbose
                   (select_files σ (map (PyPath.join d) l)) (mkWorld σ out)))
         (permutations (sorted_list_dir σ d)) →
  P (organize_files tbl d dry verbose (mkWorld σ out)).
Proof.
  intros Hd Hall. rewrite organize_files_dir by done. unfold files_of. simpl.
  rewrite Forall_forall in Hall. apply Hall, list_dir_perm.
Qed.

Definition counts (r : world * (py_exc + stats)) : option (nat * nat * nat) :=
  match r.2 with
  | inr s => Some (moved s, skipped s, errors s)
  | inl _ => None
  end.

(** C17: the specification's first scenario ([photo.jpg], [report.pdf],
    [weird.xyz] and a plain file [Images]) expects 2 moved, 1 skipped.
    The code also organizes the plain file [Images] itself (into
    [Other/]): whatever the listing order the run reports 3 moved and 1
    skipped, or 4 moved and none skipped when [Images] is moved before
    [photo.jpg] is examined; both orders occur. *)
Theorem spec_scenario_images_file :
  (∀ L : DirLister,
     counts (@organize_files L AINativeConfig.FILE_CATEGORIES Fixtures.downloads false false
               (mkWorld Fixtures.scenario_images_file []))
       ∈ [Some (3, 1, 0); Some (4, 0, 0)]) ∧
  counts (@organize_files sorted_lister AINativeConfig.FILE_CATEGORIES Fixtures.downloads
            false false (mkWorld Fixtures.scenario_images_file [])) = Some (4, 0, 0) ∧
  counts (@organize_files reversed_lister AINativeConfig.FILE_CATEGORIES Fixtures.downloads
            false false (mkWorld Fixtures.scenario_images_file [])) = Some (3, 1, 0).
Proof.
  split_and!; [|vm_compute; reflexivity..].
  intros L. apply (for_every_order (H := L) _ _ _ _ _ _ (λ r, counts r ∈ _));
    [vm_compute; reflexivity | vm_decide].
Qed.

(** The expected end state of the second scenario. *)
Definition collision_result (r : world * (py_exc + stats)) : Prop :=
  counts r = Some (1, 0, 0) ∧
  fs_nodes (w_fs r.1) !! PyPath.join (Fixtures.in_downloads "Documents") "a_1.txt"
    = Some (NFile 1) ∧
  fs_nodes (w_fs r.1) !! PyPath.join (Fixtures.in_downloads "Documents") "a.txt"
    = Some (NFile 2) ∧
  fs_nodes (w_fs r.1) !! Fixtures.in_downloads "a.txt" = None.

(** C18: the specification's second scenario: [a.txt] beside an existing
    [Documents/a.txt] is moved to [Documents/a_1.txt]; the existing file
    keeps its place and its content, and nothing is left behind. *)
Theorem spec_scenario_collision (L : DirLister) :
  collision_result (@organize_files L AINativeConfig.FILE_CATEGORIES Fixtures.downloads
                      false false (mkWorld Fixtures.scenario_collision [])).
Proof.
  apply (for_every_order (H := L) _ _ _ _ _ _ collision_result);
    [vm_compute; reflexivity | vm_decide].
Qed.

(** The expected end state of the AI-native run on [scenario_ignored]:
    the two non-hidden ignored files are filed under [Other/]. *)
Definition ignored_result (r : world * (py_exc + stats)) : Prop :=
  counts r = Some (2, 0, 0) ∧
  fs_nodes (w_fs r.1) !! PyPath.join (Fixtures.in_downloads "Other") "desktop.ini"
    = Some (NFile 1) ∧
  fs_nodes (w_fs r.1) !! PyPath.join (Fixtures.in_downloads "Other") "Thumbs.db"
    = Some (NFile 2) ∧
  fs_nodes (w_fs r.1) !! Fixtures.in_downloads ".DS_Store" = Some (NFile 3).

(** C20: [IGNORE_FILES] of both [config.py] files is never read.
    [desktop.ini] and [Thumbs.db], which it lists, are moved into
    [Other/] by the AI-native organizer whatever the listing order; only
    [.DS_Store] stays, because it is hidden.  The basic organizer, which
    has no hidden-file filter, moves all three into [Miscellaneous/]. *)
Theorem ignore_files_not_honoured (L : DirLister) :
  Forall (λ f, f ∈ AINativeConfig.IGNORE_FILES ∧ f ∈ BasicConfig.IGNORE_FILES)
         ["desktop.ini"; "Thumbs.db"; ".DS_Store"]%string ∧
  ignored_result (@organize_files L AINativeConfig.FILE_CATEGORIES Fixtures.downloads
                    false false (mkWorld Fixtures.scenario_ignored [])) ∧
  Forall (λ f, fs_nodes (BasicOrganizer.bw_fs
                 (@BasicOrganizer.organize_files sorted_lister BasicConfig.FILE_CATEGORIES
                    Fixtures.downloads false false
                    (BasicOrganizer.mkWorld Fixtures.scenario_ignored [])).1)
               !! PyPath.join (Fixtures.in_downloads "Miscellaneous") f ≠ None)
         ["desktop.ini"; "Thumbs.db"; ".DS_Store"]%string.
Proof.
  split_and!; [vm_decide| |vm_decide].
  apply (for_every_order (H := L) _ _ _ _ _ _ ignored_result);
    [vm_compute; reflexivity | vm_decide].
Qed.

(** The same, for the basic organizer. *)
Lemma basic_for_every_order `{DirLister} tbl d dry verbose σ out
    (P : BasicOrganizer.world * (py_exc + unit) → Prop) :
  is_dir σ d = true →
  Forall (λ l, P (BasicOrganizer.run_files tbl d dry verbose
                   (filter (λ f, is_file σ f = true) (map (PyPath.join d) l))
                   (BasicOrganizer.mkWorld σ out)))
         (permutations (sorted_list_dir σ d)) →
  P (BasicOrganizer.organize_files tbl d dry verbose (BasicOrganizer.mkWorld σ out)).
Proof.
  intros Hd Hall. rewrite BasicProps.basic_organize_files_dir by done.
  unfold BasicProps.listed_files. simpl.
  rewrite Forall_forall in Hall. apply Hall, list_dir_perm.
Qed.

Definition basic_exception (r : BasicOrganizer.world * (py_exc + unit)) : option py_exc :=
  match r.2 with inl e => Some e | inr _ => None end.

(** C19: the specification's first scenario on the basic organizer: it
    has no guard for a category folder that is a plain file.  When
    [photo.jpg] comes before the plain file [Images] in the listing,
    [mkdir] raises [FileExistsError] and the run aborts; when [Images]
    comes first, it is moved into [Miscellaneous/] and the run then
    completes.  Both orders occur. *)
Theorem basic_spec_scenario_images_file :
  (∀ L : DirLister,
     basic_exception (@BasicOrganizer.organize_files L BasicConfig.FILE_CATEGORIES
                        Fixtures.downloads false false
                        (BasicOrganizer.mkWorld Fixtures.scenario_images_file []))
       ∈ [None; Some FileExistsError]) ∧
  basic_exception (@BasicOrganizer.organize_files sorted_lister BasicConfig.FILE_CATEGORIES
                     Fixtures.downloads false false
                     (BasicOrganizer.mkWorld Fixtures.scenario_images_file [])) = None ∧
  basic_exception (@BasicOrganizer.organize_files reversed_lister BasicConfig.FILE_CATEGORIES
                     Fixtures.downloads false false
                     (BasicOrganizer.mkWorld Fixtures.scenario_images_file []))
    = Some FileExistsError.
Proof.
  split_and!; [|vm_compute; reflexivity..].
  intros L. apply (basic_for_every_order (H := L) _ _ _ _ _ _ (λ r, basic_exception r ∈ _));
    [vm_compute; reflexivity | vm_decide].
Qed.

End Scenarios.
