(* ===== verification/RunInvariants.v ===== *)
(** * Whole-run invariants of the AI-native [organize_files]

    - [process_body_spec]: the [try] body (lines 115-152) on every
      branch, as the relation [body_result] between the filesystem before
      and after and the outcome, normal or exceptional;
    - [process_file_spec]: one iteration, the body and the [except]
      clauses (lines 154-169), and [process_file_copy_left], the copy a
      [shutil.move] that fails after [copy2] leaves while the file is
      reported skipped;
    - [downloads_path] stays a directory through a run, whatever is
      raised;
    - relocation: a live run removes from the top level of
      [downloads_path] exactly the files it counts as moved and adds none,
      so a second run sees only the files the first one left; when the
      first run skipped nothing and failed on nothing, the second finds
      no file at all (the specification's idempotence);
    - bounds: [moved + skipped + errors] never exceeds the number of
      files, so the dry-run summary's [len(files) - skipped - errors]
      is the Python integer it prints, never a truncated difference.

    The proofs use the weakest precondition [wp] of the prelude. *)

From stdpp Require Import base gmap sets strings list.
From S2P Require Import Prelude PyPath FileSystem Config Category UniqueName Organizer Fixtures OrganizerProps.

Module RunInvariants.
Import FS FSFacts FSEffects Organizer OrganizerProps.

(** ** [wp] rules of the organizer's primitive actions *)

Section Rules.
Context {A : Type} (Q : A → world → Prop) (Qe : py_exc → world → Prop).

Lemma wp_read {B} (f : fs → B) (k : B → M A) w :
  wp (k (f (w_fs w))) Q Qe w → wp (py_bind (read_fs f) k) Q Qe w.
Proof. done. Qed.

Lemma wp_print e (k : unit → M A) w :
  wp (k tt) Q Qe (mkWorld (w_fs w) (w_out w ++ [e])) → wp (py_bind (print e) k) Q Qe w.
Proof. done. Qed.

Lemma wp_when (b : bool) (m : M unit) (k : unit → M A) w :
  (if b then wp (py_bind m k) Q Qe w else wp (k tt) Q Qe w) →
  wp (py_bind (when b m) k) Q Qe w.
Proof. by destruct b. Qed.

Lemma wp_fs_call f (k : unit → M A) w :
  match f (w_fs w) with
  | inl e => Qe e w
  | inr σ' => wp (k tt) Q Qe (mkWorld σ' (w_out w))
  end → wp (py_bind (fs_call f) k) Q Qe w.
Proof. unfold wp, py_bind, fs_call, py_lift. by destruct (f (w_fs w)). Qed.

Lemma wp_fs_do f (k : unit → M A) w :
  match f (w_fs w) with
  | (σ', Some e) => Qe e (mkWorld σ' (w_out w))
  | (σ', None) => wp (k tt) Q Qe (mkWorld σ' (w_out w))
  end → wp (py_bind (fs_do f) k) Q Qe w.
Proof. unfold wp. rewrite fs_do_bind. by destruct (f (w_fs w)) as [? []]. Qed.
End Rules.

(** A computation that returns normally and leaves the filesystem as it
    was. *)
Lemma wp_returns_same_fs {A} (m : M A) (P : A → Prop) w :
  returns P m → preserves eq m → wp m (λ a w', P a ∧ w_fs w' = w_fs w) no_exc w.
Proof.
  intros Hr Hp. specialize (Hp w). destruct (Hr w) as (w' & a & Heq & HP).
  unfold wp. rewrite Heq in *. simpl in Hp. auto.
Qed.

(** ** The [try] body on every branch *)

Section Body.
Context (tbl : category_table) (d : path) (dry : bool) (fp : path) (acc : loop_state).

(** [category_folder] (line 120) and [destination] (lines 141-142), for
    the filesystem [σ] the body reads. *)
Definition category_folder_of : path :=
  PyPath.join d (Category.get_file_category tbl (PyPath.suffix (PyPath.name fp))).

Definition destination_of (σ : fs) : path :=
  UniqueName.get_unique_filename σ (PyPath.join category_folder_of (PyPath.name fp)).

Definition conflict (σ : fs) : bool :=
  path_exists σ category_folder_of && negb (is_dir σ category_folder_of).

(** [body_result σ σ' r]: from [σ], the body ends in [σ'] with [r]. *)
Inductive body_result (σ : fs) : fs → py_exc + loop_state → Prop :=
  | br_conflict :
      conflict σ = true → body_result σ σ (inr (add_skipped acc (PyPath.name fp)))
  | br_organized :
      conflict σ = false → PyPath.name (PyPath.parent fp) ∈ table_keys tbl →
      body_result σ σ (inr (add_skipped acc (PyPath.name fp)))
  | br_dry :
      conflict σ = false → PyPath.name (PyPath.parent fp) ∉ table_keys tbl →
      dry = true → body_result σ σ (inr acc)
  | br_mkdir_error e :
      conflict σ = false → PyPath.name (PyPath.parent fp) ∉ table_keys tbl →
      dry = false → mkdir_exist_ok σ category_folder_of = inl e →
      body_result σ σ (inl e)
  | br_move_error σ1 σ2 e :
      conflict σ = false → PyPath.name (PyPath.parent fp) ∉ table_keys tbl →
      dry = false → mkdir_exist_ok σ category_folder_of = inr σ1 →
      shutil_move σ1 fp (destination_of σ) = (σ2, Some e) →
      body_result σ σ2 (inl e)
  | br_moved σ1 σ2 :
      conflict σ = false → PyPath.name (PyPath.parent fp) ∉ table_keys tbl →
      dry = false → mkdir_exist_ok σ category_folder_of = inr σ1 →
      shutil_move σ1 fp (destination_of σ) = (σ2, None) →
      body_result σ σ2 (inr (add_moved acc)).
End Body.

Lemma process_body_cases tbl d dry verbose n i fp acc w :
  wp (process_body tbl d dry verbose n i fp acc)
     (λ acc' w', body_result tbl d dry fp acc (w_fs w) (w_fs w') (inr acc'))
     (λ e w', body_result tbl d dry fp acc (w_fs w) (w_fs w') (inl e)) w.
Proof.
  unfold process_body. cbv zeta. apply wp_read. cbn [id].
  destruct (path_exists _ _ && negb _) eqn:Hc.
  { apply wp_when. destruct (_ || _); [apply wp_print|]; apply wp_ret; by econstructor. }
  case_bool_decide as Hk.
  { apply wp_when. destruct verbose; [apply wp_print|]; apply wp_ret; by econstructor. }
  apply wp_when. destruct (_ || _); [apply wp_print|]; cbn [w_fs];
    (destruct dry eqn:Hd; cbn [negb]; [apply wp_ret; by econstructor|]);
    apply wp_fs_call; cbn [w_fs];
    (destruct (mkdir_exist_ok _ _) as [e|σ1] eqn:Hm; [by econstructor|]);
    apply wp_fs_do; cbn [w_fs];
    (destruct (shutil_move σ1 _ _) as [σ2 [e|]] eqn:Hmv; [by econstructor|]);
    apply wp_ret; by econstructor.
Qed.

(** C10: the [try] body of the loop, on every branch: a category folder
    that is a plain file skips the file; so does a file whose parent
    folder is named like a category; a dry run changes nothing; a live
    run creates the category folder and moves the file to the collision-
    free destination computed before, and an exception of [mkdir] or
    [shutil.move] escapes with the filesystem as that call left it (for
    [shutil.move], possibly with the copy it wrote before failing). *)
Theorem process_body_spec tbl d dry verbose n i fp acc w :
  wp (process_body tbl d dry verbose n i fp acc)
     (λ acc' w', body_result tbl d dry fp acc (w_fs w) (w_fs w') (inr acc'))
     (λ e w', body_result tbl d dry fp acc (w_fs w) (w_fs w') (inl e)) w.
Proof. apply process_body_cases. Qed.

(** What the [except] clauses (lines 154-169) make of the counters: a
    [PermissionError] or [FileNotFoundError] skips the file, any other
    exception records it as an error. *)
Definition except_outcome (acc : loop_state) (nm : string) (e : py_exc) : loop_state :=
  match e with
  | PermissionError | FileNotFoundError => add_skipped acc nm
  | _ => add_error acc nm e
  end.

Lemma handle_spec n i fp acc e w :
  wp (handle n i fp acc e)
     (λ acc' w', w_fs w' = w_fs w ∧ acc' = except_outcome acc (PyPath.name fp) e) no_exc w.
Proof. by destruct e. Qed.

(** C6: one iteration of the loop ([try] body and [except] clauses)
    never raises; it ends as the body does on one of its branches, and
    its counters are the body's when the body returns, a skip when the
    body raised [PermissionError] or [FileNotFoundError], and an error
    record of the exception otherwise; the filesystem is the one the
    body left. *)
Theorem process_file_spec tbl d dry verbose n acc i fp w :
  wp (process_file tbl d dry verbose n acc (i, fp))
     (λ acc' w', ∃ r, body_result tbl d dry fp acc (w_fs w) (w_fs w') r ∧
                      acc' = match r with
                             | inr a => a
                             | inl e => except_outcome acc (PyPath.name fp) e
                             end)
     no_exc w.
Proof.
  unfold process_file. apply wp_try. eapply wp_mono; [..|apply process_body_cases].
  - intros acc' w' Hb. by exists (inr acc').
  - intros e w' Hb. eapply wp_mono; [..|apply handle_spec]; [|done].
    intros acc' w'' [-> ->]. by exists (inl e).
Qed.

(** ** Relations a run keeps *)

Lemma preserves_fs_call (R : relation fs) `{!PreOrder R} f :
  (∀ σ σ', f σ = inr σ' → R σ σ') → preserves R (fs_call f).
Proof.
  intros Hf w. unfold fs_call, py_lift.
  destruct (f (w_fs w)) eqn:E; simpl; [reflexivity|auto].
Qed.

Lemma preserves_fs_do (R : relation fs) f : (∀ σ, R σ (f σ).1) → preserves R (fs_do f).
Proof. intros Hf w. apply Hf. Qed.

(** A relation kept by [mkdir] and [shutil.move] is kept by a run. *)
Lemma organize_files_keeps `{DirLister} (R : relation fs) `{!PreOrder R} tbl d dry verbose w :
  (∀ σ c σ', mkdir_exist_ok σ c = inr σ' → R σ σ') →
  (∀ σ src dst, R σ (shutil_move σ src dst).1) →
  R (w_fs w) (w_fs (organize_files tbl d dry verbose w).1).
Proof.
  intros Hm Hs. revert w. apply organize_files_preserves; [done|].
  intros. unfold process_body. solve_preserves;
    first [apply preserves_fs_call; by eauto | apply preserves_fs_do; by eauto].
Qed.

Definition keeps_dir (d : path) : relation fs := λ σ σ', is_dir σ d = true → is_dir σ' d = true.

#[export] Instance keeps_dir_preorder d : PreOrder (keeps_dir d).
Proof. split; [intros ? ?; done | intros ??? H1 H2 ?; auto]. Qed.

Lemma organize_files_keeps_dir `{DirLister} tbl d dry verbose w :
  is_dir (w_fs w) d = true → is_dir (w_fs (organize_files tbl d dry verbose w).1) d = true.
Proof.
  apply (organize_files_keeps (keeps_dir d)); unfold keeps_dir;
    eauto using mkdir_exist_ok_dir_preserved, shutil_move_dir_preserved.
Qed.

(** ** Relocation: what a live run leaves at the top level *)

(** The entries [organize_files] would select: regular files directly in
    [d] whose name does not start with a dot. *)
Definition top_file (d : path) (σ : fs) (p : path) : Prop :=
  PyPath.parent p = d ∧ PyPath.startswith_dot (PyPath.name p) = false ∧ is_file σ p = true.

#[export] Instance top_file_dec d σ p : Decision (top_file d σ p).
Proof. unfold top_file. apply _. Defined.

Definition top_set (d : path) (σ : fs) : gset path := filter (top_file d σ) (dom (fs_nodes σ)).

Lemma is_file_nonroot σ p : is_file σ p = true → p ≠ [] ∧ is_Some (fs_nodes σ !! p).
Proof.
  unfold is_file. destruct p as [|x p]; [done|]. simpl.
  destruct (fs_nodes σ !! _) as [[]|]; naive_solver.
Qed.

Lemma elem_of_top_set d σ p : p ∈ top_set d σ ↔ top_file d σ p.
Proof.
  unfold top_set. rewrite elem_of_filter, elem_of_dom.
  split; [by intros [? _]|]. intros Ht. split; [done|]. apply is_file_nonroot, Ht.
Qed.

Lemma elem_of_files_of `{DirLister} σ d p : p ∈ files_of σ d ↔ p ∈ top_set d σ.
Proof.
  rewrite elem_of_top_set. unfold files_of, select_files, top_file.
  rewrite !list_elem_of_filter, list_elem_of_In, in_map_iff. split.
  - intros (Hdot & Hf & n & <- & _). by rewrite PyPath.parent_join.
  - intros (Hpar & Hdot & Hf). split_and!; [done|done|].
    destruct (is_file_nonroot _ _ Hf) as [Hp Hin].
    subst d. exists (PyPath.name p). rewrite PyPath.join_parent_name by done.
    split; [done|]. apply list_elem_of_In, elem_of_list_dir.
    by rewrite PyPath.join_parent_name.
Qed.

Lemma files_of_NoDup `{DirLister} σ d : NoDup (files_of σ d).
Proof.
  unfold files_of, select_files. apply NoDup_filter, NoDup_filter.
  change (NoDup (PyPath.join d <$> list_dir σ d)). apply NoDup_fmap_2; [exact (PyPath.join_inj d)|apply list_dir_NoDup].
Qed.

Lemma length_files_of `{DirLister} σ d : length (files_of σ d) = size (top_set d σ).
Proof.
  rewrite <-(size_list_to_set (C:=gset path)) by apply files_of_NoDup. f_equal.
  apply set_eq. intros p. by rewrite elem_of_list_to_set, elem_of_files_of.
Qed.

Lemma mkdir_exist_ok_top_set d σ c σ' :
  mkdir_exist_ok σ c = inr σ' → top_set d σ' = top_set d σ.
Proof.
  intros Hm. apply set_eq. intros p. rewrite !elem_of_top_set. unfold top_file.
  by rewrite (mkdir_exist_ok_is_file _ _ _ _ Hm).
Qed.

(** Writing a file outside [d] leaves the top level; moving a file
    out of [d] removes it from the top level. *)
Lemma fs_place_top_set d σ p n :
  p ≠ [] → PyPath.parent p ≠ d → top_set d (fs_place σ p n) = top_set d σ.
Proof.
  intros Hp Hpd. apply set_eq. intros q. rewrite !elem_of_top_set. unfold top_file.
  rewrite is_file_fs_place by done. case_decide; subst; intuition congruence.
Qed.

Lemma fs_move_top_set d σ src dst i :
  dst ≠ [] → PyPath.parent dst ≠ d →
  top_set d (fs_move σ src dst i) = top_set d σ ∖ {[src]}.
Proof.
  intros Hd Hpd. apply set_eq. intros p.
  rewrite elem_of_difference, elem_of_singleton, !elem_of_top_set. unfold top_file.
  rewrite is_file_fs_move by done. repeat case_decide; subst; intuition congruence.
Qed.

(** [shutil.move] of a file to a free path outside [d]: when it returns,
    the file has left the top level; when it raises, the top level is as
    it was (a copy it may leave lies outside [d]). *)
Lemma shutil_move_top_set d σ src dst :
  lookup_node σ dst = None → PyPath.parent dst ≠ d →
  match shutil_move σ src dst with
  | (σ', None) => top_set d σ' = top_set d σ ∖ {[src]} ∧ is_file σ src = true
  | (σ', Some _) => top_set d σ' = top_set d σ
  end.
Proof.
  intros Hfree Hpd. pose proof (lookup_node_None_nonroot _ _ Hfree).
  destruct (shutil_move_free σ src dst Hfree)
    as [[e ->]|[(i & Hs & ->)|(i & j & e & Hs & _ & ->)]]; [done| |].
  - rewrite fs_move_top_set by done. unfold is_file. by rewrite Hs.
  - by apply fs_place_top_set.
Qed.

(** The destination of a live move is free after [mkdir] and lies in the
    category folder. *)
Lemma destination_free tbl d fp σ σ1 :
  mkdir_exist_ok σ (category_folder_of tbl d fp) = inr σ1 →
  lookup_node σ1 (destination_of tbl d fp σ) = None ∧
  PyPath.parent (destination_of tbl d fp σ) = category_folder_of tbl d fp.
Proof.
  intros Hm. unfold destination_of.
  assert (PyPath.parent (UniqueName.get_unique_filename σ
            (PyPath.join (category_folder_of tbl d fp) (PyPath.name fp)))
          = category_folder_of tbl d fp) as Hpar.
  { by rewrite UniqueName.get_unique_filename_parent, PyPath.parent_join. }
  split; [|done]. eapply mkdir_exist_ok_child_free; [exact Hm| |done].
  apply path_exists_false, UniqueName.get_unique_filename_fresh.
Qed.

(** C31: in a live run, a file of a [downloads_path] the user may not
    write, whose category folder exists and may be written, is counted
    as skipped ("Permission denied") while [shutil.move] has left a copy
    of it at its destination in the category folder: the file is on
    disk twice and the summary says it was not organized. *)
Theorem process_file_copy_left tbl d verbose n acc i fp w j :
  conflict tbl d fp (w_fs w) = false → PyPath.name (PyPath.parent fp) ∉ table_keys tbl →
  lookup_node (w_fs w) (category_folder_of tbl d fp) = Some NDir →
  category_folder_of tbl d fp ∉ fs_denied (w_fs w) →
  lookup_node (w_fs w) fp = Some (NFile j) → PyPath.parent fp ∈ fs_denied (w_fs w) →
  fp ∉ fs_denied (w_fs w) → fp ∉ fs_faulty (w_fs w) →
  ∃ w', process_file tbl d false verbose n acc (i, fp) w =
          (w', inr (add_skipped acc (PyPath.name fp))) ∧
        lookup_node (w_fs w') fp = Some (NFile j) ∧
        lookup_node (w_fs w') (destination_of tbl d fp (w_fs w)) = Some (NFile j).
Proof.
  intros Hc Hk Hdir Hdn Hs Hpd Hsd Hsf.
  assert (mkdir_exist_ok (w_fs w) (category_folder_of tbl d fp) = inr (w_fs w)) as Hm
    by (unfold mkdir_exist_ok; by rewrite Hdir).
  destruct (destination_free _ _ _ _ _ Hm) as [Hfree Hpar].
  pose proof (shutil_move_copy_left (w_fs w) fp _ j Hfree Hs Hpd Hsd Hsf) as Hmv.
  rewrite Hpar in Hmv. specialize (Hmv Hdir Hdn).
  destruct (wp_no_exc _ _ _ (process_file_spec tbl d false verbose n acc i fp w))
    as (w' & acc' & Hrun & r & Hb & Hacc).
  exists w'. rewrite Hrun. destruct Hb as [| | | |σ1 σ2 e _ _ _ Hm' Hmv'|σ1 σ2 _ _ _ Hm' Hmv'];
    try congruence; rewrite Hm in Hm'; injection Hm' as <-; rewrite Hmv in Hmv';
    first [injection Hmv' as <- <- | discriminate]. subst acc'. split; [done|].
  pose proof (lookup_node_None_nonroot _ _ Hfree). unfold fs_place.
  rewrite !lookup_node_set_nodes. destruct fp as [|x fp]; [done|].
  rewrite lookup_insert_ne by congruence. rewrite <-lookup_node_nonroot, Hs by done.
  split; [done|]. destruct (destination_of _ _ _ _); [done|]. by rewrite lookup_insert_eq.
Qed.

Lemma process_file_copy_left_witness :
  ∃ w', process_file AINativeConfig.FILE_CATEGORIES Fixtures.downloads false false 1 init_loop
          (1, Fixtures.in_downloads "report.pdf") (mkWorld Fixtures.scenario_readonly []) =
          (w', inr (add_skipped init_loop "report.pdf")) ∧
        lookup_node (w_fs w') (Fixtures.in_downloads "report.pdf") = Some (NFile 1) ∧
        lookup_node (w_fs w') (destination_of AINativeConfig.FILE_CATEGORIES Fixtures.downloads
                                 (Fixtures.in_downloads "report.pdf") Fixtures.scenario_readonly)
          = Some (NFile 1).
Proof.
  apply (process_file_copy_left AINativeConfig.FILE_CATEGORIES Fixtures.downloads false 1
           init_loop 1 (Fixtures.in_downloads "report.pdf")
           (mkWorld Fixtures.scenario_readonly []) 1); vm_decide.
Defined.

(** One live body: the top level only shrinks, by one exactly when the
    file is counted as moved. *)
Lemma body_result_top tbl d fp acc σ σ' r :
  PyPath.parent fp = d → PyPath.startswith_dot (PyPath.name fp) = false →
  body_result tbl d false fp acc σ σ' r →
  top_set d σ' ⊆ top_set d σ ∧
  size (top_set d σ') + moved (ls_stats (match r with inr acc' => acc' | inl _ => acc end))
    = size (top_set d σ) + moved (ls_stats acc).
Proof.
  intros Hpar Hdot Hb. destruct Hb as [| | | |σ1 σ2 e _ _ _ Hm Hmv|σ1 σ2 _ _ _ Hm Hmv];
    try done; destruct (destination_free _ _ _ _ _ Hm) as [Hfree Hdp];
    pose proof (shutil_move_top_set d σ1 fp _ Hfree) as Htop; rewrite Hmv in Htop;
    rewrite <-(mkdir_exist_ok_top_set d _ _ _ Hm);
    assert (PyPath.parent (destination_of tbl d fp σ) ≠ d) as Hd'
      by (rewrite Hdp; unfold category_folder_of; apply PyPath.join_not_prefix).
  { by rewrite (Htop Hd'). }
  destruct (Htop Hd') as [-> Hf].
  assert (fp ∈ top_set d σ1) as Hin by (rewrite elem_of_top_set; by split_and!).
  split; [by apply subseteq_difference_l|].
  pose proof (size_difference_singleton (top_set d σ1) fp Hin). simpl. lia.
Qed.

(** The [except] clauses leave the filesystem and the [moved] counter. *)
Lemma handle_same n i fp acc e w :
  wp (handle n i fp acc e)
     (λ acc' w', w_fs w' = w_fs w ∧ moved (ls_stats acc') = moved (ls_stats acc)) no_exc w.
Proof. by destruct e. Qed.

(** The relocation invariant of the loop, against the top level [T0] the
    loop started from. *)
Definition reloc_inv (d : path) (T0 : gset path) (acc : loop_state) (w : world) : Prop :=
  top_set d (w_fs w) ⊆ T0 ∧ size (top_set d (w_fs w)) + moved (ls_stats acc) = size T0.

Lemma process_file_reloc tbl d verbose n T0 acc i fp w :
  PyPath.parent fp = d → PyPath.startswith_dot (PyPath.name fp) = false →
  reloc_inv d T0 acc w →
  wp (process_file tbl d false verbose n acc (i, fp)) (reloc_inv d T0) no_exc w.
Proof.
  intros Hpar Hdot [Hsub Hsize]. unfold process_file. apply wp_try.
  eapply wp_mono; [..|apply process_body_cases].
  - intros acc' w' (Hs' & Hsz')%body_result_top; [|done..].
    split; [by etrans|]. simpl in Hsz'. lia.
  - intros e w' (Hs' & Hsz')%body_result_top; [|done..]. simpl in Hsz'.
    eapply wp_mono; [..|apply handle_same]; [|done].
    intros acc' w'' [Hw Hm]. unfold reloc_inv. rewrite Hw, Hm. split; [by etrans|lia].
Qed.

(** The regular, non-hidden files of [downloads_path] and nothing else. *)
Definition top_paths (d : path) (files : list path) : Prop :=
  ∀ fp, fp ∈ files → PyPath.parent fp = d ∧ PyPath.startswith_dot (PyPath.name fp) = false.

Lemma run_files_reloc tbl d verbose files w :
  top_paths d files →
  wp (run_files tbl d false verbose files)
     (λ s w', top_set d (w_fs w') ⊆ top_set d (w_fs w) ∧
              size (top_set d (w_fs w')) + moved s = size (top_set d (w_fs w))) no_exc w.
Proof.
  intros Hfiles. unfold run_files. case_bool_decide.
  { apply wp_print, wp_ret. simpl. split; [done|lia]. }
  apply wp_print, wp_when, wp_print. cbn [w_fs].
  apply wp_bind. eapply wp_mono; [..|apply (wp_foldM _ (reloc_inv d (top_set d (w_fs w))))];
    [|done| |].
  - intros acc w' [Hsub Hsz]. apply wp_bind.
    eapply wp_mono; [..|apply wp_returns_same_fs;
                          [apply print_summary_returns | apply print_summary_preserves; apply _]];
      [|done]. intros _ w'' [_ Heq]. apply wp_ret. rewrite Heq. done.
  - split; [done|]. simpl. lia.
  - intros acc [i fp] w' Hin Hinv. apply elem_of_zip_r, Hfiles in Hin as [Hpar Hdot].
    by apply process_file_reloc.
Qed.

Lemma files_of_top_paths `{DirLister} σ d : top_paths d (files_of σ d).
Proof. intros fp Hfp. apply elem_of_files_of, elem_of_top_set in Hfp as (? & ? & _). done. Qed.

(** A live run on a directory returns normally; the regular, non-hidden
    files directly in [downloads_path] afterwards are among those before,
    and exactly [moved] of them are gone. *)
Lemma organize_files_relocation `{DirLister} tbl d verbose σ out :
  is_dir σ d = true →
  ∃ w' s, organize_files tbl d false verbose (mkWorld σ out) = (w', inr s) ∧
          files_of (w_fs w') d ⊆ files_of σ d ∧
          length (files_of (w_fs w') d) + moved s = length (files_of σ d).
Proof.
  intros Hd. rewrite organize_files_dir by done.
  destruct (wp_no_exc _ _ _ (run_files_reloc tbl d verbose (files_of σ d) (mkWorld σ out)
                              (files_of_top_paths σ d))) as (w' & s & Hrun & Hsub & Hsz).
  exists w', s. split; [done|]. rewrite !length_files_of. split; [|done].
  intros p. rewrite !elem_of_files_of. apply Hsub.
Qed.

(** C9: a live run on a directory returns normally; afterwards the
    regular, non-hidden files directly in [downloads_path] are among those
    it started with, and exactly [moved] of them are gone: a run never
    adds a file to the top level, and every move takes one away. *)
Theorem organize_files_relocates `{DirLister} tbl d verbose σ out :
  is_dir σ d = true →
  ∃ w' s, organize_files tbl d false verbose (mkWorld σ out) = (w', inr s) ∧
          files_of (w_fs w') d ⊆ files_of σ d ∧
          length (files_of (w_fs w') d) + moved s = length (files_of σ d).
Proof. apply organize_files_relocation. Qed.

(** C8: the idempotence the specification asks for: after a live run
    that skipped nothing and failed on nothing, a second live run finds
    no file to organize; it prints "No files to organize", returns zero
    counters and changes nothing. *)
Theorem organize_files_idempotent `{DirLister} tbl d verbose verbose' σ out w' s :
  is_dir σ d = true →
  organize_files tbl d false verbose (mkWorld σ out) = (w', inr s) →
  skipped s = 0 → errors s = 0 →
  organize_files tbl d false verbose' w' =
    (mkWorld (w_fs w') (w_out w' ++ [ENoFiles]), inr zero_stats).
Proof.
  intros Hd Hrun Hs He.
  assert (is_dir (w_fs w') d = true) as Hd'.
  { pose proof (organize_files_keeps_dir tbl d false verbose (mkWorld σ out) Hd) as Hk.
    by rewrite Hrun in Hk. }
  destruct (organize_files_relocation tbl d verbose σ out Hd) as (w1 & s1 & Hrun1 & _ & Hlen).
  rewrite Hrun in Hrun1. injection Hrun1 as <- <-.
  rewrite organize_files_dir in Hrun by done.
  destruct (run_files_live_count tbl d verbose (files_of σ d) (mkWorld σ out))
    as (w2 & s2 & Hrun2 & Hcnt).
  cbn [w_fs] in Hrun. rewrite Hrun in Hrun2. injection Hrun2 as <- <-.
  unfold total_count in Hcnt.
  assert (files_of (w_fs w') d = []) as Hnil by (apply nil_length_inv; lia).
  rewrite organize_files_dir, Hnil by done. unfold run_files.
  by rewrite bool_decide_true.
Qed.

Lemma organize_files_idempotent_witness :
  let r := organize_files AINativeConfig.FILE_CATEGORIES Fixtures.downloads false false
             (mkWorld Fixtures.scenario_collision []) in
  organize_files AINativeConfig.FILE_CATEGORIES Fixtures.downloads false true r.1 =
    (mkWorld (w_fs r.1) (w_out r.1 ++ [ENoFiles]), inr zero_stats).
Proof.
  intros r. apply (organize_files_idempotent AINativeConfig.FILE_CATEGORIES Fixtures.downloads
                     false true Fixtures.scenario_collision [] r.1
                     (mkStats 1 0 0)); [vm_compute; reflexivity.. | reflexivity | reflexivity].
Defined.

(** Over a run, each file adds at most one to the counters. *)
Lemma outcomes_count_le dry acc names acc' :
  outcomes dry acc names acc' →
  total_count (ls_stats acc') ≤ total_count (ls_stats acc) + length names.
Proof.
  induction 1 as [|acc acc' acc'' nm names Ho _ IH]; simpl; [lia|].
  inversion Ho; subst; unfold total_count in *; simpl in *; lia.
Qed.

(** C13: a run on a directory, live or dry, returns counters whose sum is
    at most the number of files it found; so the dry-run summary's
    [len(files) - stats['skipped'] - stats['errors']] (line 179), a
    truncated subtraction on [nat] in the model, is the Python integer
    difference, never negative. *)
Theorem organize_files_counts_bounded `{DirLister} tbl d dry verbose σ out :
  is_dir σ d = true →
  ∃ w' s, organize_files tbl d dry verbose (mkWorld σ out) = (w', inr s) ∧
          moved s + skipped s + errors s ≤ length (files_of σ d) ∧
          Z.of_nat (length (files_of σ d) - skipped s - errors s) =
            (Z.of_nat (length (files_of σ d)) - Z.of_nat (skipped s) - Z.of_nat (errors s))%Z.
Proof.
  intros Hd. rewrite organize_files_dir by done.
  destruct (run_files_outcomes tbl d dry verbose (files_of σ d) (mkWorld σ out))
    as (w' & s & Hrun & acc & Ho%outcomes_count_le & <-).
  exists w', (ls_stats acc). split; [done|].
  rewrite length_fmap in Ho. unfold total_count in Ho. simpl in Ho. lia.
Qed.

Lemma organize_files_counts_bounded_witness :
  ∃ w' s, organize_files AINativeConfig.FILE_CATEGORIES Fixtures.downloads true false
            (mkWorld Fixtures.scenario_images_file []) = (w', inr s) ∧
          moved s + skipped s + errors s ≤
            length (files_of Fixtures.scenario_images_file Fixtures.downloads) ∧
          Z.of_nat (length (files_of Fixtures.scenario_images_file Fixtures.downloads)
                    - skipped s - errors s) =
            (Z.of_nat (length (files_of Fixtures.scenario_images_file Fixtures.downloads))
             - Z.of_nat (skipped s) - Z.of_nat (errors s))%Z.
Proof. apply organize_files_counts_bounded. vm_compute. reflexivity. Defined.

Lemma organize_files_relocates_witness :
  ∃ w' s, organize_files AINativeConfig.FILE_CATEGORIES Fixtures.downloads false false
            (mkWorld Fixtures.scenario_images_file []) = (w', inr s) ∧
          files_of (w_fs w') Fixtures.downloads ⊆
            files_of Fixtures.scenario_images_file Fixtures.downloads ∧
          length (files_of (w_fs w') Fixtures.downloads) + moved s =
            length (files_of Fixtures.scenario_images_file Fixtures.downloads).
Proof. apply organize_files_relocates. vm_compute. reflexivity. Defined.

End RunInvariants.
