(* ===== verification/Reporting.v ===== *)
(** * What the AI-native organizer reports on the console

    - liveness of the per-file reports: a verbose run on a directory
      returns, and prints for every file it selected, in the order of
      [enumerate(files, 1)], a non-empty block of lines that name that
      file and its index (one line, or two when [mkdir] or [shutil.move]
      raised and an [except] clause reported it);
    - the summary's bounds: [print_summary] prints at most nine lines
      however many files failed, and accounts for every error: the
      listed [error_files[:3]] plus the [... and N more] line add up to
      [stats["errors"]]. *)

From stdpp Require Import base gmap sets strings list.
From S2P Require Import Prelude PyPath FileSystem Config Category UniqueName Organizer Fixtures OrganizerProps RunInvariants.

Module Reporting.
Import FS Organizer OrganizerProps RunInvariants.

(** The file a per-file line is about: its index and its name. *)
Definition file_report (e : event) : option (nat * string) :=
  match e with
  | ESkippedConflict i _ nm _ | ESkippedOrganized i _ nm | EMoving _ i _ nm _
  | ESkippedPermission i _ nm | ESkippedVanished i _ nm | EError i _ nm _ => Some (i, nm)
  | _ => None
  end.

(** A block of lines about file [i] named [nm] (non-empty when [nonempty]). *)
Definition block_about (nonempty : bool) (i : nat) (nm : string) (new : list event) : Prop :=
  (nonempty → omap file_report new ≠ []) ∧ Forall (λ r, r = (i, nm)) (omap file_report new).

(** The lines appended to the console by a computation from [w]. *)
Definition appended (P : list event → Prop) (w w' : world) : Prop :=
  ∃ new, w_out w' = w_out w ++ new ∧ P new.

Lemma appended_nil P w : P [] → appended P w w.
Proof. intros. exists []. by rewrite app_nil_r. Qed.

(** One line about file [i] named [nm]. *)
Lemma report_one ne i nm e σ w :
  file_report e = Some (i, nm) → appended (block_about ne i nm) w (mkWorld σ (w_out w ++ [e])).
Proof. intros He. exists [e]. split; [done|]. split; cbn; rewrite He; [done|by repeat constructor]. Qed.

Lemma block_about_app ne i nm new1 new2 :
  block_about false i nm new1 → block_about ne i nm new2 → block_about ne i nm (new1 ++ new2).
Proof.
  intros [_ H1] [Hn H2]. unfold block_about. rewrite omap_app. split; [|by apply Forall_app].
  intros Hne Hnil. apply app_nil in Hnil as [_ ?]. by apply Hn.
Qed.

(** ** One file *)

Lemma process_body_reports tbl d dry n i fp acc w :
  wp (process_body tbl d dry true n i fp acc)
     (λ _, appended (block_about true i (PyPath.name fp)) w)
     (λ _, appended (block_about false i (PyPath.name fp)) w) w.
Proof.
  unfold process_body. cbv zeta. apply wp_read. cbn [id orb].
  destruct (_ && _).
  { apply wp_when; cbn iota. by apply wp_print, wp_ret, report_one. }
  case_bool_decide.
  { apply wp_when; cbn iota. by apply wp_print, wp_ret, report_one. }
  apply wp_when; cbn iota; apply wp_print. cbn [w_fs w_out].
  destruct (negb dry); [|by apply wp_ret, report_one].
  apply wp_fs_call. cbn [w_fs w_out].
  destruct (mkdir_exist_ok _ _); [by apply report_one|].
  apply wp_fs_do. cbn [w_fs w_out].
  destruct (shutil_move _ _ _) as [? []]; [by apply report_one|].
  by apply wp_ret, report_one.
Qed.

Lemma handle_reports n i fp acc e w :
  wp (handle n i fp acc e) (λ _, appended (block_about true i (PyPath.name fp)) w) no_exc w.
Proof.
  unfold handle. cbv zeta.
  destruct e; by apply wp_print, wp_ret, report_one.
Qed.

Lemma process_file_reports tbl d dry n acc i fp w :
  wp (process_file tbl d dry true n acc (i, fp))
     (λ _, appended (block_about true i (PyPath.name fp)) w) no_exc w.
Proof.
  unfold process_file. apply wp_try.
  eapply wp_mono; cycle 2; [apply process_body_reports|by intros|].
  intros e w1 (new1 & Hout1 & Hb1).
  eapply wp_mono; cycle 2; [apply handle_reports| |by intros].
  intros _ w2 (new2 & Hout2 & Hb2). exists (new1 ++ new2).
  split; [by rewrite Hout2, Hout1, app_assoc|]. by apply block_about_app.
Qed.

(** ** The loop and the run *)

Definition blocks_for (blocks : list (list event)) (ifps : list (nat * path)) : Prop :=
  Forall2 (λ blk ifp, block_about true ifp.1 (PyPath.name ifp.2) blk) blocks ifps.

Lemma loop_reports tbl d dry n acc ifps w :
  wp (py_foldM (process_file tbl d dry true n) acc ifps)
     (λ _, appended (λ new, ∃ blocks, new = concat blocks ∧ blocks_for blocks ifps) w)
     no_exc w.
Proof.
  revert acc w. induction ifps as [|[i fp] ifps IH]; intros acc w; cbn [py_foldM].
  { apply wp_ret, appended_nil. exists []. split; [done|constructor]. }
  apply wp_bind. eapply wp_mono; cycle 2; [apply process_file_reports| |by intros].
  intros acc1 w1 (blk & Hout1 & Hb).
  eapply wp_mono; cycle 2; [apply IH| |by intros]. intros _ w2 (new & Hout2 & blocks & -> & Hbs).
  exists (blk ++ concat blocks). split; [by rewrite Hout2, Hout1, app_assoc|].
  exists (blk :: blocks). split; [done|by constructor].
Qed.

(** ** The summary *)

(** The lines [print_summary] appends (lines 171-198). *)
Definition summary_lines (dry_run verbose : bool) (files : list path) (ls : loop_state)
    : list event :=
  let s := ls_stats ls in
  [ESummaryHeader;
   if negb dry_run then EMovedCount (moved s)
   else EWouldMoveCount (length files - skipped s - errors s)] ++
  (if 0 <? skipped s then
     ESkippedCount (skipped s) ::
     (if verbose && negb (bool_decide (ls_skipped_files ls = [])) then
        [ESkippedList (take 5 (ls_skipped_files ls)) (5 <? length (ls_skipped_files ls))]
      else [])
   else []) ++
  (if 0 <? errors s then
     EErrorsCount (errors s) ::
     (if negb (bool_decide (ls_error_files ls = [])) then
        ((λ fe : string * py_exc, EErrorItem fe.1 fe.2) <$> take 3 (ls_error_files ls)) ++
        (if 3 <? length (ls_error_files ls)
         then [EMoreErrors (length (ls_error_files ls) - 3)] else [])
      else [])
   else []) ++
  (if negb dry_run && (0 <? moved s) then [ESuccess (moved s)]
   else if dry_run then [EDryRunHint] else []).

Lemma print_errors_run (l : list (string * py_exc)) w :
  py_foldM (λ _ fe, print (EErrorItem fe.1 fe.2)) tt l w =
  (mkWorld (w_fs w) (w_out w ++ ((λ fe : string * py_exc, EErrorItem fe.1 fe.2) <$> l)), inr tt).
Proof.
  revert w. induction l as [|fe l IH]; intros [σ out]; cbn.
  - by rewrite app_nil_r.
  - rewrite IH. cbn. by rewrite <-app_assoc.
Qed.

Lemma print_errors_bind {B} (l : list (string * py_exc)) (k : unit → M B) w :
  py_bind (py_foldM (λ _ fe, print (EErrorItem fe.1 fe.2)) tt l) k w =
  k tt (mkWorld (w_fs w) (w_out w ++ ((λ fe : string * py_exc, EErrorItem fe.1 fe.2) <$> l))).
Proof. unfold py_bind at 1. by rewrite print_errors_run. Qed.

Lemma print_summary_run dry verbose files ls w :
  print_summary dry verbose files ls w =
  (mkWorld (w_fs w) (w_out w ++ summary_lines dry verbose files ls), inr tt).
Proof.
  destruct w as [σ out]. unfold print_summary, summary_lines. cbv zeta.
  destruct (negb dry), (0 <? skipped _), (_ && _), (0 <? errors _), (negb (bool_decide _)),
    (3 <? _), dry, (moved (ls_stats ls)); cbn;
    unfold py_bind; cbn; rewrite ?print_errors_run; unfold print, py_modify, py_ret, when; cbn;
    rewrite <-?app_assoc, ?app_nil_r; done.
Qed.

Lemma print_summary_no_exc dry verbose files ls w :
  wp (print_summary dry verbose files ls)
     (λ _ w', w_out w' = w_out w ++ summary_lines dry verbose files ls) no_exc w.
Proof. unfold wp. by rewrite print_summary_run. Qed.

Lemma summary_lines_no_reports dry verbose files ls :
  omap file_report (summary_lines dry verbose files ls) = [].
Proof.
  assert (∀ l : list (string * py_exc),
            omap file_report ((λ fe : string * py_exc, EErrorItem fe.1 fe.2) <$> l) = [])
    as Hitems by (induction l; cbn; done).
  unfold summary_lines. cbv zeta. rewrite !omap_app.
  repeat case_step; cbn; rewrite ?omap_app, ?Hitems; repeat case_step; done.
Qed.

(** ** Liveness of the per-file reports *)

(** [reps] are the per-file reports of the files [ifps], one non-empty
    group per file, in order. *)
Definition reports_for (reps : list (list (nat * string))) (ifps : list (nat * path)) : Prop :=
  Forall2 (λ rep ifp, rep ≠ [] ∧ Forall (λ r, r = (ifp.1, PyPath.name ifp.2)) rep) reps ifps.

Definition reports_of (blk : list event) : list (nat * string) := omap file_report blk.

Lemma blocks_reports blocks ifps :
  blocks_for blocks ifps →
  omap file_report (concat blocks) = concat (reports_of <$> blocks) ∧
  reports_for (reports_of <$> blocks) ifps.
Proof.
  induction 1 as [|blk ifp blocks ifps [Hne Hf] _ [Hc Hr]]; [split; [done|constructor]|].
  rewrite fmap_cons. cbn [concat]. rewrite omap_app, Hc.
  split; [done|]. constructor; [|done]. by split; [apply Hne|].
Qed.

Lemma run_files_reports tbl d dry files w :
  wp (run_files tbl d dry true files)
     (λ _, appended (λ new, ∃ reps, omap file_report new = concat reps ∧
                                     reports_for reps (enumerate1 files)) w)
     no_exc w.
Proof.
  unfold run_files. case_bool_decide as Hnil.
  { subst. apply wp_print, wp_ret. exists [ENoFiles]. split; [done|]. exists []. split; [done|constructor]. }
  apply wp_print, wp_when. destruct dry; [apply wp_print|]; apply wp_print, wp_bind;
    (eapply wp_mono; cycle 2; [apply loop_reports| |by intros]);
    intros acc w1 (new1 & Hout1 & blocks & -> & Hbs); apply wp_bind;
    (eapply wp_mono; cycle 2; [apply print_summary_no_exc| |by intros]);
    intros u w2 Hout2; apply wp_ret; destruct (blocks_reports _ _ Hbs) as [Hc Hr].
  all: eexists; cbn -[summary_lines] in Hout1 |- *;
    split; [rewrite Hout2, Hout1; cbn -[summary_lines]; rewrite <-!app_assoc; reflexivity|];
    exists (reports_of <$> blocks); split; [|done];
    rewrite !omap_app, Hc, summary_lines_no_reports; cbn -[summary_lines]; by rewrite app_nil_r.
Qed.
Lemma organize_files_reports `{DirLister} tbl d dry σ :
  is_dir σ d = true →
  ∃ w' s reps, organize_files tbl d dry true (mkWorld σ []) = (w', inr s) ∧
    omap file_report (w_out w') = concat reps ∧ reports_for reps (enumerate1 (files_of σ d)).
Proof.
  intros Hd. rewrite organize_files_dir by done.
  destruct (wp_no_exc _ _ _ (run_files_reports tbl d dry (files_of σ d) (mkWorld σ [])))
    as (w' & s & Heq & new & Hout & reps & Hc & Hr).
  exists w', s, reps. split_and!; [done| |done]. by rewrite Hout.
Qed.

(** C29: liveness of the per-file reports: a verbose run on a directory
    always returns, and its console holds, for each file
    [(index, file_path)] of [enumerate(files, 1)] in turn, a non-empty
    group of lines naming [index] and [file_path.name] (a skip, a move,
    or a move followed by the [except] clause's line), and no other
    per-file line. *)
Theorem organize_files_verbose_reports `{DirLister} tbl d dry σ :
  is_dir σ d = true →
  ∃ w' s reps, organize_files tbl d dry true (mkWorld σ []) = (w', inr s) ∧
    omap file_report (w_out w') = concat reps ∧ reports_for reps (enumerate1 (files_of σ d)).
Proof. apply organize_files_reports. Qed.

(** ** Bounds of the summary *)

(** The errors a summary accounts for: one per listed error, [N] for
    the line [... and N more]. *)
Fixpoint errors_shown (new : list event) : nat :=
  match new with
  | [] => 0
  | EErrorItem _ _ :: new' => S (errors_shown new')
  | EMoreErrors k :: new' => k + errors_shown new'
  | _ :: new' => errors_shown new'
  end.

Lemma errors_shown_app l1 l2 : errors_shown (l1 ++ l2) = errors_shown l1 + errors_shown l2.
Proof. induction l1 as [|[] l1 IH]; cbn; rewrite ?IH; lia. Qed.

Lemma summary_lines_length dry verbose files ls :
  length (summary_lines dry verbose files ls) ≤ 10.
Proof.
  unfold summary_lines. cbv zeta. rewrite !length_app.
  repeat case_step; cbn [length]; rewrite ?length_app, ?length_fmap, ?length_take;
    cbn [length]; lia.
Qed.

Lemma summary_lines_errors dry verbose files ls :
  loop_inv ls → errors_shown (summary_lines dry verbose files ls) = errors (ls_stats ls).
Proof.
  intros [_ He]. assert (∀ l : list (string * py_exc),
    errors_shown ((λ fe : string * py_exc, EErrorItem fe.1 fe.2) <$> l) = length l) as Hitems.
  { induction l as [|fe l IH]; cbn; lia. }
  unfold summary_lines. cbv zeta. rewrite !errors_shown_app.
  destruct (ls_error_files ls) as [|fe l] eqn:Hl; cbn in He; rewrite <-He.
  - repeat case_step; cbn; lia.
  - rewrite (bool_decide_false (fe :: l = [])) by done.
    destruct (Nat.ltb_spec 3 (length (fe :: l))) as [Hlt|Hge];
      repeat case_step; cbn [negb errors_shown app];
      rewrite ?errors_shown_app, ?Hitems, ?length_take; cbn [errors_shown length Nat.ltb Nat.leb] in *; try discriminate; lia.
Qed.

(** C30: the summary stays short and complete: [print_summary] returns
    normally, changes no file, appends at most ten lines (the three
    heading prints count as one) whatever the number of files and
    failures, and the errors it lists ([error_files[:3]]) plus the [N]
    of [... and N more] are exactly [stats["errors"]]. *)
Theorem print_summary_bounded dry verbose files ls w :
  loop_inv ls →
  ∃ new, print_summary dry verbose files ls w = (mkWorld (w_fs w) (w_out w ++ new), inr tt) ∧
         length new ≤ 10 ∧ errors_shown new = errors (ls_stats ls).
Proof.
  intros Hinv. exists (summary_lines dry verbose files ls).
  split_and!; [apply print_summary_run|apply summary_lines_length|by apply summary_lines_errors].
Qed.
(** ** Witnesses *)

Lemma organize_files_verbose_reports_witness :
  is_dir Fixtures.scenario_collision Fixtures.downloads = true ∧
  ∃ w' s reps,
    organize_files (H:=sorted_lister) AINativeConfig.FILE_CATEGORIES Fixtures.downloads false true
      (mkWorld Fixtures.scenario_collision []) = (w', inr s) ∧
    omap file_report (w_out w') = concat reps ∧
    reports_for reps (enumerate1 (files_of (H:=sorted_lister) Fixtures.scenario_collision
                                           Fixtures.downloads)).
Proof.
  split; [vm_compute; reflexivity|].
  apply organize_files_verbose_reports. vm_compute. reflexivity.
Defined.

(** Five failed files: three are listed, the last line says two more. *)
Definition five_errors : loop_state :=
  mkLoop (mkStats 0 0 5) []
         [("a.pdf", PermissionError); ("b.pdf", OSError_EIO); ("c.pdf", ShutilError);
          ("d.pdf", OSError_EIO); ("e.pdf", ShutilError)].

Lemma print_summary_bounded_witness :
  loop_inv five_errors ∧
  ∃ new, print_summary false true [] five_errors (mkWorld Fixtures.scenario_collision []) =
           (mkWorld (w_fs (mkWorld Fixtures.scenario_collision []))
                    (w_out (mkWorld Fixtures.scenario_collision []) ++ new), inr tt) ∧
         length new ≤ 10 ∧ errors_shown new = errors (ls_stats five_errors).
Proof.
  split; [split; reflexivity|]. apply print_summary_bounded. split; reflexivity.
Defined.
End Reporting.
