(* ===== verification/Main.v ===== *)
(** * The entry points: [main()] and the module-level code of both [main.py]

    AI-native [main.py] lines 12-25 (the [config] import and its
    fallback) and 203-235 ([main()] and the [__main__] guard); basic
    [main.py] lines 13 and 98-127.  Both [main()] parse the command line
    ([Argparse.parse_args]), print a title and the target folder, and
    call [organize_files(args.path, ...)], whose first line turns the
    argument into a [Path] (AI-native line 86 also calls [.expanduser()],
    basic line 43 does not).

    The program's console and filesystem are a [cli_world]: the console
    holds [line]s, the organizer's own events wrapped in [LOrg].  An
    exception that leaves [main()] is a [main_exc]: [SystemExit] from
    [argparse], the [TypeError] of [Path([])], the [RuntimeError] of
    [expanduser()], an exception of the organizer; [exit_status] is the
    process's exit status.

    [Path(s)] is [pure_path] (POSIX [PurePath] parsing: empty and ["."]
    components dropped, [".."] kept); the operating system resolves a
    relative path against the working directory [cwd] and each [".."]
    against the directory it follows ([resolve]; a [".."] after a
    component that is not a directory names nothing, and the organizer
    then reports the folder missing).  [os.path.expanduser] of a first
    component ["~"] or ["~user"] reads the environment and the password
    database; it is the parameter [os_expanduser]. *)

From Stdlib Require Import Ascii.
From stdpp Require Import base gmap strings list.
From S2P Require Import Prelude PyPath FileSystem Config Organizer BasicOrganizer Argparse.

Module Main.
Import FS Argparse.

(** ** Paths from strings *)

(** [s.split('/')]. *)
Fixpoint split_slash (s : string) : list string :=
  match s with
  | EmptyString => [EmptyString]
  | String c s' =>
      let parts := split_slash s' in
      if bool_decide (c = "/"%char) then EmptyString :: parts
      else match parts with
           | p :: ps => String c p :: ps
           | [] => [String c EmptyString]
           end
  end.

Definition starts_with (c : ascii) (s : string) : bool :=
  match s with String c' _ => bool_decide (c' = c) | EmptyString => false end.

(** [PurePosixPath(s)]: whether it is absolute, and its parts. *)
Definition pure_path (s : string) : bool * list string :=
  (starts_with "/" s,
   filter (λ x, x ≠ EmptyString ∧ x ≠ ".") (split_slash s)).

(** [str(p)] of an absolute path. *)
Definition str_path (p : path) : string :=
  match p with
  | [] => "/"
  | _ => String.concat "/" (EmptyString :: p)
  end.

(** [Path.expanduser()]: [None] is its [RuntimeError("Could not
    determine home directory.")]. *)
Definition expanduser (os_expanduser : string → string) (pp : bool * list string)
    : option (bool * list string) :=
  match pp with
  | (false, c :: rest) =>
      if starts_with "~" c then
        let homedir := os_expanduser c in
        if starts_with "~" homedir then None
        else let hp := pure_path homedir in Some (hp.1, hp.2 ++ rest)
      else Some pp
  | _ => Some pp
  end.

(** The path the operating system looks up for the parts [parts]
    taken from directory [cur]. *)
Fixpoint resolve (σ : fs) (cur : path) (parts : list string) : option path :=
  match parts with
  | [] => Some cur
  | c :: ps =>
      if bool_decide (c = "..") then
        if is_dir σ cur then resolve σ (PyPath.parent cur) ps else None
      else resolve σ (PyPath.join cur c) ps
  end.

(** ** The program's world *)

Inductive line (E : Type) :=
  | LHelp
  | LUsageError (e : arg_error)
  | LTitle
  | LTarget (s : string)
  | LOrg (e : E).
Arguments LHelp {E}.
Arguments LUsageError {E} e.
Arguments LTitle {E}.
Arguments LTarget {E} s.
Arguments LOrg {E} e.

Record cli_world (E : Type) := mkCli { cw_fs : fs; cw_out : list (line E) }.
Arguments mkCli {E} _ _.
Arguments cw_fs {E} _.
Arguments cw_out {E} _.

Inductive main_exc :=
  | SystemExit (code : nat)
  | ModuleNotFoundError
  | TypeError
  | RuntimeError
  | Uncaught (e : py_exc).

(** The exit status of the Python process. *)
Definition exit_status {A} (r : main_exc + A) : nat :=
  match r with
  | inr _ => 0
  | inl (SystemExit n) => n
  | inl _ => 1
  end.

(** [f"Target folder: {args.path}"]. *)
Definition target_str (p : path_arg) : string :=
  match p with
  | PathStr s => s
  | PathObj d => str_path d
  | PathList => "[]"
  end.

(** ** [main()] of either version *)

Section Main.
Context {E : Type}.
(** [organize_files(d, dry_run, verbose)] from a filesystem: the final
    filesystem, the lines it printed, the exception it let escape. *)
Context (organize : path → bool → bool → fs → fs * list E * option py_exc).
(** The line [organize_files] prints when [downloads_path] does not exist. *)
Context (dir_not_found : path → E).
(** Whether [organize_files] calls [.expanduser()]. *)
Context (expand : bool).
Context (os_expanduser : string → string) (cwd : path).

Abbreviation CM := (PyM (cli_world E) main_exc).

Definition print (l : line E) : CM unit :=
  py_modify (λ w, mkCli (cw_fs w) (cw_out w ++ [l])).

(** [Path(downloads_path)], then [.expanduser()] when [expand]. *)
Definition to_path (p : path_arg) : main_exc + (bool * list string) :=
  match p with
  | PathList => inl TypeError
  | PathObj d => inr (true, d)
  | PathStr s =>
      let pp := pure_path s in
      if expand then
        match expanduser os_expanduser pp with
        | Some pp' => inr pp'
        | None => inl RuntimeError
        end
      else inr pp
  end.

Definition run_organizer (d : path) (dry_run verbose : bool) : CM unit :=
  λ w, let '(σ', out, r) := organize d dry_run verbose (cw_fs w) in
       (mkCli σ' (cw_out w ++ map LOrg out),
        match r with Some e => inl (Uncaught e) | None => inr tt end).

(** [organize_files(args.path, dry_run=args.dry_run, verbose=args.verbose)]. *)
Definition organize_path (p : path_arg) (dry_run verbose : bool) : CM unit :=
  pp <- py_of_sum (to_path p) ;;
  w <- py_get ;;
  let start := if pp.1 then [] else cwd in
  match resolve (cw_fs w) start pp.2 with
  | Some d => run_organizer d dry_run verbose
  | None => print (LOrg (dir_not_found (start ++ pp.2)))
  end.

Definition main (default : path_arg) (argv : list string) : CM unit :=
  match parse_args default argv with
  | ParsedHelp => print LHelp ;; py_raise (SystemExit 0)
  | ParseError e => print (LUsageError e) ;; py_raise (SystemExit 2)
  | Parsed args =>
      print LTitle ;;
      print (LTarget (target_str (args_path args))) ;;
      organize_path (args_path args) (args_dry_run args) (args_verbose args)
  end.
End Main.

(** ** The two programs *)

(** The AI-native [organize_files] from a filesystem. *)
Definition ai_organize `{DirLister} (FILE_CATEGORIES : category_table)
    (d : path) (dry_run verbose : bool) (σ : fs) : fs * list Organizer.event * option py_exc :=
  let r := Organizer.organize_files FILE_CATEGORIES d dry_run verbose (Organizer.mkWorld σ []) in
  (Organizer.w_fs r.1, Organizer.w_out r.1, match r.2 with inl e => Some e | inr _ => None end).

Definition basic_organize `{DirLister} (FILE_CATEGORIES : category_table)
    (d : path) (dry_run verbose : bool) (σ : fs) : fs * list BasicOrganizer.event * option py_exc :=
  let r := BasicOrganizer.organize_files FILE_CATEGORIES d dry_run verbose
             (BasicOrganizer.mkWorld σ []) in
  (BasicOrganizer.bw_fs r.1, BasicOrganizer.bw_out r.1,
   match r.2 with inl e => Some e | inr _ => None end).

(** AI-native [main()] (lines 203-231) with the table and [DOWNLOADS_PATH]
    the module imported: [--path] defaults to [str(DOWNLOADS_PATH)]. *)
Definition ai_main `{DirLister} (FILE_CATEGORIES : category_table) (DOWNLOADS_PATH : path)
    (os_expanduser : string → string) (cwd : path) (argv : list string)
    : PyM (cli_world Organizer.event) main_exc unit :=
  main (ai_organize FILE_CATEGORIES) Organizer.EDirNotFound true os_expanduser cwd
       (PathStr (str_path DOWNLOADS_PATH)) argv.

(** Basic [main()] (lines 98-123): [--path] defaults to the [Path]
    object [DOWNLOADS_PATH]. *)
Definition basic_main `{DirLister} (home : path) (os_expanduser : string → string) (cwd : path)
    (argv : list string) : PyM (cli_world BasicOrganizer.event) main_exc unit :=
  main (basic_organize BasicConfig.FILE_CATEGORIES) BasicOrganizer.BDirNotFound false
       os_expanduser cwd (PathObj (BasicConfig.DOWNLOADS_PATH home)) argv.

(** AI-native [main.py] run as a script: [config.py] beside it or the
    fallback table of lines 15-25, then [main()] (lines 234-235). *)
Definition ai_script `{DirLister} (config_present : bool) (home : path)
    (os_expanduser : string → string) (cwd : path) (argv : list string)
    : PyM (cli_world Organizer.event) main_exc unit :=
  if config_present
  then ai_main AINativeConfig.FILE_CATEGORIES (AINativeConfig.DOWNLOADS_PATH home)
               os_expanduser cwd argv
  else ai_main MainFallbackConfig.FILE_CATEGORIES (MainFallbackConfig.DOWNLOADS_PATH home)
               os_expanduser cwd argv.

(** Basic [main.py] run as a script: line 13 imports [config] with no
    fallback, then [main()] (lines 126-127). *)
Definition basic_script `{DirLister} (config_present : bool) (home : path)
    (os_expanduser : string → string) (cwd : path) (argv : list string)
    : PyM (cli_world BasicOrganizer.event) main_exc unit :=
  if config_present then basic_main home os_expanduser cwd argv
  else py_raise ModuleNotFoundError.

End Main.
