(* ===== verification/MainProps.v ===== *)
(** * Properties of the entry points

    What [main()] does with the command line, for any organizer it
    calls: a command line holding ["--"] ends in the help or in a usage
    error before any folder is touched; a command line holding
    [--dry-run] leaves the filesystem as it was, whatever else it holds,
    for both programs (the dry-run theorems of the organizers composed
    with the parser's). *)

From stdpp Require Import base gmap strings list.
From S2P Require Import Prelude PyPath FileSystem Config Organizer Fixtures OrganizerProps BasicOrganizer BasicProps Argparse Main.

Module MainProps.
Import Argparse Main.

Section Generic.
Context {E : Type} (organize : path → bool → bool → fs → fs * list E * option py_exc)
        (dir_not_found : path → E) (expand : bool) (os_expanduser : string → string)
        (cwd : path).

Local Abbreviation main := (main organize dir_not_found expand os_expanduser cwd).

(** [main] after a successful parse. *)
Lemma main_parsed default argv a w :
  parse_args default argv = Parsed a →
  main default argv w =
  organize_path organize dir_not_found expand os_expanduser cwd
    (args_path a) (args_dry_run a) (args_verbose a)
    (mkCli (cw_fs w) (cw_out w ++ [LTitle; LTarget (target_str (args_path a))])).
Proof. intros Hp. unfold Main.main. rewrite Hp. cbn. by rewrite <-app_assoc. Qed.

(** [organize_path] changes the filesystem only through [organize]. *)
Lemma organize_path_fs (R : relation fs) `{!PreOrder R} p dry verbose w :
  (∀ d σ, R σ (organize d dry verbose σ).1.1) →
  R (cw_fs w) (cw_fs (organize_path organize dir_not_found expand os_expanduser cwd
                        p dry verbose w).1).
Proof.
  intros Horg. unfold organize_path, py_bind, py_of_sum, py_get.
  destruct (to_path _ _ p) as [e|pp]; cbn; [reflexivity|].
  destruct (resolve _ _ _) as [d|]; cbn; [|reflexivity].
  unfold run_organizer. destruct (organize d dry verbose (cw_fs w)) as [[σ' out] r] eqn:Ho.
  cbn. specialize (Horg d (cw_fs w)). rewrite Ho in Horg. done.
Qed.

Lemma main_dry_run_keeps default argv w :
  (∀ d verbose σ, (organize d true verbose σ).1.1 = σ) →
  "--dry-run" ∈ argv → cw_fs (main default argv w).1 = cw_fs w.
Proof.
  intros Hdry Hin. destruct (parse_args default argv) as [| |a] eqn:Hp.
  - unfold Main.main. by rewrite Hp.
  - unfold Main.main. by rewrite Hp.
  - rewrite (main_parsed _ _ a) by done. destruct (parse_args_marks _ _ _ Hp) as [_ Hd].
    rewrite (Hd Hin). symmetry.
    refine (organize_path_fs eq _ _ _ (mkCli (cw_fs w) _) _). intros; by rewrite Hdry.
Qed.

Lemma main_separator default argv w :
  "--" ∈ argv →
  main default argv w = (mkCli (cw_fs w) (cw_out w ++ [LHelp]), inl (SystemExit 0)) ∨
  ∃ e, main default argv w =
       (mkCli (cw_fs w) (cw_out w ++ [LUsageError e]), inl (SystemExit 2)).
Proof.
  intros Hin. unfold Main.main. destruct (parse_args default argv) as [|e|a] eqn:Hp.
  - by left.
  - right. by exists e.
  - by destruct (parse_args_marks _ _ _ Hp) as [? _].
Qed.

(** C28: a command line holding the separator ["--"] never reaches the
    organizer: [main()] prints the help and exits with status 0, or
    prints a usage error and exits with status 2, and the filesystem is
    untouched ([argparse] leaves every string after ["--"] unconsumed,
    and the parser has no positional argument to take them). *)
Theorem main_separator_exits default argv w :
  "--" ∈ argv →
  main default argv w = (mkCli (cw_fs w) (cw_out w ++ [LHelp]), inl (SystemExit 0)) ∨
  ∃ e, main default argv w =
       (mkCli (cw_fs w) (cw_out w ++ [LUsageError e]), inl (SystemExit 2)).
Proof. apply main_separator. Qed.
End Generic.

(** ** Both programs *)

Lemma ai_organize_dry `{DirLister} tbl d verbose σ : (ai_organize tbl d true verbose σ).1.1 = σ.
Proof.
  unfold ai_organize. cbn. symmetry.
  refine (OrganizerProps.organize_files_preserves eq tbl d true verbose _ (Organizer.mkWorld σ [])).
  intros; apply OrganizerProps.process_body_dry_preserves.
Qed.

Lemma basic_organize_dry `{DirLister} tbl d verbose σ : (basic_organize tbl d true verbose σ).1.1 = σ.
Proof.
  unfold basic_organize. cbn. symmetry.
  apply (BasicProps.basic_run_keeps eq tbl d true verbose (BasicOrganizer.mkWorld σ [])).
  intros. apply BasicProps.process_file_dry.
Qed.

(** C27: [--dry-run] anywhere on the command line keeps the whole
    program, either version, from changing the filesystem: whatever the
    other arguments, the [--path] given, the folder's contents and
    whether [config.py] can be imported. *)
Theorem script_dry_run_no_mutation `{DirLister} config_present home os_expanduser cwd argv w w' :
  "--dry-run" ∈ argv →
  cw_fs (ai_script config_present home os_expanduser cwd argv w).1 = cw_fs w ∧
  cw_fs (basic_script config_present home os_expanduser cwd argv w').1 = cw_fs w'.
Proof.
  intros Hin. split.
  - unfold ai_script, ai_main. destruct config_present;
      (apply main_dry_run_keeps; [|done]); intros; apply ai_organize_dry.
  - unfold basic_script, basic_main. destruct config_present; [|done].
    apply main_dry_run_keeps; [|done]. intros; apply basic_organize_dry.
Qed.

(** ** Witnesses *)

(** [os.path.expanduser] for a user [u] whose home is [/home/u]. *)
Definition sample_expanduser (c : string) : string :=
  if bool_decide (c = "~") then "/home/u" else c.

Lemma main_separator_exits_witness :
  "--" ∈ ["--path"; "x"; "--"] ∧
  (main (ai_organize (H:=sorted_lister) AINativeConfig.FILE_CATEGORIES) Organizer.EDirNotFound
        true sample_expanduser Fixtures.home (PathStr "/home/u/Downloads") ["--path"; "x"; "--"]
        (mkCli Fixtures.scenario_collision []) =
     (mkCli Fixtures.scenario_collision ([] ++ [LHelp]), inl (SystemExit 0)) ∨
   ∃ e, main (ai_organize (H:=sorted_lister) AINativeConfig.FILE_CATEGORIES) Organizer.EDirNotFound
        true sample_expanduser Fixtures.home (PathStr "/home/u/Downloads") ["--path"; "x"; "--"]
        (mkCli Fixtures.scenario_collision []) =
     (mkCli Fixtures.scenario_collision ([] ++ [LUsageError e]), inl (SystemExit 2))).
Proof.
  split; [repeat constructor|].
  apply (main_separator_exits _ _ _ _ _ _ _ (mkCli Fixtures.scenario_collision [])).
  repeat constructor.
Defined.

Lemma script_dry_run_no_mutation_witness :
  "--dry-run" ∈ ["--verbose"; "--path=~/Downloads"; "--dry-run"] ∧
  cw_fs (ai_script (H:=sorted_lister) true Fixtures.home sample_expanduser Fixtures.home
           ["--verbose"; "--path=~/Downloads"; "--dry-run"]
           (mkCli Fixtures.scenario_collision [])).1 = Fixtures.scenario_collision ∧
  cw_fs (basic_script (H:=sorted_lister) true Fixtures.home sample_expanduser Fixtures.home
           ["--verbose"; "--path=~/Downloads"; "--dry-run"]
           (mkCli Fixtures.scenario_collision [])).1 = Fixtures.scenario_collision.
Proof.
  split; [repeat constructor|].
  apply (script_dry_run_no_mutation _ _ _ _ _ (mkCli Fixtures.scenario_collision [])
           (mkCli Fixtures.scenario_collision [])).
  repeat constructor.
Defined.

End MainProps.
